(** * StarryNight catalogue scripts: a shallow embedding and its properties

    The repository's scripts convert the HYG star catalogue (a CSV file) into
    SQLite tables:

    - [scripts/hyg_to_sqlite_brightest.py]  (module [Brightest])
    - [scripts/hyg_to_sqlite_h3.py]         (module [H3])
    - [scripts/hyg_to_sqlite_star_info.py]  (module [StarInfo])
    - [scripts/sqlite_dump.py]              (module [Dump])
    - [scripts/sqlite_schema.py]            (module [Schema])

    Python values are modelled as follows.  A [str] is a [string] whose
    characters are code points below 256; an [int] is a [Z]; a [float] is an
    IEEE-754 binary64 value, [spec_float] at precision 53; [None] is the
    [None] of [option].  A raised exception is a value of [exn] carried by
    the result type [res]; [sys.exit] is an explicit outcome.  Python's
    builtins [int()] and [float()], the C library's [asin] and [atan2] and the
    third-party [h3.latlng_to_cell] are not code of the repository: the
    functions that call them take them as section variables.  So it is with
    [list.sort] on keys among which there is a NaN; on other keys it is the
    stable sort. *)

From Stdlib Require Import ZArith List String Ascii Bool Lia.
From Stdlib Require Import Permutation Sorted.
From Stdlib Require Import Floats.SpecFloat.
Import ListNotations.


(* ================================================================== *)
(** * Python strings *)
(* ================================================================== *)

Module PyStr.

Open Scope string_scope.

(** Code point of a character. *)
Definition ord (c : ascii) : N := N_of_ascii c.

Definition in_range (lo hi : N) (c : ascii) : bool :=
  (N.leb lo (ord c) && N.leb (ord c) hi)%bool.

(** [str.isspace] for one character: TAB..CR, FS..US, SPACE, NEL, NBSP. *)
Definition isspace (c : ascii) : bool :=
  (in_range 9 13 c || in_range 28 32 c
   || N.eqb (ord c) 133 || N.eqb (ord c) 160)%bool.

(** [str.isupper] for one character: A..Z and the upper-case letters of the
    Latin-1 supplement (U+00C0..U+00DE without the multiplication sign). *)
Definition isupper (c : ascii) : bool :=
  (in_range 65 90 c || in_range 192 214 c || in_range 216 222 c)%bool.

(** [str.lower] on one character: every upper-case letter below 256 has its
    lower-case form 32 code points above it. *)
Definition lower_char (c : ascii) : ascii :=
  if isupper c then ascii_of_N (ord c + 32) else c.

(** [s.lower()] *)
Fixpoint lower (s : string) : string :=
  match s with
  | EmptyString => EmptyString
  | String c s' => String (lower_char c) (lower s')
  end.

(** Truthiness of a string: [if s] holds for the non-empty ones. *)
Definition truthy (s : string) : bool :=
  match s with EmptyString => false | String _ _ => true end.

(** [s.lstrip()] *)
Fixpoint lstrip (s : string) : string :=
  match s with
  | EmptyString => EmptyString
  | String c s' => if isspace c then lstrip s' else s
  end.

(** [s.rstrip()] *)
Fixpoint rstrip (s : string) : string :=
  match s with
  | EmptyString => EmptyString
  | String c s' =>
      match rstrip s' with
      | EmptyString => if isspace c then EmptyString else String c EmptyString
      | r => String c r
      end
  end.

(** [s.strip()] *)
Definition strip (s : string) : string := rstrip (lstrip s).

(** [s.startswith(p)] *)
Definition startswith (s p : string) : bool := String.prefix p s.

(** [len(s)] *)
Definition len (s : string) : Z := Z.of_nat (String.length s).

(** [s[n:]] for a non-negative [n]. *)
Fixpoint drop (n : nat) (s : string) : string :=
  match n, s with
  | O, _ => s
  | S _, EmptyString => EmptyString
  | S n', String _ s' => drop n' s'
  end.

(** Every character of [s] satisfies [p]. *)
Fixpoint all (p : ascii -> bool) (s : string) : bool :=
  match s with
  | EmptyString => true
  | String c s' => (p c && all p s')%bool
  end.

End PyStr.

(* ================================================================== *)
(** * Spectral class extraction
      ([extract_spectral_class], the same text in the brightest-N and the H3
      script) *)
(* ================================================================== *)

Module Spectral.

Import PyStr.
Open Scope string_scope.

(** The loop [for char in text: if char.isupper(): return char]; [None] when
    the loop runs to its end. *)
Fixpoint first_upper (text : string) : option ascii :=
  match text with
  | EmptyString => None
  | String char rest => if isupper char then Some char else first_upper rest
  end.

(** [extract_spectral_class(spect)].  A branch whose loop finds no upper-case
    letter falls through to the final [return None]. *)
Definition extract_spectral_class (spect : string) : option ascii :=
  if (negb (truthy spect) || negb (truthy (strip spect)))%bool then None
  else
    let spect := strip spect in
    if (startswith (lower spect) "sd" && (2 <? len spect)%Z)%bool then
      first_upper (drop 2 spect)
    else if (startswith (lower spect) "d" && (1 <? len spect)%Z)%bool then
      first_upper (drop 1 spect)
    else
      first_upper spect.

(** The rule as the specification words it: the prefixes are the two
    literal strings "sd" and "d", the answer is the first upper-case letter
    of what follows them. *)
Definition strip_known_prefix (text : string) : string :=
  if startswith text "sd" then drop 2 text
  else if startswith text "d" then drop 1 text
  else text.

Definition spectral_class_by_rule (spect : string) : option ascii :=
  first_upper (strip_known_prefix (strip spect)).

(** What the code removes in front: matched without regard to case, and only
    when some text is left behind it. *)
Inductive remaining_text : string -> string -> Prop :=
| rem_sd : forall a b c r,
    lower_char a = "s"%char -> lower_char b = "d"%char ->
    remaining_text (String a (String b (String c r))) (String c r)
| rem_d : forall a c r,
    lower_char a = "d"%char ->
    remaining_text (String a (String c r)) (String c r)
| rem_none : forall t,
    (forall a b c r, t = String a (String b (String c r)) ->
                     ~ (lower_char a = "s"%char /\ lower_char b = "d"%char)) ->
    (forall a c r, t = String a (String c r) -> lower_char a <> "d"%char) ->
    remaining_text t t.

(** [c] is the first upper-case letter of [text], or there is none. *)
Definition is_first_upper (text : string) (r : option ascii) : Prop :=
  match r with
  | Some c => exists pre post,
      text = pre ++ String c post /\ isupper c = true /\
      all (fun x => negb (isupper x)) pre = true
  | None => all (fun x => negb (isupper x)) text = true
  end.

End Spectral.

(* ================================================================== *)
(** * Python values, exceptions and the run of a script *)
(* ================================================================== *)

Module Py.

(** The exception classes the scripts can meet.  All of them are subclasses
    of [Exception]; [SqliteError] stands for [sqlite3.Error] and its
    subclasses, [OSError] for the failures of [open], [os.remove] and file
    reads and writes. *)
Inductive exn : Type :=
| ValueError | TypeError | IndexError | KeyError | UnboundLocalError
| OSError | SqliteError | OtherError.

(** [isinstance(e, sqlite3.Error)] *)
Definition is_sqlite_error (e : exn) : bool :=
  match e with SqliteError => true | _ => false end.

(** [isinstance(e, (ValueError, TypeError))] *)
Definition is_value_or_type_error (e : exn) : bool :=
  match e with ValueError | TypeError => true | _ => false end.

(** The result of evaluating an expression: a value, or a raised exception. *)
Inductive res (A : Type) : Type :=
| Ok (a : A)
| Raise (e : exn).
Arguments Ok {A} a.
Arguments Raise {A} e.

Definition bind {A B} (r : res A) (k : A -> res B) : res B :=
  match r with Ok a => k a | Raise e => Raise e end.

(** A builtin that raises [ValueError] and nothing else, as a partial function. *)
Definition or_value_error {A} (o : option A) : res A :=
  match o with Some a => Ok a | None => Raise ValueError end.

(** How a run of a function of a script ends: it returns, it calls
    [sys.exit(code)], or an exception leaves it uncaught. *)
Inductive outcome (A : Type) : Type :=
| Done (a : A)
| Exit (code : Z)
| Uncaught (e : exn).
Arguments Done {A} a.
Arguments Exit {A} code.
Arguments Uncaught {A} e.


(** ** Floats (IEEE-754 binary64) *)

Definition prec : Z := 53.
Definition emax : Z := 1024.
Definition float : Type := spec_float.

Definition fmul : float -> float -> float := SFmul prec emax.
Definition fadd : float -> float -> float := SFadd prec emax.
Definition fdiv : float -> float -> float := SFdiv prec emax.
Definition feqb : float -> float -> bool := SFeqb.
Definition fltb : float -> float -> bool := SFltb.

(** [float(n)] for an [int] [n]: the nearest binary64 value. *)
Definition float_of_Z (n : Z) : float := binary_normalize prec emax n 0 false.

(** [float('inf')] *)
Definition inf : float := S754_infinity false.

(** [math.pi], 0x1.921fb54442d18p+1 *)
Definition pi : float := S754_finite false 7074237752028440 (-51).

Definition is_nan (x : float) : bool :=
  match x with S754_nan => true | _ => false end.

(** Plus or minus zero. *)
Definition is_zero (x : float) : bool :=
  match x with S754_zero _ => true | _ => false end.

(** The sign bit of a zero, an infinity or a finite number. *)
Definition sign_bit (x : float) : bool :=
  match x with
  | S754_zero s | S754_infinity s | S754_finite s _ _ => s
  | S754_nan => false
  end.

(** [math.sqrt]: the correctly rounded square root; a NaN result for an
    argument that is not a NaN is the [ValueError] "math domain error". *)
Definition math_sqrt (x : float) : res float :=
  let r := SFsqrt prec emax x in
  if (is_nan r && negb (is_nan x))%bool then Raise ValueError else Ok r.

(** ** Sequences *)

(** [l[i]]: a negative index counts from the end, an index outside
    [-len(l) .. len(l)-1] raises [IndexError]. *)
Definition index {A} (l : list A) (i : Z) : res A :=
  let n := Z.of_nat (List.length l) in
  let j := if (i <? 0)%Z then (i + n)%Z else i in
  if ((0 <=? j)%Z && (j <? n)%Z)%bool then
    match nth_error l (Z.to_nat j) with
    | Some a => Ok a
    | None => Raise IndexError
    end
  else Raise IndexError.

(** [l[:n]]: a negative [n] counts from the end. *)
Definition slice_to {A} (l : list A) (n : Z) : list A :=
  let len := Z.of_nat (List.length l) in
  let stop := if (n <? 0)%Z then Z.max 0 (n + len)%Z else n in
  firstn (Z.to_nat stop) l.

(** [range(a, b)] *)
Definition range (a b : Z) : list Z :=
  map (fun k => (a + Z.of_nat k)%Z) (seq 0 (Z.to_nat (b - a))).

(** The stable sort on float keys.  Python's [list.sort] is stable and
    compares keys with [<] only; [insert] puts an element behind the
    elements that are not greater, so equal keys keep their order.  On keys
    without NaN, where [<] is a strict weak order, every stable sort
    returns this list, [list.sort] among them.  (With a NaN among the keys
    [list.sort] is another function: see [list_sort] below.) *)
Fixpoint insert {A} (key : A -> float) (a : A) (l : list A) : list A :=
  match l with
  | [] => [a]
  | b :: l' => if fltb (key b) (key a) then b :: insert key a l'
               else a :: l
  end.

Fixpoint sort {A} (key : A -> float) (l : list A) : list A :=
  match l with
  | [] => []
  | a :: l' => insert key a (sort key l')
  end.

(** [b] is not before [a] in the order of the keys: its key is not less. *)
Definition not_greater {A} (key : A -> float) (a b : A) : Prop :=
  fltb (key b) (key a) = false.

(** No key is a NaN. *)
Definition no_nan {A} (key : A -> float) (l : list A) : Prop :=
  Forall (fun a => is_nan (key a) = false) l.

(** Some key is a NaN. *)
Definition has_nan {A} (key : A -> float) (l : list A) : bool :=
  existsb (fun a => is_nan (key a)) l.

(** [sorted] is [l] in ascending order of the keys, stably: a permutation
    of [l] in which no element is followed by one with a smaller key, in
    which the elements of equal key stand in the order they have in [l],
    and in which only keys equal to plus infinity follow a key that is plus
    infinity. *)
Definition stable_ascending {A} (key : A -> float) (l sorted : list A)
  : Prop :=
  Permutation l sorted /\
  StronglySorted (not_greater key) sorted /\
  (forall m, filter (fun s => feqb (key s) m) sorted
             = filter (fun s => feqb (key s) m) l) /\
  (forall pre a post, sorted = pre ++ a :: post -> key a = inf ->
                      Forall (fun b => key b = inf) post).

(** ** What the scripts call and do not define

    [py_int] and [py_float] are the builtins [int()] and [float()] on a
    [str] ([None]: [ValueError]); [math_asin] and [math_atan2] are
    [math.asin] and [math.atan2] ([None]: [ValueError], "math domain
    error"); [latlng_to_cell] is [h3.latlng_to_cell] ([None]: it raises,
    whatever the exception).  [sort_with_nan] is the list that [list.sort]
    leaves when a key is a NaN: [<] is then no order on the keys, and the
    result is whatever the comparisons of the interpreter's merge sort
    happen to give (on the keys 3, 1, nan, 2 CPython leaves 1, 2, 3, nan,
    on 2, nan, 1 it leaves 2, nan, 1). *)
Class Externals : Type := {
  py_int : string -> option Z;
  py_float : string -> option float;
  math_asin : float -> option float;
  math_atan2 : float -> float -> option float;
  latlng_to_cell : float -> float -> Z -> option string;
  sort_with_nan : forall A : Type, (A -> float) -> list A -> list A
}.

(** [l.sort(key=key)] on float keys: the stable sort when no key is a NaN,
    and what the interpreter leaves otherwise. *)
Definition list_sort {E : Externals} {A} (key : A -> float) (l : list A)
  : list A :=
  if has_nan key l then sort_with_nan A key l else sort key l.

End Py.

Declare Scope py_scope.
Delimit Scope py_scope with py.
Notation "x <- e ;; k" := (Py.bind e (fun x => k))
  (at level 61, e at next level, right associativity) : py_scope.
Infix "*!" := Py.fmul (at level 40, left associativity) : py_scope.
Infix "+!" := Py.fadd (at level 50, left associativity) : py_scope.
Infix "/!" := Py.fdiv (at level 40, left associativity) : py_scope.

(* ================================================================== *)
(** * Cartesian coordinates to latitude and longitude
      ([cartesian_to_lat_lon], the same text in the brightest-N and the H3
      script) *)
(* ================================================================== *)

Module LatLon.

Import Py.
Open Scope py_scope.

Section WithExternals.
Context {E : Externals}.

(** The vector's length as the function computes it. *)
Definition magnitude_of (x y z : float) : res float :=
  math_sqrt (x *! x +! y *! y +! z *! z).

(** [cartesian_to_lat_lon(x, y, z)]; the pair [(None, None)] is the
    function's "no result". *)
Definition cartesian_to_lat_lon (x y z : float)
  : res (option float * option float) :=
  magnitude <- magnitude_of x y z ;;
  if feqb magnitude (float_of_Z 0) then Ok (None, None)
  else
    let x_norm := x /! magnitude in
    let y_norm := y /! magnitude in
    let z_norm := z /! magnitude in
    a <- or_value_error (math_asin z_norm) ;;
    let lat := a *! float_of_Z 180 /! pi in
    b <- or_value_error (math_atan2 y_norm x_norm) ;;
    let lon := b *! float_of_Z 180 /! pi in
    Ok (Some lat, Some lon).

End WithExternals.

End LatLon.

(* ================================================================== *)
(** * The CSV file, the printed lines, the database session *)
(* ================================================================== *)

Module Csv.

Import Py.

(** A row of [csv.DictReader]: the cell under each column name.  A cell
    that is missing (a short row gives [None], [row.get(col, '')] gives the
    empty string) is the empty string here: every use in the scripts tests
    the cell's truthiness first, and both are falsy. *)
Definition row : Type := string -> string.

(** The file as a script meets it: whether the path exists, whether [open]
    raises, the header ([reader.fieldnames]; reading it may raise), the rows
    the reader yields and the exception, if any, that ends the iteration
    after them. *)
Record file : Type := {
  path_exists : bool;
  open_error : option exn;
  fieldnames : res (list string);
  rows : list row;
  read_error : option exn
}.

(** A row given by its cells, for examples. *)
Fixpoint row_of (cells : list (string * string)) : row :=
  fun col =>
    match cells with
    | [] => EmptyString
    | (c, v) :: rest => if String.eqb c col then v else row_of rest col
    end.

End Csv.

Module Log.

Import Py.

(** The lines a script prints, one constructor for each [print] statement
    whose text a property reads; [Info] stands for the progress and report
    lines. *)
Inductive line : Type :=
| Info (text : string)
(** "Error: CSV file '...' does not exist." *)
| Error_csv_missing
(** "Error: CSV file is missing required columns: ..." *)
| Error_missing_columns (missing : list string)
(** "Error reading CSV file: {e}" *)
| Error_reading_csv (e : exn)
(** "Error creating SQLite database: {e}" *)
| Error_creating_database (e : exn)
(** "Error: No valid star data found in CSV file." *)
| Error_no_valid_data
(** "Error: No stars could be processed with H3 hashing." *)
| Error_no_h3_stars
(** "Warning: Skipping row with invalid data: {e}", with the row number in
    the star-info script *)
| Warning_invalid_row (row_num : option Z) (e : exn)
(** "Warning: Skipping row {row_num} - no ID" *)
| Warning_no_id (row_num : Z)
(** "Warning: Could not generate H3 hash for star {id}: {e}" *)
| Warning_h3 (id : option Z)
(** "Warning: Could not convert coordinates for star {id}" *)
| Warning_coordinates (id : option Z)
(** "Error: Database file '...' does not exist." and its twin for the dump *)
| Error_input_missing
(** "Error exporting database: {e}" *)
| Error_exporting (e : exn)
(** "Error importing SQL dump: {e}" *)
| Error_importing (e : exn)
(** "Warning: '...' already exists and will be overwritten." *)
| Warning_overwrite.

(** A line that reports a failure. *)
Definition is_error_line (l : line) : bool :=
  match l with
  | Error_csv_missing | Error_missing_columns _ | Error_reading_csv _
  | Error_creating_database _ | Error_no_valid_data | Error_no_h3_stars
  | Error_input_missing | Error_exporting _ | Error_importing _ => true
  | _ => false
  end.

(** What a function of a script leaves behind: the lines it printed and
    how it ended. *)
Definition run (A : Type) : Type := list line * outcome A.

Definition ret {A} (a : A) : run A := ([], Done a).

Definition print (l : line) : run unit := ([l], Done tt).

Definition sys_exit {A} (code : Z) : run A := ([], Exit code).

Definition then_ {A B} (m : run A) (k : A -> run B) : run B :=
  match m with
  | (out, Done a) => let '(out', o) := k a in (out ++ out', o)
  | (out, Exit c) => (out, Exit c)
  | (out, Uncaught e) => (out, Uncaught e)
  end.

(** The function printed an error message as its last line and ended the
    script with exit status 1. *)
Definition reports_and_exits {A} (r : run A) : Prop :=
  exists out l, fst r = out ++ [l] /\ is_error_line l = true /\
                snd r = Exit 1%Z.

End Log.

Notation "x <-- e ;; k" := (Log.then_ e (fun x => k))
  (at level 61, e at next level, right associativity) : py_scope.
Notation "e ;;; k" := (Log.then_ e (fun _ => k))
  (at level 61, right associativity) : py_scope.

Module Sqlite.

Import Py.

(** A database session as a script sees it: every call on the connection
    or cursor ([connect], [execute], [commit], [close]) returns or raises.
    [fault] names the first call that raises, counted from 0, and the
    exception; [None] when no call raises.  Why a call raises (a file that
    is no database, a statement or a value that SQLite refuses) is the
    database's matter: a property that holds for every [fault] holds for
    the faults that do occur. *)
Definition fault : Type := option (nat * exn).

(** The call number [k]. *)
Definition call (f : fault) (k : nat) : res unit :=
  match f with
  | Some (k', e) => if Nat.eqb k' k then Raise e else Ok tt
  | None => Ok tt
  end.

(** The calls number 0 to [calls - 1], one after the other: the exception
    of the faulty call when it is among them. *)
Definition run_calls (f : fault) (calls : nat) : res unit :=
  match f with
  | Some (k, e) => if Nat.ltb k calls then Raise e else Ok tt
  | None => Ok tt
  end.

(** The faulty call is one of the first [calls] calls. *)
Definition hits (f : fault) (calls : nat) : bool :=
  match f with
  | Some (k, _) => Nat.ltb k calls
  | None => false
  end.

End Sqlite.

(* ================================================================== *)
(** * Star records *)
(* ================================================================== *)

Module Star.

Import Py.

(** The dictionary the brightest-N and the H3 script build for a row. *)
Record star : Type := {
  id : option Z;
  mag : float;
  x : option float;
  y : option float;
  z : option float;
  spect_class : option ascii
}.

(** A star with the key [h3_<resolution>] added. *)
Record hashed : Type := {
  base : star;
  resolution : Z;
  cell : string
}.

Section WithExternals.
Context {E : Externals}.
Open Scope py_scope.

(** [conv(cell) if cell else None] *)
Definition optional {A} (conv : string -> option A) (cell : string)
  : res (option A) :=
  if PyStr.truthy cell then (v <- or_value_error (conv cell) ;; Ok (Some v))
  else Ok None.

(** The dictionary display of both scripts; its entries are evaluated in
    the order they are written, so the first field that does not parse
    raises. *)
Definition star_of_row (row : Csv.row) : res star :=
  i <- optional py_int (row "id"%string) ;;
  m <- (if PyStr.truthy (row "mag"%string)
        then or_value_error (py_float (row "mag"%string))
        else Ok inf) ;;
  vx <- optional py_float (row "x"%string) ;;
  vy <- optional py_float (row "y"%string) ;;
  vz <- optional py_float (row "z"%string) ;;
  Ok {| id := i; mag := m; x := vx; y := vy; z := vz;
        spect_class := Spectral.extract_spectral_class (row "spect"%string) |}.

(** The value of [conv(cell) if cell else None] when [conv] reads the cell. *)
Definition when_present {A} (conv : string -> option A) (cell : string)
  : option A :=
  if PyStr.truthy cell then conv cell else None.

(** The dictionary of a row whose numeric fields all parse. *)
Definition parsed (row : Csv.row) : star :=
  {| id := when_present py_int (row "id"%string);
     mag := match when_present py_float (row "mag"%string) with
            | Some m => m
            | None => inf
            end;
     x := when_present py_float (row "x"%string);
     y := when_present py_float (row "y"%string);
     z := when_present py_float (row "z"%string);
     spect_class := Spectral.extract_spectral_class (row "spect"%string) |}.

(** The cell is empty, or [conv] reads it. *)
Definition reads_if_present {A} (conv : string -> option A) (cell : string)
  : bool :=
  (negb (PyStr.truthy cell)
   || match conv cell with Some _ => true | None => false end)%bool.

(** The cell is not empty and [conv] reads it. *)
Definition present_and_reads {A} (conv : string -> option A) (cell : string)
  : bool :=
  (PyStr.truthy cell
   && match conv cell with Some _ => true | None => false end)%bool.

(** No numeric field of the row fails to parse. *)
Definition numeric_fields_parse (row : Csv.row) : bool :=
  (reads_if_present py_int (row "id"%string)
   && reads_if_present py_float (row "mag"%string)
   && reads_if_present py_float (row "x"%string)
   && reads_if_present py_float (row "y"%string)
   && reads_if_present py_float (row "z"%string))%bool.

(** The fields x, y and z are all present and parse. *)
Definition coordinates_present (row : Csv.row) : bool :=
  (present_and_reads py_float (row "x"%string)
   && present_and_reads py_float (row "y"%string)
   && present_and_reads py_float (row "z"%string))%bool.

End WithExternals.

End Star.

(* ================================================================== *)
(** * scripts/hyg_to_sqlite_brightest.py *)
(* ================================================================== *)

Module Brightest.

Import Py Csv Log Star.
Open Scope py_scope.

Definition required_columns : list string :=
  ["id"; "mag"; "x"; "y"; "z"; "spect"]%string.

Definition missing_columns (required names : list string) : list string :=
  filter (fun c => negb (existsb (String.eqb c) names)) required.

(** [validate_csv_file(csv_file)].  The [sys.exit(1)] inside the [try] is a
    [SystemExit], which [except Exception] does not catch. *)
Definition validate_csv_file (f : file) : run unit :=
  if negb (path_exists f) then print Error_csv_missing ;;; sys_exit 1
  else
    match open_error f with
    | Some e => print (Error_reading_csv e) ;;; sys_exit 1
    | None =>
        match fieldnames f with
        | Raise e => print (Error_reading_csv e) ;;; sys_exit 1
        | Ok names =>
            match missing_columns required_columns names with
            | [] => ret tt
            | missing => print (Error_missing_columns missing) ;;; sys_exit 1
            end
        end
    end.

(** What one turn of the reading loop does to the list [stars]. *)
Inductive turn (S : Type) : Type :=
| Append (s : S)
| Skip (warning : option line).
Arguments Append {S} s.
Arguments Skip {S} warning.

Definition appended {S} (t : turn S) : list S :=
  match t with Append s => [s] | Skip _ => [] end.

Definition warned {S} (t : turn S) : list line :=
  match t with Skip (Some w) => [w] | _ => [] end.

Section WithExternals.
Context {E : Externals}.

(** [cartesian_to_lat_lon(star['x'], star['y'], star['z'])]; arithmetic on
    [None] raises [TypeError]. *)
Definition lat_lon_of_star (s : star) : res (option float * option float) :=
  match x s, y s, z s with
  | Some vx, Some vy, Some vz => LatLon.cartesian_to_lat_lon vx vy vz
  | _, _, _ => Raise TypeError
  end.

(** The body of the inner [try] of the reading loop (lines 128-154). *)
Definition row_body (row : Csv.row) : res (turn hashed) :=
  star <- star_of_row row ;;
  match x star, y star, z star with
  | Some _, Some _, Some _ =>
      ll <- lat_lon_of_star star ;;
      match ll with
      | (Some lat, Some lon) =>
          match latlng_to_cell lat lon 0 with
          | Some h =>
              Ok (Append {| base := star; resolution := 0; cell := h |})
          | None => Ok (Skip (Some (Warning_h3 (id star))))
          end
      | _ => Ok (Skip (Some (Warning_coordinates (id star))))
      end
  | _, _, _ => Ok (Skip None)
  end.

(** The inner [try] with its handler [except (ValueError, TypeError)]: such
    an exception prints a warning and goes on to the next row, any other
    one leaves the loop. *)
Definition row_turn (row : Csv.row) : res (turn hashed) :=
  match row_body row with
  | Ok t => Ok t
  | Raise e =>
      if is_value_or_type_error e
      then Ok (Skip (Some (Warning_invalid_row None e)))
      else Raise e
  end.

(** The loop [for row in reader]: the lines printed, and the list [stars]
    or the exception that left the loop. *)
Fixpoint read_rows (rows : list Csv.row) : list line * res (list hashed) :=
  match rows with
  | [] => ([], Ok [])
  | row :: rest =>
      match row_turn row with
      | Raise e => ([], Raise e)
      | Ok t =>
          let '(out, r) := read_rows rest in
          (warned t ++ out,
           match r with
           | Ok stars => Ok (appended t ++ stars)
           | Raise e => Raise e
           end)
      end
  end.

(** The records the loop retains, or the exception that reaches the outer
    handler. *)
Definition retained (f : file) : list line * res (list hashed) :=
  match open_error f with
  | Some e => ([], Raise e)
  | None =>
      match read_rows (rows f) with
      | (out, Raise e) => (out, Raise e)
      | (out, Ok stars) =>
          match read_error f with
          | Some e => (out, Raise e)
          | None => (out, Ok stars)
          end
      end
  end.

Definition magnitude (s : hashed) : float := mag (base s).

(** [read_and_sort_stars(csv_file, brightest_n)] *)
Definition read_and_sort_stars (f : file) (brightest_n : Z)
  : run (list hashed) :=
  match retained f with
  | (out, Raise e) => (out ++ [Error_reading_csv e], Exit 1%Z)
  | (out, Ok stars) =>
      (out, Done (slice_to (list_sort magnitude stars) brightest_n))
  end.

(** [create_sqlite_database(sqlite_file, brightest_stars, brightest_n)]:
    [connect], [cursor], DROP TABLE, CREATE TABLE, one INSERT for each star,
    two CREATE INDEX, [commit], [close], all inside one [try] whose handler
    prints and exits.  The result is the table written. *)
Definition create_sqlite_database (db : Sqlite.fault)
  (brightest_stars : list hashed) : run (list hashed) :=
  match Sqlite.run_calls db (8 + List.length brightest_stars) with
  | Ok _ => print (Info "Successfully created table") ;;;
            print (Info "SQLite database saved") ;;;
            ret brightest_stars
  | Raise e => print (Error_creating_database e) ;;; sys_exit 1
  end.

(** [main()], after the arguments are parsed. *)
Definition main (f : file) (brightest_n : Z) (db : Sqlite.fault)
  : run (list hashed) :=
  print (Info "Processing HYG database") ;;;
  print (Info "Extracting brightest stars") ;;;
  print (Info "Output SQLite file") ;;;
  validate_csv_file f ;;;
  print (Info "Reading and sorting stars by magnitude...") ;;;
  brightest_stars <-- read_and_sort_stars f brightest_n ;;
  match brightest_stars with
  | [] => print Error_no_valid_data ;;; sys_exit 1
  | _ :: _ =>
      print (Info "Found brightest stars") ;;;
      print (Info "Magnitude range") ;;;
      print (Info "Creating SQLite database...") ;;;
      table <-- create_sqlite_database db brightest_stars ;;
      print (Info "Processing complete!") ;;;
      ret table
  end.

End WithExternals.

End Brightest.

(* ================================================================== *)
(** * scripts/hyg_to_sqlite_h3.py *)
(* ================================================================== *)

Module H3.

Import Py Csv Log Star.
Open Scope py_scope.

(** [validate_csv_file] is the brightest-N script's, word for word. *)
Definition validate_csv_file : file -> run unit := Brightest.validate_csv_file.

Section WithExternals.
Context {E : Externals}.

(** The body of the inner [try] of the reading loop (lines 153-167). *)
Definition row_body (row : Csv.row) : res (Brightest.turn star) :=
  star <- star_of_row row ;;
  match x star, y star, z star with
  | Some _, Some _, Some _ => Ok (Brightest.Append star)
  | _, _, _ => Ok (Brightest.Skip None)
  end.

(** The inner [try] with its handler [except (ValueError, TypeError)]. *)
Definition row_turn (row : Csv.row) : res (Brightest.turn star) :=
  match row_body row with
  | Ok t => Ok t
  | Raise e =>
      if is_value_or_type_error e
      then Ok (Brightest.Skip (Some (Warning_invalid_row None e)))
      else Raise e
  end.

(** The loop [for row in reader]. *)
Fixpoint read_rows (rows : list Csv.row) : list line * res (list star) :=
  match rows with
  | [] => ([], Ok [])
  | row :: rest =>
      match row_turn row with
      | Raise e => ([], Raise e)
      | Ok t =>
          let '(out, r) := read_rows rest in
          (Brightest.warned t ++ out,
           match r with
           | Ok stars => Ok (Brightest.appended t ++ stars)
           | Raise e => Raise e
           end)
      end
  end.

(** The records the loop retains, or the exception that reaches the outer
    handler. *)
Definition retained (f : file) : list line * res (list star) :=
  match open_error f with
  | Some e => ([], Raise e)
  | None =>
      match read_rows (rows f) with
      | (out, Raise e) => (out, Raise e)
      | (out, Ok stars) =>
          match read_error f with
          | Some e => (out, Raise e)
          | None => (out, Ok stars)
          end
      end
  end.

(** [read_and_sort_stars(csv_file)] *)
Definition read_and_sort_stars (f : file) : run (list star) :=
  match retained f with
  | (out, Raise e) => (out ++ [Error_reading_csv e], Exit 1%Z)
  | (out, Ok stars) => (out, Done (list_sort mag stars))
  end.

(** One turn of the loop of [process_stars_with_h3]: the exception that
    [stars[i]] or [cartesian_to_lat_lon] raises is not caught there. *)
Definition hash_star (h3_resolution : Z) (star : star)
  : res (Brightest.turn hashed) :=
  ll <- Brightest.lat_lon_of_star star ;;
  match ll with
  | (Some lat, Some lon) =>
      match latlng_to_cell lat lon h3_resolution with
      | Some h =>
          Ok (Brightest.Append
                {| base := star; resolution := h3_resolution; cell := h |})
      | None => Ok (Brightest.Skip (Some (Warning_h3 (id star))))
      end
  | _ => Ok (Brightest.Skip (Some (Warning_coordinates (id star))))
  end.

(** The loop [for i in range(start_index, end_index)] over the indices
    still to visit. *)
Fixpoint process_indices (stars : list star) (h3_resolution : Z)
  (indices : list Z) : run (list hashed) :=
  match indices with
  | [] => ([], Done [])
  | i :: rest =>
      match (star <- index stars i ;; hash_star h3_resolution star) with
      | Raise e => ([], Uncaught e)
      | Ok t =>
          let '(out, o) := process_indices stars h3_resolution rest in
          (Brightest.warned t ++ out,
           match o with
           | Done l => Done (Brightest.appended t ++ l)
           | Exit c => Exit c
           | Uncaught e => Uncaught e
           end)
      end
  end.

(** [process_stars_with_h3(stars, start_index, count, h3_resolution)] *)
Definition process_stars_with_h3 (stars : list star)
  (start_index count h3_resolution : Z) : run (list hashed) :=
  let end_index := Z.min (start_index + count) (Z.of_nat (List.length stars)) in
  process_indices stars h3_resolution (range start_index end_index).

(** The same loop told on the stars it visits, for the statement of where
    the tables come from. *)
Fixpoint hash_all (h3_resolution : Z) (visited : list star)
  : run (list hashed) :=
  match visited with
  | [] => ([], Done [])
  | star :: rest =>
      match hash_star h3_resolution star with
      | Raise e => ([], Uncaught e)
      | Ok t =>
          let '(out, o) := hash_all h3_resolution rest in
          (Brightest.warned t ++ out,
           match o with
           | Done l => Done (Brightest.appended t ++ l)
           | Exit c => Exit c
           | Uncaught e => Uncaught e
           end)
      end
  end.

(** The star gets a cell at this resolution. *)
Definition hashable (h3_resolution : Z) (star : star) : bool :=
  match hash_star h3_resolution star with
  | Ok (Brightest.Append _) => true
  | _ => false
  end.

(** The tables of the output database. *)
Record tables : Type := {
  stars_h3_0 : list hashed;
  stars_h3_1 : list hashed;
  stars_h3_2 : option (list hashed)
}.

(** Truthiness of [stars_h3_2]: neither [None] nor empty. *)
Definition some_stars (l : option (list hashed)) : bool :=
  match l with Some (_ :: _) => true | _ => false end.

(** [create_sqlite_database(sqlite_file, stars_h3_0, stars_h3_1, stars_h3_2)]:
    [connect], [cursor], then for each table DROP TABLE, CREATE TABLE, its
    INSERTs and two CREATE INDEX (the third table only when [stars_h3_2] is
    truthy), [commit], [close], all inside one [try] whose handler prints
    and exits. *)
Definition database_calls (s0 s1 : list hashed) (s2 : option (list hashed))
  : nat :=
  (2 + (4 + List.length s0) + (4 + List.length s1)
   + (if some_stars s2
      then 4 + List.length (match s2 with Some l => l | None => [] end)
      else 0)
   + 2)%nat.

Definition create_sqlite_database (db : Sqlite.fault)
  (s0 s1 : list hashed) (s2 : option (list hashed)) : run tables :=
  match Sqlite.run_calls db (database_calls s0 s1 s2) with
  | Ok _ =>
      print (Info "Successfully created 'stars_h3_0' table") ;;;
      print (Info "Successfully created 'stars_h3_1' table") ;;;
      (if some_stars s2
       then print (Info "Successfully created 'stars_h3_2' table")
       else ret tt) ;;;
      print (Info "SQLite database saved") ;;;
      ret {| stars_h3_0 := s0; stars_h3_1 := s1;
             stars_h3_2 := if some_stars s2 then s2 else None |}
  | Raise e => print (Error_creating_database e) ;;; sys_exit 1
  end.

(** Lines 373-391 of [main]: the three calls of [process_stars_with_h3]. *)
Definition select_stars (all_stars : list star)
  (skip lvl_0_count lvl_1_count : Z) (include_rest : bool)
  : run (list hashed * list hashed * option (list hashed)) :=
  let total_stars := Z.of_nat (List.length all_stars) in
  print (Info "Processing H3 level 0 stars") ;;;
  stars_h3_0 <-- process_stars_with_h3 all_stars skip lvl_0_count 0 ;;
  let lvl_1_start := (skip + lvl_0_count)%Z in
  print (Info "Processing H3 level 1 stars") ;;;
  stars_h3_1 <-- process_stars_with_h3 all_stars lvl_1_start lvl_1_count 1 ;;
  if include_rest then
    let lvl_2_start := (skip + lvl_0_count + lvl_1_count)%Z in
    let remaining_count := (total_stars - lvl_2_start)%Z in
    if (0 <? remaining_count)%Z then
      print (Info "Processing H3 level 2 stars") ;;;
      stars_h3_2 <--
        process_stars_with_h3 all_stars lvl_2_start remaining_count 2 ;;
      ret (stars_h3_0, stars_h3_1, Some stars_h3_2)
    else
      print (Info "No remaining stars to process for H3 level 2") ;;;
      ret (stars_h3_0, stars_h3_1, None)
  else ret (stars_h3_0, stars_h3_1, None).

(** What [select_stars] comes to when the three loops visit the stars of
    [seg0], [seg1] and [seg2]. *)
Definition select_from (seg0 seg1 seg2 : list star) (include_rest : bool)
  : run (list hashed * list hashed * option (list hashed)) :=
  print (Info "Processing H3 level 0 stars") ;;;
  stars_h3_0 <-- hash_all 0 seg0 ;;
  print (Info "Processing H3 level 1 stars") ;;;
  stars_h3_1 <-- hash_all 1 seg1 ;;
  if include_rest then
    match seg2 with
    | _ :: _ =>
        print (Info "Processing H3 level 2 stars") ;;;
        stars_h3_2 <-- hash_all 2 seg2 ;;
        ret (stars_h3_0, stars_h3_1, Some stars_h3_2)
    | [] =>
        print (Info "No remaining stars to process for H3 level 2") ;;;
        ret (stars_h3_0, stars_h3_1, None)
    end
  else ret (stars_h3_0, stars_h3_1, None).

(** [main()], after the arguments are parsed. *)
Definition main (f : file) (skip lvl_0_count lvl_1_count : Z)
  (include_rest : bool) (db : Sqlite.fault) : run tables :=
  print (Info "Processing HYG database") ;;;
  print (Info "Skipping first brightest stars") ;;;
  print (Info "Processing stars for H3 level 0") ;;;
  print (Info "Processing stars for H3 level 1") ;;;
  (if include_rest
   then print (Info "Processing all remaining stars for H3 level 2")
   else ret tt) ;;;
  print (Info "Output SQLite file") ;;;
  validate_csv_file f ;;;
  print (Info "Reading and sorting stars by magnitude...") ;;;
  all_stars <-- read_and_sort_stars f ;;
  match all_stars with
  | [] => print Error_no_valid_data ;;; sys_exit 1
  | _ :: _ =>
      print (Info "Found valid stars") ;;;
      (if (Z.of_nat (List.length all_stars)
           <? skip + lvl_0_count + lvl_1_count)%Z
       then print (Info "Warning: fewer stars available than requested") ;;;
            print (Info "Will process as many stars as available")
       else ret tt) ;;;
      sel <-- select_stars all_stars skip lvl_0_count lvl_1_count
                include_rest ;;
      let '(s0, s1, s2) := sel in
      match s0, s1, some_stars s2 with
      | [], [], false => print Error_no_h3_stars ;;; sys_exit 1
      | _, _, _ =>
          print (Info "Successfully processed stars for H3 level 0") ;;;
          print (Info "Successfully processed stars for H3 level 1") ;;;
          (if some_stars s2
           then print (Info "Successfully processed stars for H3 level 2")
           else ret tt) ;;;
          (match s0 with
           | [] => ret tt
           | _ :: _ => print (Info "H3 level 0 magnitude range")
           end) ;;;
          (match s1 with
           | [] => ret tt
           | _ :: _ => print (Info "H3 level 1 magnitude range")
           end) ;;;
          (if some_stars s2
           then print (Info "H3 level 2 magnitude range")
           else ret tt) ;;;
          print (Info "Creating SQLite database...") ;;;
          t <-- create_sqlite_database db s0 s1 s2 ;;
          print (Info "Processing complete!") ;;;
          ret t
      end
  end.

End WithExternals.

(** The index range [start, start + count), clamped to the list. *)
Definition segment (stars : list star) (start count : Z) : list star :=
  firstn (Z.to_nat count) (skipn (Z.to_nat start) stars).

(** The indices from [start] on. *)
Definition from (stars : list star) (start : Z) : list star :=
  skipn (Z.to_nat start) stars.

End H3.

(* ================================================================== *)
(** * scripts/hyg_to_sqlite_star_info.py *)
(* ================================================================== *)

Module StarInfo.

Import Py Csv Log.
Open Scope py_scope.

(** A value stored under a key of the star dictionary and bound to a
    parameter of the INSERT statement. *)
Inductive value : Type :=
| VNone
| VInt (n : Z)
| VReal (f : float)
| VText (s : string).

(** The star dictionary: its items in the order of [included_columns].
    (For a column name that occurs twice the two items are equal, as both
    come from the same cell.) *)
Definition star : Type := list (string * value).

(** [star[col]]: [KeyError] when the key is absent. *)
Fixpoint getitem (s : star) (col : string) : res value :=
  match s with
  | [] => Raise KeyError
  | (c, v) :: rest => if String.eqb c col then Ok v else getitem rest col
  end.

(** [star.get(col)] *)
Definition get (s : star) (col : string) : value :=
  match getitem s col with Ok v => v | Raise _ => VNone end.

Definition mem (col : string) (cols : list string) : bool :=
  existsb (String.eqb col) cols.

(** The star's id is the integer [k]. *)
Definition has_id (k : Z) (s : star) : bool :=
  match get s "id" with VInt k' => Z.eqb k' k | _ => false end.

(** The last star of the list whose id is [k]. *)
Definition last_with_id (k : Z) (stars : list star) : option star :=
  find (has_id k) (rev stars).

Definition excluded_columns : list string :=
  ["ra"; "dec"; "dist"; "pmra"; "pmdec"; "rv";
   "vx"; "vy"; "vz"; "rarad"; "decrad"; "pmrarad"; "pmdecrad";
   "x"; "y"; "z"]%string.

Definition integer_columns : list string :=
  ["hip"; "hd"; "hr"; "comp"; "comp_primary"; "flam"]%string.

Definition real_columns : list string :=
  ["mag"; "absmag"; "ci"; "lum"; "var_min"; "var_max"]%string.

Definition required_columns : list string := ["id"%string].

(** [validate_csv_file(csv_file)]: it returns [reader.fieldnames]. *)
Definition validate_csv_file (f : file) : run (list string) :=
  if negb (path_exists f) then print Error_csv_missing ;;; sys_exit 1
  else
    match open_error f with
    | Some e => print (Error_reading_csv e) ;;; sys_exit 1
    | None =>
        match fieldnames f with
        | Raise e => print (Error_reading_csv e) ;;; sys_exit 1
        | Ok names =>
            match Brightest.missing_columns required_columns names with
            | [] => ret names
            | missing => print (Error_missing_columns missing) ;;; sys_exit 1
            end
        end
    end.

(** [get_included_columns(all_columns)] *)
Definition included_of (all_columns : list string) : list string :=
  filter (fun col => negb (mem col excluded_columns)) all_columns.

Definition get_included_columns (all_columns : list string)
  : run (list string) :=
  print (Info "Excluding columns") ;;;
  print (Info "Including columns") ;;;
  ret (included_of all_columns).

(** [value and value.strip()] *)
Definition nonblank (v : string) : bool :=
  (PyStr.truthy v && PyStr.truthy (PyStr.strip v))%bool.

(** The SQL type written after a column's name in CREATE TABLE
    (lines 137-145). *)
Definition column_type (col : string) : string :=
  if String.eqb col "id" then "INTEGER PRIMARY KEY"
  else if mem col integer_columns then "INTEGER"
  else if mem col real_columns then "REAL"
  else "TEXT".

(** One entry of [column_definitions]: [f"{col} <type>"]. *)
Definition column_definition (col : string) : string :=
  (col ++ " " ++ column_type col)%string.

Definition column_definitions (included_columns : list string) : list string :=
  map column_definition included_columns.

Section WithExternals.
Context {E : Externals}.

(** The conversion of one cell (lines 94-102). *)
Definition convert (col value : string) : res StarInfo.value :=
  if String.eqb col "id" then
    if PyStr.truthy value
    then n <- or_value_error (py_int value) ;; Ok (VInt n)
    else Ok VNone
  else if mem col integer_columns then
    if nonblank value
    then n <- or_value_error (py_int value) ;; Ok (VInt n)
    else Ok VNone
  else if mem col real_columns then
    if nonblank value
    then x <- or_value_error (py_float value) ;; Ok (VReal x)
    else Ok VNone
  else
    if nonblank value then Ok (VText value) else Ok VNone.

(** The conversion of the cell raises nothing. *)
Definition converts (col value : string) : bool :=
  match convert col value with Ok _ => true | Raise _ => false end.

(** Every included column of the row converts. *)
Definition all_convert (included_columns : list string) (row : Csv.row)
  : bool :=
  forallb (fun col => converts col (row col)) included_columns.

(** The loop [for col in included_columns] that fills [star]. *)
Fixpoint fill (row : Csv.row) (included_columns : list string) : res star :=
  match included_columns with
  | [] => Ok []
  | col :: rest =>
      v <- convert col (row col) ;;
      s <- fill row rest ;;
      Ok ((col, v) :: s)
  end.

(** The body of the inner [try] (lines 88-109). *)
Definition row_body (included_columns : list string) (row_num : Z)
  (row : Csv.row) : res (Brightest.turn star) :=
  star <- fill row included_columns ;;
  i <- getitem star "id" ;;
  match i with
  | VNone => Ok (Brightest.Skip (Some (Warning_no_id row_num)))
  | _ => Ok (Brightest.Append star)
  end.

(** The inner [try] with its handler [except (ValueError, TypeError)]. *)
Definition row_turn (included_columns : list string) (row_num : Z)
  (row : Csv.row) : res (Brightest.turn star) :=
  match row_body included_columns row_num row with
  | Ok t => Ok t
  | Raise e =>
      if is_value_or_type_error e
      then Ok (Brightest.Skip (Some (Warning_invalid_row (Some row_num) e)))
      else Raise e
  end.

(** The loop [for row_num, row in enumerate(reader, start=2)], from the row
    whose number is [row_num]. *)
Fixpoint read_rows (included_columns : list string) (row_num : Z)
  (rows : list Csv.row) : list line * res (list star) :=
  match rows with
  | [] => ([], Ok [])
  | row :: rest =>
      match row_turn included_columns row_num row with
      | Raise e => ([], Raise e)
      | Ok t =>
          let '(out, r) := read_rows included_columns (row_num + 1) rest in
          (Brightest.warned t ++ out,
           match r with
           | Ok stars => Ok (Brightest.appended t ++ stars)
           | Raise e => Raise e
           end)
      end
  end.

(** [read_stars(csv_file, included_columns)] *)
Definition read_stars (f : file) (included_columns : list string)
  : run (list star) :=
  match open_error f with
  | Some e => ([Error_reading_csv e], Exit 1%Z)
  | None =>
      match read_rows included_columns 2 (rows f) with
      | (out, Raise e) => (out ++ [Error_reading_csv e], Exit 1%Z)
      | (out, Ok stars) =>
          match read_error f with
          | Some e => (out ++ [Error_reading_csv e], Exit 1%Z)
          | None => (out, Done stars)
          end
      end
  end.

End WithExternals.

(** ** The table [stars_info]

    SQLite is not code of the repository.  A table is the list of its rows
    in rowid order, each row the values bound to the INSERT's parameters.
    When the table has an INTEGER PRIMARY KEY column, INSERT OR REPLACE with
    an integer in that column first deletes the row that has this integer
    there, and with NULL it stores a fresh rowid, one above the greatest in
    use; another kind of value there (which a star of this script never has
    under [id]) is modelled as the error "datatype mismatch". *)
Definition table : Type := list (list value).

Definition key_is (pk : nat) (k : Z) (r : list value) : bool :=
  match nth pk r VNone with VInt k' => Z.eqb k' k | _ => false end.

Definition rowid (pk : nat) (r : list value) : Z :=
  match nth pk r VNone with VInt k => k | _ => 0%Z end.

Definition fresh_rowid (pk : nat) (t : table) : Z :=
  match map (rowid pk) t with
  | [] => 1%Z
  | k :: ks => (1 + fold_right Z.max k ks)%Z
  end.

Fixpoint set_nth (n : nat) (v : value) (r : list value) : list value :=
  match n, r with
  | _, [] => []
  | O, _ :: r' => v :: r'
  | S n', a :: r' => a :: set_nth n' v r'
  end.

Definition insert_or_replace (pk : option nat) (t : table)
  (values : list value) : res table :=
  match pk with
  | None => Ok (t ++ [values])
  | Some i =>
      match nth i values VNone with
      | VInt k => Ok (filter (fun r => negb (key_is i k r)) t ++ [values])
      | VNone => Ok (t ++ [set_nth i (VInt (fresh_rowid i t)) values])
      | _ => Raise SqliteError
      end
  end.

(** The position of the column declared INTEGER PRIMARY KEY. *)
Fixpoint primary_key (included_columns : list string) : option nat :=
  match included_columns with
  | [] => None
  | col :: rest =>
      if String.eqb col "id" then Some O
      else option_map S (primary_key rest)
  end.

(** What holds of the table after the stars [seen] have been inserted. *)
Definition table_invariant (included_columns : list string) (i : nat)
  (t : table) (seen : list star) : Prop :=
  NoDup (map (rowid i) t) /\
  (forall r, In r t -> exists k, nth i r VNone = VInt k) /\
  (forall r, In r t ->
     exists s, In s seen /\ r = map (get s) included_columns) /\
  (forall k s, last_with_id k seen = Some s ->
     In (map (get s) included_columns) t).

(** The loop [for star in stars] with its INSERT OR REPLACE; [k] is the
    number of the next call on the cursor. *)
Fixpoint insert_all (db : Sqlite.fault) (included_columns : list string)
  (k : nat) (t : table) (stars : list star) : res table :=
  match stars with
  | [] => Ok t
  | star :: rest =>
      let values := map (get star) included_columns in
      _ <- Sqlite.call db k ;;
      t' <- insert_or_replace (primary_key included_columns) t values ;;
      insert_all db included_columns (S k) t' rest
  end.

(** [create_sqlite_database(sqlite_file, stars, included_columns)]:
    [connect], [cursor], DROP TABLE, CREATE TABLE, the INSERTs, [commit],
    [close], inside one [try] whose handler prints and exits.  The result
    is the CREATE TABLE's column list and the rows of the table. *)
Definition create_sqlite_database (db : Sqlite.fault) (stars : list star)
  (included_columns : list string) : run (list string * table) :=
  let n := List.length stars in
  match (_ <- Sqlite.run_calls db 4 ;;
         t <- insert_all db included_columns 4 [] stars ;;
         _ <- Sqlite.call db (4 + n) ;;
         _ <- Sqlite.call db (5 + n) ;;
         Ok t) with
  | Ok t =>
      print (Info "Successfully created table 'stars_info'") ;;;
      print (Info "SQLite database saved") ;;;
      ret (column_definitions included_columns, t)
  | Raise e => print (Error_creating_database e) ;;; sys_exit 1
  end.

Section Main.
Context {E : Externals}.

(** [main()], after the arguments are parsed. *)
Definition main (f : file) (db : Sqlite.fault)
  : run (list string * table) :=
  print (Info "Processing HYG database") ;;;
  print (Info "Output SQLite file") ;;;
  all_columns <-- validate_csv_file f ;;
  included_columns <-- get_included_columns all_columns ;;
  print (Info "Reading star information...") ;;;
  stars <-- read_stars f included_columns ;;
  match stars with
  | [] => print Error_no_valid_data ;;; sys_exit 1
  | _ :: _ =>
      print (Info "Found stars with valid data") ;;;
      print (Info "Creating SQLite database...") ;;;
      t <-- create_sqlite_database db stars included_columns ;;
      print (Info "Processing complete!") ;;;
      ret t
  end.

End Main.

End StarInfo.

(* ================================================================== *)
(** * scripts/sqlite_dump.py *)
(* ================================================================== *)

Module Dump.

Import Py Log.
Open Scope py_scope.

(** What the file system and SQLite answer during one run: whether the
    input path and the target path exist, and for each operation the
    exception it raises, if any.  [transfer_error] is the failure of the
    copy itself: [conn.iterdump()] and [f.write] when exporting, [f.read()]
    and [cursor.executescript] when importing. *)
Record world : Type := {
  input_exists : bool;
  target_exists : bool;
  remove_error : option exn;
  connect_error : option exn;
  open_error : option exn;
  transfer_error : option exn;
  commit_error : option exn;
  close_error : option exn
}.

Definition attempt (failure : option exn) : res unit :=
  match failure with Some e => Raise e | None => Ok tt end.

Definition succeeds (failure : option exn) : bool :=
  match failure with Some _ => false | None => true end.

(** [try: body  except sqlite3.Error as e: print(on_error(e))  finally: final]
    where [body] prints [on_success] as its last statement.  An exception of
    [final] replaces the one in flight. *)
Definition try_except_finally (body : res unit) (on_success : line)
  (on_error : exn -> line) (final : res unit) : run unit :=
  let '(out, pending) :=
    match body with
    | Ok _ => ([on_success], None)
    | Raise e => if is_sqlite_error e then ([on_error e], None)
                 else ([], Some e)
    end in
  match final with
  | Raise e' => (out, Uncaught e')
  | Ok _ =>
      match pending with
      | Some e => (out, Uncaught e)
      | None => (out, Done tt)
      end
  end.

(** [export_sqlite_to_sql_dump(database_path, output_sql_path)].  In the
    [finally] clause [conn] is unbound when [sqlite3.connect] raised. *)
Definition export_sqlite_to_sql_dump (w : world) : run unit :=
  let body :=
    _ <- attempt (connect_error w) ;;
    _ <- attempt (open_error w) ;;
    attempt (transfer_error w) in
  let final :=
    if succeeds (connect_error w) then attempt (close_error w)
    else Raise UnboundLocalError in
  try_except_finally body (Info "Successfully exported") Error_exporting final.

(** [import_sql_dump_to_sqlite(sql_dump_path, new_database_path)] *)
Definition import_sql_dump_to_sqlite (w : world) : run unit :=
  let removal :=
    if target_exists w then attempt (remove_error w) else Ok tt in
  let body :=
    _ <- removal ;;
    _ <- attempt (connect_error w) ;;
    _ <- attempt (open_error w) ;;
    _ <- attempt (transfer_error w) ;;
    attempt (commit_error w) in
  let final :=
    match removal with
    | Ok _ => if succeeds (connect_error w) then attempt (close_error w)
              else Raise UnboundLocalError
    | Raise _ => Raise UnboundLocalError
    end in
  let '(out, o) :=
    try_except_finally body (Info "Successfully imported") Error_importing
      final in
  ((if target_exists w then [Warning_overwrite] else []) ++ out, o).

Inductive command : Type := Export | Import | NoCommand.

(** [main()], after the arguments are parsed. *)
Definition main (c : command) (w : world) : run unit :=
  match c with
  | Export =>
      if negb (input_exists w) then print Error_input_missing ;;; sys_exit 1
      else export_sqlite_to_sql_dump w
  | Import =>
      if negb (input_exists w) then print Error_input_missing ;;; sys_exit 1
      else import_sql_dump_to_sqlite w
  | NoCommand => print (Info "usage") ;;; sys_exit 1
  end.

End Dump.

(* ================================================================== *)
(** * Stand-ins for the externals, for the examples

    The properties below hold for every [Externals].  The examples need
    one to run on.  [int_of_str] follows [int()] on decimal text; the other
    stand-ins agree with the real functions on the arguments the examples
    use and are defined by what they cover: [float_of_str] reads "inf",
    "nan" and integer literals only, [asin_at_zero] and [atan2_at_zero] know
    asin(+-0) = +-0 and atan2(+-0, x) = +-0 for x > 0, [one_cell] gives the
    same cell everywhere, and the stand-in for [sort_with_nan] is the
    insertion sort, which leaves the keys 2, nan, 1 of the examples as they
    are, as CPython does. *)
(* ================================================================== *)

Module Ref.

Import Py PyStr.

Definition digit (c : ascii) : option Z :=
  if in_range 48 57 c then Some (Z.of_N (ord c) - 48)%Z else None.

(** Decimal digits, single underscores between digits allowed. *)
Fixpoint digits (s : string) (acc : Z) (after_digit : bool) : option Z :=
  match s with
  | EmptyString => if after_digit then Some acc else None
  | String c s' =>
      if Ascii.eqb c "_" then
        if after_digit then digits s' acc false else None
      else
        match digit c with
        | Some d => digits s' (10 * acc + d)%Z true
        | None => None
        end
  end.

(** An optional sign and the digits: the sign and the absolute value. *)
Definition signed (s : string) : option (bool * Z) :=
  match s with
  | String c s' =>
      if Ascii.eqb c "-" then option_map (pair true) (digits s' 0 false)
      else if Ascii.eqb c "+" then option_map (pair false) (digits s' 0 false)
      else option_map (pair false) (digits s 0 false)
  | EmptyString => None
  end.

Definition int_of_str (s : string) : option Z :=
  match signed (strip s) with
  | Some (neg, n) => Some (if neg then (- n)%Z else n)
  | None => None
  end.

Definition float_of_str (s : string) : option float :=
  let t := lower (strip s) in
  if String.eqb t "inf" then Some inf
  else if String.eqb t "-inf" then Some (S754_infinity true)
  else if String.eqb t "nan" then Some S754_nan
  else
    match signed (strip s) with
    | Some (neg, 0%Z) => Some (S754_zero neg)
    | Some (neg, n) => Some (float_of_Z (if neg then (- n)%Z else n))
    | None => None
    end.

Definition asin_at_zero (x : float) : option float :=
  if is_zero x then Some x else None.

Definition atan2_at_zero (y x : float) : option float :=
  if (is_zero y && fltb (float_of_Z 0) x)%bool then Some y else None.

Definition one_cell (lat lon : float) (resolution : Z) : option string :=
  Some "8075fffffffffff"%string.

Definition externals : Externals := {|
  py_int := int_of_str;
  py_float := float_of_str;
  math_asin := asin_at_zero;
  math_atan2 := atan2_at_zero;
  latlng_to_cell := one_cell;
  sort_with_nan := @sort
|}.

(** A file that opens and reads without failure. *)
Definition file_of (header : list string) (rows : list Csv.row) : Csv.file :=
  {| Csv.path_exists := true; Csv.open_error := None;
     Csv.fieldnames := Ok header; Csv.rows := rows;
     Csv.read_error := None |}.

(** A row of the catalogue at (1, 0, 0) with the given id and magnitude. *)
Definition star_row (id mag : string) : Csv.row :=
  Csv.row_of [("id", id); ("mag", mag); ("x", "1"); ("y", "0"); ("z", "0");
              ("spect", "G2V")]%string.

Definition header : list string :=
  ["id"; "mag"; "x"; "y"; "z"; "spect"]%string.

(** The star at (1, 0, 0) with the given id and magnitude. *)
Definition star_at (id : Z) (mag : float) : Star.star :=
  {| Star.id := Some id; Star.mag := mag;
     Star.x := Some (float_of_Z 1); Star.y := Some (float_of_Z 0);
     Star.z := Some (float_of_Z 0); Star.spect_class := Some "G"%char |}.

(** Four stars in the order of their magnitudes. *)
Definition four_stars : list Star.star :=
  [star_at 3 (float_of_Z 1); star_at 2 (float_of_Z 2);
   star_at 4 (float_of_Z 2); star_at 1 inf].

(** A row of the star-info script: an id and a name, no coordinates. *)
Definition named_row (id name : string) : Csv.row :=
  Csv.row_of [("id", id); ("proper", name)]%string.

Definition info_header : list string :=
  ["id"; "proper"; "x"; "y"; "z"]%string.

(** Three rows, the first and the last with the same id. *)
Definition duplicate_id_file : Csv.file :=
  file_of info_header
    [named_row "7" "a"; named_row "8" "b"; named_row "7" "c"].

(** The stars of these rows. *)
Definition duplicate_id_stars : list StarInfo.star :=
  [[("id", StarInfo.VInt 7); ("proper", StarInfo.VText "a")];
   [("id", StarInfo.VInt 8); ("proper", StarInfo.VText "b")];
   [("id", StarInfo.VInt 7); ("proper", StarInfo.VText "c")]]%string.


(** Two stars, of magnitude 1 and 2. *)
Definition two_star_file : Csv.file :=
  file_of header [star_row "1" "1"; star_row "2" "2"].

(** Four stars: the first without magnitude, two of equal magnitude. *)
Definition ranking_file : Csv.file :=
  file_of header
    [star_row "1" ""; star_row "2" "2"; star_row "3" "1"; star_row "4" "2"].

(** Three stars, the second with the magnitude "nan". *)
Definition nan_file : Csv.file :=
  file_of header [star_row "1" "2"; star_row "2" "nan"; star_row "3" "1"].

(** Two stars of magnitude plus infinity: the first for want of a
    magnitude, the second by its magnitude field. *)
Definition inf_file : Csv.file :=
  file_of header [star_row "1" ""; star_row "2" "inf"].

(** 2^-600, a binary64 number whose square underflows to zero. *)
Definition tiny : float := S754_finite false 4503599627370496 (-652).


End Ref.

(* ================================================================== *)
(** * How a script ends *)
(* ================================================================== *)

Module Outcome.

Import Py Log.

(** The three ways a run ends: with an error message as its last line and
    exit status 1, with an uncaught exception among [P], or by returning a
    result among [Q]. *)
Definition ends {A} (P : exn -> Prop) (Q : A -> Prop) (r : run A) : Prop :=
  reports_and_exits r
  \/ (exists e, snd r = Uncaught e /\ P e)
  \/ (exists a, snd r = Done a /\ Q a).

End Outcome.

(* ================================================================== *)
(** * scripts/sqlite_schema.py *)
(* ================================================================== *)

Module Schema.

Import Py.

(** The lines the inspector prints.  [Text] is a line whose text is a
    literal or is put together from strings; the other constructors are
    the lines that show a number or an exception. *)
Inductive line : Type :=
| Text (s : string)
(** "Database Size: {os.path.getsize(db_path)} bytes" *)
| Database_size (bytes : Z)
(** "Pages: {page_count} (Page size: {page_size} bytes)" *)
| Pages (page_count page_size : Z)
(** "Found {len(...)} table(s):" and its like for indexes, views, triggers *)
| Found (n : nat) (what : string)
(** "SQLite error: {e}" *)
| Sqlite_error (e : exn)
(** "Error: {e}" *)
| Other_error (e : exn).

Definition newline : string := String "010"%char EmptyString.

(** [char * n] *)
Fixpoint times (char : ascii) (n : nat) : string :=
  match n with
  | O => EmptyString
  | S n' => String char (times char n')
  end.

(** [s.center(width, char)]: a string that is wide enough is returned as
    it is; otherwise the padding is split with the smaller half on the
    left, unless the padding is odd and the width is odd too. *)
Definition center (s : string) (width : nat) (char : ascii) : string :=
  let len := String.length s in
  if (width <=? len)%nat then s
  else
    let marg := (width - len)%nat in
    let left := (marg / 2 + (if (Nat.odd marg && Nat.odd width)%bool
                             then 1 else 0))%nat in
    (times char left ++ s ++ times char (marg - left))%string.

(** [print_separator(title, char)] *)
Definition print_separator (title : string) (char : ascii) : list line :=
  let width := 80%nat in
  [Text (newline ++ times char width);
   Text (center (" " ++ title ++ " ") width char);
   Text (times char width)]%string.

(** What the file system and the database answer during one run.  For each
    query the rows it returns or the exception it raises; the queries only
    read, so an answer does not depend on the queries before it.
    [table_sql] is the result of [get_table_schema]: the text of the CREATE
    statement, the empty string when the query returns no row, [None] for
    NULL. *)
Record world : Type := {
  path_exists : bool;
  connect_error : option exn;
  cursor_error : option exn;
  getsize : res Z;
  sqlite_version : res string;
  page_count : res Z;
  page_size : res Z;
  table_names : res (list string);
  table_sql : string -> res (option string);
  index_rows : res (list (string * string * option string));
  view_rows : res (list (string * option string));
  trigger_rows : res (list (string * string * option string));
  close_error : option exn
}.

(** A stretch of the [try] block: the lines printed, and the result or the
    exception that ended it. *)
Definition body (A : Type) : Type := list line * res A.

Definition say (lines : list line) : body unit := (lines, Ok tt).

Definition ask {A} (answer : res A) : body A := ([], answer).

Definition andthen {A B} (m : body A) (k : A -> body B) : body B :=
  match m with
  | (out, Ok a) => let '(out', r) := k a in (out ++ out', r)
  | (out, Raise e) => (out, Raise e)
  end.

Definition attempt (failure : option exn) : body unit :=
  match failure with Some e => ([], Raise e) | None => ([], Ok tt) end.

(** Truthiness of a text column: neither NULL nor empty. *)
Definition some_text (sql : option string) : bool :=
  match sql with Some s => PyStr.truthy s | None => false end.

Definition text_of (sql : option string) : string :=
  match sql with Some s => s | None => EmptyString end.

(** [print_database_info(cursor, db_path)] *)
Definition print_database_info (w : world) (db_path : string) : body unit :=
  andthen (say (print_separator "DATABASE INFORMATION" "=")) (fun _ =>
  andthen (say [Text ("Database Path: " ++ db_path)]) (fun _ =>
  andthen (ask (getsize w)) (fun size =>
  andthen (say [Database_size size]) (fun _ =>
  andthen (ask (sqlite_version w)) (fun version =>
  andthen (say [Text ("SQLite Version: " ++ version)]) (fun _ =>
  andthen (ask (page_count w)) (fun count =>
  andthen (ask (page_size w)) (fun size' =>
  say [Pages count size'])))))))).

(** The loop [for table in tables] of lines 95-102. *)
Fixpoint print_each_table (w : world) (tables : list string) : body unit :=
  match tables with
  | [] => say []
  | table :: rest =>
      andthen (say (print_separator ("TABLE: " ++ table) "-")) (fun _ =>
      andthen (ask (table_sql w table)) (fun schema =>
      andthen (if some_text schema
               then say [Text "CREATE Statement:"; Text (text_of schema)]
               else say []) (fun _ =>
      print_each_table w rest)))
  end.

(** [print_tables_schema(cursor)] *)
Definition print_tables_schema (w : world) : body unit :=
  andthen (ask (table_names w)) (fun tables =>
  match tables with
  | [] => say [Text (newline ++ "No tables found in the database.")]
  | _ :: _ =>
      andthen (say (print_separator "TABLES" "=")) (fun _ =>
      andthen (say [Found (List.length tables) "table(s)"]) (fun _ =>
      andthen (say (map (fun table => Text ("  - " ++ table)) tables))
        (fun _ =>
      print_each_table w tables)))
  end).

Definition sql_lines (sql : option string) : list line :=
  if some_text sql then [Text ("SQL: " ++ text_of sql)] else [].

(** [print_indexes(cursor)] *)
Definition print_indexes (w : world) : body unit :=
  andthen (ask (index_rows w)) (fun indexes =>
  match indexes with
  | [] => say [Text (newline ++ "No indexes found in the database.")]
  | _ :: _ =>
      andthen (say (print_separator "INDEXES" "=")) (fun _ =>
      andthen (say [Found (List.length indexes) "index(es)"]) (fun _ =>
      say (flat_map
             (fun '(name, table, sql) =>
                Text (newline ++ "Index: " ++ name
                      ++ " (Table: " ++ table ++ ")")
                :: sql_lines sql) indexes)))
  end).

(** [print_views(cursor)] *)
Definition print_views (w : world) : body unit :=
  andthen (ask (view_rows w)) (fun views =>
  match views with
  | [] => say [Text (newline ++ "No views found in the database.")]
  | _ :: _ =>
      andthen (say (print_separator "VIEWS" "=")) (fun _ =>
      andthen (say [Found (List.length views) "view(s)"]) (fun _ =>
      say (flat_map
             (fun '(name, sql) =>
                Text (newline ++ "View: " ++ name) :: sql_lines sql)
             views)))
  end).

(** [print_triggers(cursor)] *)
Definition print_triggers (w : world) : body unit :=
  andthen (ask (trigger_rows w)) (fun triggers =>
  match triggers with
  | [] => say [Text (newline ++ "No triggers found in the database.")]
  | _ :: _ =>
      andthen (say (print_separator "TRIGGERS" "=")) (fun _ =>
      andthen (say [Found (List.length triggers) "trigger(s)"]) (fun _ =>
      say (flat_map
             (fun '(name, table, sql) =>
                Text (newline ++ "Trigger: " ++ name
                      ++ " (Table: " ++ table ++ ")")
                :: sql_lines sql) triggers)))
  end).

(** The [try] block of [inspect_database]. *)
Definition inspection (w : world) (db_path : string) : body unit :=
  andthen (attempt (connect_error w)) (fun _ =>
  andthen (attempt (cursor_error w)) (fun _ =>
  andthen (print_database_info w db_path) (fun _ =>
  andthen (print_tables_schema w) (fun _ =>
  andthen (print_indexes w) (fun _ =>
  andthen (print_views w) (fun _ =>
  andthen (print_triggers w) (fun _ =>
  say (print_separator "SCHEMA INSPECTION COMPLETE" "=")))))))).

(** [inspect_database(db_path)].  Both handlers print and call
    [sys.exit(1)]; the [finally] clause then reads [conn], which is unbound
    when [sqlite3.connect] raised, and an exception of the [finally] clause
    replaces the exit in flight. *)
Definition inspect_database (w : world) (db_path : string)
  : list line * outcome unit :=
  if negb (path_exists w) then
    ([Text ("Error: Database file '" ++ db_path ++ "' does not exist.")],
     Exit 1%Z)
  else
    let '(out, r) := inspection w db_path in
    let '(out', pending) :=
      match r with
      | Ok _ => (out, Done tt)
      | Raise e =>
          if is_sqlite_error e then (out ++ [Sqlite_error e], Exit 1%Z)
          else (out ++ [Other_error e], Exit 1%Z)
      end in
    match connect_error w with
    | Some _ => (out', Uncaught UnboundLocalError)
    | None =>
        match close_error w with
        | Some e' => (out', Uncaught e')
        | None => (out', pending)
        end
    end.

(** [main()]; [argv] is [sys.argv]. *)
Definition main (argv : list string) (w : world) : list line * outcome unit :=
  match argv with
  | [_; db_path] => inspect_database w db_path
  | _ =>
      ([Text "Usage: python sqlite_schema.py <path_to_database>";
        Text (newline ++ "Example:");
        Text "  python sqlite_schema.py stars.sqlite3";
        Text "  python sqlite_schema.py /path/to/database.db"],
       Exit 1%Z)
  end.

End Schema.

(* ================================================================== *)
(** * Further inputs for the examples *)
(* ================================================================== *)

Module Sample.

Import Py.

(** A row of the catalogue whose coordinates are all zero. *)
Definition zero_row : Csv.row :=
  Csv.row_of [("id", "5"); ("mag", "1"); ("x", "0"); ("y", "0"); ("z", "0");
              ("spect", "G2V")]%string.

(** Three rows of the star-info script: one with an id, one without, one
    whose id is no number. *)
Definition mixed_rows : list Csv.row :=
  [Ref.named_row "7" "a"; Ref.named_row "" "b"; Ref.named_row "x" "c"].

(** A run of the dump utility in which [sqlite3.connect] raises. *)
Definition refused_connection : Dump.world :=
  {| Dump.input_exists := true; Dump.target_exists := false;
     Dump.remove_error := None; Dump.connect_error := Some SqliteError;
     Dump.open_error := None; Dump.transfer_error := None;
     Dump.commit_error := None; Dump.close_error := None |}.

(** A database with the one table [stars] and nothing else. *)
Definition one_table_db : Schema.world :=
  {| Schema.path_exists := true;
     Schema.connect_error := None;
     Schema.cursor_error := None;
     Schema.getsize := Ok 8192%Z;
     Schema.sqlite_version := Ok "3.45.1"%string;
     Schema.page_count := Ok 2%Z;
     Schema.page_size := Ok 4096%Z;
     Schema.table_names := Ok ["stars"%string];
     Schema.table_sql :=
       fun _ => Ok (Some "CREATE TABLE stars (id INTEGER)"%string);
     Schema.index_rows := Ok [];
     Schema.view_rows := Ok [];
     Schema.trigger_rows := Ok [];
     Schema.close_error := None |}.

End Sample.

(* ================================================================== *)
(** * Properties *)
(* ================================================================== *)

(** ** The spectral class *)

Section SpectralClass.
Import PyStr Spectral.
Open Scope string_scope.

Lemma first_upper_is_first (text : string) :
  is_first_upper text (first_upper text).
Proof.
  induction text as [|a text IH]; simpl; [reflexivity|].
  destruct (isupper a) eqn:Ha.
  - exists "", text. simpl. auto.
  - destruct (first_upper text) as [c|]; simpl in *.
    + destruct IH as (pre & post & -> & Hc & Hpre).
      exists (String a pre), post. simpl. rewrite Ha. auto.
    + rewrite Ha. exact IH.
Qed.

Lemma lstrip_all_space (s : string) : all isspace s = true -> lstrip s = "".
Proof.
  induction s as [|c s IH]; simpl; [reflexivity|].
  destruct (isspace c); simpl; [exact IH | discriminate].
Qed.

Lemma strip_all_space (s : string) : all isspace s = true -> strip s = "".
Proof. intros H. unfold strip. rewrite (lstrip_all_space _ H). reflexivity. Qed.

Lemma len_cons (c : ascii) (s : string) : len (String c s) = (1 + len s)%Z.
Proof. unfold len. simpl String.length. lia. Qed.

Lemma len_nonneg (s : string) : (0 <= len s)%Z.
Proof. unfold len. lia. Qed.

Lemma prefix_cons (a b : ascii) (s1 s2 : string) :
  String.prefix (String a s1) (String b s2)
  = (Ascii.eqb a b && String.prefix s1 s2)%bool.
Proof.
  cbn [String.prefix]. destruct (ascii_dec a b) as [->|Hn].
  - now rewrite Ascii.eqb_refl.
  - apply Ascii.eqb_neq in Hn. now rewrite Hn.
Qed.

Lemma prefix_empty (s : string) : String.prefix "" s = true.
Proof. destruct s; reflexivity. Qed.

(** The two tests on the prefix, read on the characters of the text. *)
Lemma starts_sd (t : string) :
  startswith (lower t) "sd" = true <->
  exists a b r, t = String a (String b r) /\
                lower_char a = "s"%char /\ lower_char b = "d"%char.
Proof.
  unfold startswith. split.
  - destruct t as [|a [|b r]]; cbn [lower].
    + discriminate.
    + rewrite prefix_cons. destruct (Ascii.eqb _ _); discriminate.
    + rewrite !prefix_cons.
      destruct (Ascii.eqb_spec "s" (lower_char a)) as [Ha|]; [|discriminate].
      destruct (Ascii.eqb_spec "d" (lower_char b)) as [Hb|]; [|discriminate].
      intros _. exists a, b, r. auto.
  - intros (a & b & r & -> & Ha & Hb). cbn [lower].
    rewrite !prefix_cons, Ha, Hb, prefix_empty. reflexivity.
Qed.

Lemma starts_d (t : string) :
  startswith (lower t) "d" = true <->
  exists a r, t = String a r /\ lower_char a = "d"%char.
Proof.
  unfold startswith. split.
  - destruct t as [|a r]; cbn [lower]; [discriminate|].
    rewrite prefix_cons.
    destruct (Ascii.eqb_spec "d" (lower_char a)) as [Ha|]; [|discriminate].
    intros _. exists a, r. auto.
  - intros (a & r & -> & Ha). cbn [lower].
    rewrite prefix_cons, Ha, prefix_empty. reflexivity.
Qed.

Lemma branches_follow_remaining_text (t : string) :
  exists rest, remaining_text t rest /\
    (if (startswith (lower t) "sd" && (2 <? len t)%Z)%bool
     then first_upper (drop 2 t)
     else if (startswith (lower t) "d" && (1 <? len t)%Z)%bool
          then first_upper (drop 1 t)
          else first_upper t) = first_upper rest.
Proof.
  destruct (startswith (lower t) "sd" && (2 <? len t)%Z)%bool eqn:Hsd.
  - apply andb_true_iff in Hsd. destruct Hsd as [Hp Hl].
    apply starts_sd in Hp. destruct Hp as (a & b & r & -> & Ha & Hb).
    apply Z.ltb_lt in Hl. rewrite !len_cons in Hl.
    destruct r as [|c r]; [unfold len in Hl; simpl in Hl; lia|].
    exists (String c r). split; [now apply rem_sd | reflexivity].
  - destruct (startswith (lower t) "d" && (1 <? len t)%Z)%bool eqn:Hd.
    + apply andb_true_iff in Hd. destruct Hd as [Hp Hl].
      apply starts_d in Hp. destruct Hp as (a & r & -> & Ha).
      apply Z.ltb_lt in Hl. rewrite len_cons in Hl.
      destruct r as [|c r]; [unfold len in Hl; simpl in Hl; lia|].
      exists (String c r). split; [now apply rem_d | reflexivity].
    + exists t. split; [|reflexivity].
      apply rem_none.
      * intros a b c r -> [Ha Hb].
        apply andb_false_iff in Hsd. destruct Hsd as [Hp | Hl].
        -- assert (startswith (lower (String a (String b (String c r)))) "sd"
                   = true)
             by (apply starts_sd; exists a, b, (String c r); auto).
           congruence.
        -- apply Z.ltb_ge in Hl. rewrite !len_cons in Hl.
           pose proof (len_nonneg r). lia.
      * intros a c r -> Ha.
        apply andb_false_iff in Hd. destruct Hd as [Hp | Hl].
        -- assert (startswith (lower (String a (String c r))) "d" = true)
             by (apply starts_d; exists a, (String c r); auto).
           congruence.
        -- apply Z.ltb_ge in Hl. rewrite !len_cons in Hl.
           pose proof (len_nonneg r). lia.
Qed.

(** C1 (as amended).  For every input string, [extract_spectral_class]
    removes the surrounding whitespace, then drops a leading "sd" or, failing
    that, a leading "d", matched without regard to case and only when some
    text follows the prefix, and returns the first upper-case letter of the
    remaining text; it returns none when the string is empty or only
    whitespace, or when no upper-case letter follows. *)
Theorem extract_spectral_class_rule (spect : string) :
  (all isspace spect = true -> extract_spectral_class spect = None) /\
  exists rest,
    remaining_text (strip spect) rest /\
    is_first_upper rest (extract_spectral_class spect).
Proof.
  split.
  - intros H. unfold extract_spectral_class.
    rewrite (strip_all_space _ H). simpl. now rewrite orb_true_r.
  - unfold extract_spectral_class.
    destruct (negb (truthy spect) || negb (truthy (strip spect)))%bool eqn:Hempty.
    + assert (Hs : strip spect = "").
      { apply orb_true_iff in Hempty. destruct Hempty as [H | H].
        - destruct spect; [reflexivity | discriminate].
        - destruct (strip spect); [reflexivity | discriminate]. }
      rewrite Hs. exists "". split; [|reflexivity].
      apply rem_none; intros; discriminate.
    + destruct (branches_follow_remaining_text (strip spect))
        as (rest & Hrem & Heq).
      exists rest. split; [exact Hrem|].
      cbv zeta. rewrite Heq. apply first_upper_is_first.
Qed.

(** C1 as stated fails on the white-dwarf code "DA2": the text starts with
    neither "sd" nor "d" and its first upper-case letter is "D", yet the
    function removes the "D" and answers "A".  (Were the prefixes of the
    statement read without regard to case, it would fail on "D" and "SD":
    nothing would remain behind the prefix, and the function, which removes
    a prefix only in front of further text, answers "D" and "S".) *)
Lemma extract_spectral_class_white_dwarf :
  extract_spectral_class "DA2" = Some "A"%char /\
  startswith "DA2" "sd" = false /\ startswith "DA2" "d" = false /\
  first_upper "DA2" = Some "D"%char /\
  spectral_class_by_rule "DA2" = Some "D"%char /\
  extract_spectral_class "D" = Some "D"%char /\
  extract_spectral_class "SD" = Some "S"%char.
Proof. repeat split; reflexivity. Qed.

End SpectralClass.

(** A string of blanks has no spectral class. *)
Lemma extract_spectral_class_rule_witness :
  PyStr.all PyStr.isspace "   "%string = true /\
  Spectral.extract_spectral_class "   "%string = None.
Proof.
  split; [reflexivity|].
  apply (proj1 (extract_spectral_class_rule "   "%string)). reflexivity.
Defined.

(** ** Latitude and longitude *)

Section LatLonFacts.
Import Py LatLon.
Open Scope py_scope.
Context {E : Externals}.

Lemma zero_vector_has_no_result (x y z : float) :
  is_zero x = true -> is_zero y = true -> is_zero z = true ->
  cartesian_to_lat_lon x y z = Ok (None, None).
Proof.
  destruct x as [sx| | |]; try discriminate.
  destruct y as [sy| | |]; try discriminate.
  destruct z as [sz| | |]; try discriminate.
  intros _ _ _. destruct sx, sy, sz; reflexivity.
Qed.

Lemma unit_x_vector :
  math_asin (float_of_Z 0) = Some (float_of_Z 0) ->
  math_atan2 (float_of_Z 0) (float_of_Z 1) = Some (float_of_Z 0) ->
  cartesian_to_lat_lon (float_of_Z 1) (float_of_Z 0) (float_of_Z 0)
  = Ok (Some (float_of_Z 0), Some (float_of_Z 0)).
Proof.
  intros Hasin Hatan. unfold cartesian_to_lat_lon.
  replace (magnitude_of (float_of_Z 1) (float_of_Z 0) (float_of_Z 0))
    with (Ok (float_of_Z 1)) by (vm_compute; reflexivity).
  cbn [bind].
  replace (feqb (float_of_Z 1) (float_of_Z 0)) with false
    by (vm_compute; reflexivity).
  replace (float_of_Z 0 /! float_of_Z 1) with (float_of_Z 0)
    by (vm_compute; reflexivity).
  replace (float_of_Z 1 /! float_of_Z 1) with (float_of_Z 1)
    by (vm_compute; reflexivity).
  rewrite Hasin, Hatan. cbn [or_value_error bind].
  replace (float_of_Z 0 *! float_of_Z 180 /! pi) with (float_of_Z 0)
    by (vm_compute; reflexivity).
  reflexivity.
Qed.

(** Shifting to the right keeps a mantissa that is not negative so. *)
Lemma shr_1_nonneg (mrs : shr_record) :
  (0 <= shr_m mrs)%Z -> (0 <= shr_m (shr_1 mrs))%Z.
Proof.
  destruct mrs as [m r s]. cbn [shr_m shr_1].
  destruct m as [|[p|p|]|p]; cbn [shr_m]; lia.
Qed.

Lemma iter_shr_1_nonneg (p : positive) (mrs : shr_record) :
  (0 <= shr_m mrs)%Z -> (0 <= shr_m (iter_pos shr_1 p mrs))%Z.
Proof.
  revert mrs. induction p as [p IH|p IH|]; intros mrs H; cbn [iter_pos].
  - apply IH, IH. now apply shr_1_nonneg.
  - now apply IH, IH.
  - now apply shr_1_nonneg.
Qed.

Lemma shr_fexp_nonneg (m e : Z) (l : location) :
  (0 <= m)%Z -> (0 <= shr_m (fst (shr_fexp prec emax m e l)))%Z.
Proof.
  intros H. unfold shr_fexp, shr.
  assert (H0 : (0 <= shr_m (shr_record_of_loc m l))%Z)
    by (destruct l as [|[]]; exact H).
  destruct (_ - e)%Z; cbn [fst]; try exact H0.
  now apply iter_shr_1_nonneg.
Qed.

Lemma round_nearest_even_nonneg (m : Z) (l : location) :
  (0 <= m)%Z -> (0 <= round_nearest_even m l)%Z.
Proof.
  intros H. unfold round_nearest_even.
  destruct l as [|[]]; try destruct (Z.even m); lia.
Qed.

(** What rounding returns carries the sign it was given. *)
Lemma binary_round_aux_sign (sx : bool) (mx ex : Z) (lx : location) :
  is_nan (binary_round_aux prec emax sx mx ex lx) = true \/
  sign_bit (binary_round_aux prec emax sx mx ex lx) = sx.
Proof.
  unfold binary_round_aux.
  destruct (shr_fexp prec emax mx ex lx) as [mrs' e'].
  destruct (shr_fexp prec emax _ e' loc_Exact) as [mrs'' e''].
  destruct (shr_m mrs''); [now right | | now left].
  destruct (_ <=? _)%Z; now right.
Qed.

(** Rounding a mantissa that is not negative gives no NaN. *)
Lemma binary_round_aux_number (sx : bool) (mx ex : Z) (lx : location) :
  (0 <= mx)%Z -> is_nan (binary_round_aux prec emax sx mx ex lx) = false.
Proof.
  intros H. unfold binary_round_aux.
  pose proof (shr_fexp_nonneg mx ex lx H) as H1.
  destruct (shr_fexp prec emax mx ex lx) as [mrs' e']. cbn [fst] in H1.
  pose proof (shr_fexp_nonneg _ e' loc_Exact
                (round_nearest_even_nonneg _ (loc_of_shr_record mrs') H1))
    as H2.
  destruct (shr_fexp prec emax _ e' loc_Exact) as [mrs'' e''].
  cbn [fst] in H2.
  destruct (shr_m mrs''); [reflexivity | | lia].
  destruct (_ <=? _)%Z; reflexivity.
Qed.

(** A square is a NaN or has its sign bit clear. *)
Lemma square_sign (x : float) : sign_bit (x *! x) = false.
Proof.
  unfold fmul. destruct x as [s|s| |s m e]; cbn [SFmul sign_bit];
    try reflexivity; try (destruct s; reflexivity).
  replace (xorb s s) with false by (destruct s; reflexivity).
  destruct (binary_round_aux_sign false (Z.pos (m * m)) (e + e) loc_Exact)
    as [H|H]; [|exact H].
  destruct (binary_round_aux _ _ _ _ _ _); try discriminate. reflexivity.
Qed.

(** So is a sum of two such numbers. *)
Lemma sum_sign (a b : float) :
  sign_bit a = false -> sign_bit b = false -> sign_bit (a +! b) = false.
Proof.
  unfold fadd.
  destruct a as [sa|sa| |sa ma ea], b as [sb|sb| |sb mb eb];
    cbn [sign_bit]; intros Ha Hb; try subst sa; try subst sb;
    cbn [SFadd sign_bit]; try reflexivity.
  cbn [cond_Zopp Z.add binary_normalize]. unfold binary_round.
  destruct (shl_align _ _ _) as [mz ez].
  destruct (binary_round_aux_sign false (Z.pos mz) ez loc_Exact) as [H|H];
    [|exact H].
  destruct (binary_round_aux _ _ _ _ _ _); try discriminate. reflexivity.
Qed.

(** The square root of a number whose sign bit is clear is a number. *)
Lemma sqrt_of_unsigned (v : float) :
  sign_bit v = false -> is_nan v = false ->
  is_nan (SFsqrt prec emax v) = false.
Proof.
  destruct v as [s|s| |s m e]; cbn [sign_bit is_nan]; intros Hs Hn;
    try discriminate; subst s; cbn [SFsqrt is_nan]; try reflexivity.
  unfold SFsqrt_core_binary.
  match goal with
  | |- context [Z.sqrtrem ?n] =>
      pose proof (Z.sqrt_nonneg n) as Hq;
      rewrite <- Z.sqrtrem_sqrt in Hq;
      destruct (Z.sqrtrem n) as [q r]
  end.
  cbn [fst] in Hq. now apply binary_round_aux_number.
Qed.

(** [math.sqrt] never raises on a sum of three squares. *)
Lemma magnitude_of_returns (x y z : float) :
  magnitude_of x y z
  = Ok (SFsqrt prec emax (x *! x +! y *! y +! z *! z)).
Proof.
  unfold magnitude_of, math_sqrt.
  set (v := x *! x +! y *! y +! z *! z).
  assert (Hv : sign_bit v = false)
    by (subst v; apply sum_sign; [apply sum_sign|]; apply square_sign).
  destruct (is_nan v) eqn:Hn.
  - now rewrite andb_false_r.
  - now rewrite (sqrt_of_unsigned v Hv Hn).
Qed.

(** C4 (as amended).  [cartesian_to_lat_lon] computes the magnitude
    sqrt(x*x + y*y + z*z) in double precision, which never raises, and
    returns (None, None) exactly when that magnitude compares equal to
    zero, which is the case for every vector whose components are zeros.
    Otherwise it divides the vector by that magnitude and returns latitude
    = asin(z_norm) and longitude = atan2(y_norm, x_norm), each multiplied
    by 180 and divided by pi, unless [math.asin] or, after it,
    [math.atan2] raises, and then it raises [ValueError]; so the unit
    vector (1, 0, 0) maps to latitude 0 and longitude 0 (asin(0) = 0 and
    atan2(0, 1) = 0 being what the C library answers). *)
Theorem cartesian_to_lat_lon_result (x y z : float) :
  (is_zero x = true -> is_zero y = true -> is_zero z = true ->
   cartesian_to_lat_lon x y z = Ok (None, None))
  /\ (cartesian_to_lat_lon x y z = Ok (None, None) <->
      exists m, magnitude_of x y z = Ok m /\ feqb m (float_of_Z 0) = true)
  /\ (forall lat lon, cartesian_to_lat_lon x y z = Ok (lat, lon) ->
      (lat = None /\ lon = None) \/
      exists m a b,
        magnitude_of x y z = Ok m /\ feqb m (float_of_Z 0) = false /\
        math_asin (z /! m) = Some a /\
        math_atan2 (y /! m) (x /! m) = Some b /\
        lat = Some (a *! float_of_Z 180 /! pi) /\
        lon = Some (b *! float_of_Z 180 /! pi))
  /\ (math_asin (float_of_Z 0) = Some (float_of_Z 0) ->
      math_atan2 (float_of_Z 0) (float_of_Z 1) = Some (float_of_Z 0) ->
      cartesian_to_lat_lon (float_of_Z 1) (float_of_Z 0) (float_of_Z 0)
      = Ok (Some (float_of_Z 0), Some (float_of_Z 0)))
  /\ magnitude_of x y z
     = Ok (SFsqrt prec emax (x *! x +! y *! y +! z *! z))
  /\ (forall m,
        magnitude_of x y z = Ok m -> feqb m (float_of_Z 0) = false ->
        cartesian_to_lat_lon x y z
        = match math_asin (z /! m) with
          | None => Raise ValueError
          | Some a =>
              match math_atan2 (y /! m) (x /! m) with
              | None => Raise ValueError
              | Some b => Ok (Some (a *! float_of_Z 180 /! pi),
                              Some (b *! float_of_Z 180 /! pi))
              end
          end).
Proof.
  split; [apply zero_vector_has_no_result|].
  split; [|split; [|split; [apply unit_x_vector|]]].
  - unfold cartesian_to_lat_lon.
    destruct (magnitude_of x y z) as [m|e]; cbn [bind].
    + destruct (feqb m (float_of_Z 0)) eqn:Hm.
      * split; [intros _; exists m; auto | reflexivity].
      * split.
        -- destruct (math_asin _); cbn [or_value_error bind]; [|discriminate].
           destruct (math_atan2 _ _); cbn [or_value_error bind]; discriminate.
        -- intros (m' & Hm' & Hz). congruence.
    + split; [discriminate | intros (m & Hm & _); discriminate].
  - intros lat lon. unfold cartesian_to_lat_lon.
    destruct (magnitude_of x y z) as [m|e]; cbn [bind]; [|discriminate].
    destruct (feqb m (float_of_Z 0)) eqn:Hm.
    + intros H. injection H as <- <-. left. auto.
    + destruct (math_asin _) as [a|] eqn:Ha; cbn [or_value_error bind];
        [|discriminate].
      destruct (math_atan2 _ _) as [b|] eqn:Hb; cbn [or_value_error bind];
        [|discriminate].
      intros H. injection H as <- <-. right. exists m, a, b. auto 10.
  - split; [apply magnitude_of_returns|].
    intros m Hm Hz. unfold cartesian_to_lat_lon. rewrite Hm. cbn [bind].
    rewrite Hz.
    destruct (math_asin _) as [a|]; cbn [or_value_error bind];
      [|reflexivity].
    destruct (math_atan2 _ _) as [b|]; reflexivity.
Qed.

End LatLonFacts.

(** C4 as stated fails on the vector (2^-600, 0, 0): it is a binary64
    vector of non-zero magnitude, the square of its first component
    underflows to zero, and the function returns (None, None). *)
Lemma cartesian_to_lat_lon_underflow :
  valid_binary Py.prec Py.emax Ref.tiny = true /\
  Py.is_zero Ref.tiny = false /\
  @LatLon.cartesian_to_lat_lon Ref.externals
    Ref.tiny (Py.float_of_Z 0) (Py.float_of_Z 0) = Py.Ok (None, None).
Proof. repeat split; vm_compute; reflexivity. Qed.

(** The unit vector (1, 0, 0) on the stand-ins. *)
Lemma cartesian_to_lat_lon_result_witness :
  Ref.asin_at_zero (Py.float_of_Z 0) = Some (Py.float_of_Z 0) /\
  Ref.atan2_at_zero (Py.float_of_Z 0) (Py.float_of_Z 1)
  = Some (Py.float_of_Z 0) /\
  @LatLon.cartesian_to_lat_lon Ref.externals
    (Py.float_of_Z 1) (Py.float_of_Z 0) (Py.float_of_Z 0)
  = Py.Ok (Some (Py.float_of_Z 0), Some (Py.float_of_Z 0)).
Proof.
  split; [reflexivity|]. split; [reflexivity|].
  apply (proj1 (proj2 (proj2 (proj2
           (@cartesian_to_lat_lon_result Ref.externals
              (Py.float_of_Z 1) (Py.float_of_Z 0) (Py.float_of_Z 0))))));
    reflexivity.
Defined.

(** The vector (0, 0, 1.5 * 2^-537): its square is rounded down among the
    subnormal numbers, the computed magnitude is smaller than the vector's
    component and the normalized component is greater than 1, outside the
    domain of [math.asin]. *)
Example normalized_component_above_one :
  let z := S754_finite false 6755399441055744 (-589) in
  valid_binary Py.prec Py.emax z = true /\
  exists m, LatLon.magnitude_of (Py.float_of_Z 0) (Py.float_of_Z 0) z
            = Py.Ok m /\
            Py.feqb m (Py.float_of_Z 0) = false /\
            Py.fltb (Py.float_of_Z 1) (Py.fdiv z m) = true.
Proof.
  cbv zeta. split; [reflexivity|]. eexists.
  split; [vm_compute; reflexivity|]. split; vm_compute; reflexivity.
Qed.

(** ** The order of floats *)

Section FloatOrder.
Import Py.

Ltac split_compare :=
  repeat match goal with
    | |- context [Z.compare ?x ?y] => destruct (Z.compare_spec x y)
    | |- context [Pos.compare_cont Eq ?x ?y] =>
        change (Pos.compare_cont Eq x y) with (Pos.compare x y);
        destruct (Pos.compare_spec x y)
    end.

Ltac float_cases :=
  unfold fltb, feqb, SFltb, SFeqb, SFcompare;
  repeat match goal with
    | x : float |- _ => destruct x as [[|]|[|]| |[|] ? ?]
    | x : spec_float |- _ => destruct x as [[|]|[|]| |[|] ? ?]
    end;
  cbn [is_nan CompOpp]; try discriminate; try reflexivity;
  split_compare; cbn [CompOpp]; intros; subst;
  try discriminate; try reflexivity; try lia.

(** [<] is asymmetric. *)
Lemma fltb_asym (a b : float) : fltb a b = true -> fltb b a = false.
Proof. revert a b. intros a b. float_cases. Qed.

(** "Not greater" passes through a middle term that is not a NaN. *)
Lemma fltb_false_trans (a b c : float) :
  is_nan b = false ->
  fltb b a = false -> fltb c b = false -> fltb c a = false.
Proof. float_cases. Qed.

(** A float less than another is not equal to what the other equals. *)
Lemma fltb_not_feqb (a b m : float) :
  fltb b a = true -> feqb a m = true -> feqb b m = false.
Proof. float_cases. Qed.

(** Only plus infinity is not below plus infinity. *)
Lemma not_below_inf (a : float) :
  is_nan a = false -> fltb a inf = false -> a = inf.
Proof. unfold inf. float_cases. Qed.

End FloatOrder.

(** ** Sorting by a float key *)

Section SortFacts.
Import Py.
Variable A : Type.
Variable key : A -> float.

Lemma insert_perm (a : A) (l : list A) : Permutation (a :: l) (insert key a l).
Proof.
  induction l as [|b l IH]; cbn [insert]; [apply Permutation_refl|].
  destruct (fltb (key b) (key a)).
  - eapply perm_trans; [apply perm_swap|]. now apply perm_skip.
  - apply Permutation_refl.
Qed.

Lemma sort_perm (l : list A) : Permutation l (sort key l).
Proof.
  induction l as [|a l IH]; cbn [sort]; [constructor|].
  eapply perm_trans; [apply perm_skip, IH | apply insert_perm].
Qed.

Lemma no_nan_perm (l l' : list A) :
  Permutation l l' -> (no_nan key) l -> (no_nan key) l'.
Proof. intros H. apply Permutation_Forall, H. Qed.

Lemma insert_sorted (a : A) (l : list A) :
  is_nan (key a) = false -> (no_nan key) l ->
  StronglySorted (not_greater key) l -> StronglySorted (not_greater key) (insert key a l).
Proof.
  intros Ha Hl Hs. induction Hs as [|b l Hs IH Hb]; cbn [insert].
  - repeat constructor.
  - inversion Hl as [|? ? Hnb Hl']; subst.
    destruct (fltb (key b) (key a)) eqn:Hlt.
    + constructor; [now apply IH|].
      eapply Permutation_Forall; [apply insert_perm|].
      constructor; [|exact Hb].
      unfold not_greater. now apply fltb_asym.
    + constructor; [now constructor|].
      constructor; [exact Hlt|].
      eapply Forall_impl; [|exact Hb].
      intros c Hc. unfold not_greater in *.
      now apply fltb_false_trans with (b := key b).
Qed.

Lemma sort_sorted (l : list A) :
  (no_nan key) l -> StronglySorted (not_greater key) (sort key l).
Proof.
  induction l as [|a l IH]; cbn [sort]; intros H; [constructor|].
  inversion H; subst.
  apply insert_sorted; auto.
  eapply no_nan_perm; [apply sort_perm | assumption].
Qed.

(** Stability: the elements of each class of equal keys keep their order. *)
Lemma insert_stable (m : float) (a : A) (l : list A) :
  filter (fun s => feqb (key s) m) (insert key a l)
  = filter (fun s => feqb (key s) m) (a :: l).
Proof.
  induction l as [|b l IH]; cbn [insert]; [reflexivity|].
  destruct (fltb (key b) (key a)) eqn:Hlt; [|reflexivity].
  cbn [filter] in *. rewrite IH.
  destruct (feqb (key a) m) eqn:Ha; [|reflexivity].
  now rewrite (fltb_not_feqb _ _ _ Hlt Ha).
Qed.

Lemma sort_stable (m : float) (l : list A) :
  filter (fun s => feqb (key s) m) (sort key l)
  = filter (fun s => feqb (key s) m) l.
Proof.
  induction l as [|a l IH]; cbn [sort]; [reflexivity|].
  rewrite insert_stable. cbn [filter]. now rewrite IH.
Qed.

(** Behind an element whose key is plus infinity every key is plus
    infinity. *)
Lemma sorted_after_inf (l pre post : list A) (a : A) :
  (no_nan key) l -> StronglySorted (not_greater key) l ->
  l = pre ++ a :: post -> key a = inf ->
  Forall (fun b => key b = inf) post.
Proof.
  intros Hn Hs -> Ha.
  induction pre as [|p pre IH]; cbn [app] in *.
  - apply StronglySorted_inv in Hs. destruct Hs as [_ Hall].
    inversion Hn as [|? ? _ Hn']; subst.
    rewrite Forall_forall in *. intros b Hb.
    apply not_below_inf; [now apply Hn'|].
    rewrite <- Ha. now apply Hall.
  - inversion Hn; subst. apply StronglySorted_inv in Hs. now apply IH.
Qed.


End SortFacts.

(** ** Reading the rows *)

Section ReadingFacts.
Import Py Csv Log Star.
Open Scope py_scope.
Context {E : Externals}.

Lemma optional_raises {A} (conv : string -> option A) (cell : string) e :
  optional conv cell = Raise e -> e = ValueError.
Proof.
  unfold optional. destruct (PyStr.truthy cell); [|discriminate].
  destruct (conv cell); cbn; [discriminate | congruence].
Qed.

(** The dictionary display raises nothing but [ValueError]. *)
Lemma star_of_row_raises (row : Csv.row) (e : exn) :
  star_of_row row = Raise e -> e = ValueError.
Proof.
  unfold star_of_row.
  destruct (optional py_int (row "id"%string)) eqn:H1; cbn [bind];
    [|intros H; injection H as <-; eapply optional_raises; eauto].
  destruct (if PyStr.truthy (row "mag"%string) then _ else _) eqn:H2;
    cbn [bind].
  2:{ intros H; injection H as <-.
      destruct (PyStr.truthy _); [|discriminate].
      destruct (py_float _); cbn in H2; congruence. }
  destruct (optional py_float (row "x"%string)) eqn:H3; cbn [bind];
    [|intros H; injection H as <-; eapply optional_raises; eauto].
  destruct (optional py_float (row "y"%string)) eqn:H4; cbn [bind];
    [|intros H; injection H as <-; eapply optional_raises; eauto].
  destruct (optional py_float (row "z"%string)) eqn:H5; cbn [bind];
    [|intros H; injection H as <-; eapply optional_raises; eauto].
  discriminate.
Qed.

(** A record whose magnitude field is missing has magnitude plus infinity. *)
Lemma missing_magnitude (row : Csv.row) (s : star) :
  star_of_row row = Ok s -> PyStr.truthy (row "mag"%string) = false ->
  mag s = inf.
Proof.
  unfold star_of_row. intros H Hm. rewrite Hm in H.
  destruct (optional py_int _); cbn [bind] in H; [|discriminate].
  destruct (optional py_float (row "x"%string)); cbn [bind] in H;
    [|discriminate].
  destruct (optional py_float (row "y"%string)); cbn [bind] in H;
    [|discriminate].
  destruct (optional py_float (row "z"%string)); cbn [bind] in H;
    [|discriminate].
  injection H as <-. reflexivity.
Qed.

Lemma math_sqrt_raises (v : float) e : math_sqrt v = Raise e -> e = ValueError.
Proof.
  unfold math_sqrt. destruct (_ && _)%bool; [congruence | discriminate].
Qed.

Lemma cartesian_to_lat_lon_raises (vx vy vz : float) (e : exn) :
  LatLon.cartesian_to_lat_lon vx vy vz = Raise e -> e = ValueError.
Proof.
  unfold LatLon.cartesian_to_lat_lon, LatLon.magnitude_of.
  destruct (math_sqrt _) as [m|e'] eqn:Hm; cbn [bind].
  - destruct (feqb m _); [discriminate|].
    destruct (math_asin _); cbn; [|congruence].
    destruct (math_atan2 _ _); cbn; [discriminate | congruence].
  - intros H. injection H as <-. eapply math_sqrt_raises; eauto.
Qed.

Lemma lat_lon_of_star_raises (s : star) (e : exn) :
  Brightest.lat_lon_of_star s = Raise e -> is_value_or_type_error e = true.
Proof.
  unfold Brightest.lat_lon_of_star.
  destruct (x s), (y s), (z s); try (intros H; injection H as <-; reflexivity).
  intros H. apply cartesian_to_lat_lon_raises in H. now subst.
Qed.

(** In the H3 script every turn of the reading loop ends inside the loop. *)
Lemma h3_row_turn_total (row : Csv.row) : exists t, H3.row_turn row = Ok t.
Proof.
  unfold H3.row_turn. destruct (H3.row_body row) as [t|e] eqn:Hb; [eauto|].
  unfold H3.row_body in Hb.
  destruct (star_of_row row) as [s|e'] eqn:Hs; cbn [bind] in Hb.
  - destruct (x s), (y s), (z s); discriminate.
  - injection Hb as <-. apply star_of_row_raises in Hs. subst. cbn. eauto.
Qed.

(** So does every turn in the brightest-N script. *)
Lemma brightest_row_turn_total (row : Csv.row) :
  exists t, Brightest.row_turn row = Ok t.
Proof.
  unfold Brightest.row_turn.
  destruct (Brightest.row_body row) as [t|e] eqn:Hb; [eauto|].
  assert (He : is_value_or_type_error e = true).
  { unfold Brightest.row_body in Hb.
    destruct (star_of_row row) as [s|e'] eqn:Hs; cbn [bind] in Hb.
    - destruct (x s) eqn:Hx, (y s) eqn:Hy, (z s) eqn:Hz; try discriminate.
      destruct (Brightest.lat_lon_of_star s) as [[lat lon]|e'] eqn:Hl;
        cbn [bind] in Hb.
      + destruct lat, lon; try discriminate.
        destruct (latlng_to_cell _ _ _); discriminate.
      + injection Hb as <-. eapply lat_lon_of_star_raises; eauto.
    - injection Hb as <-. apply star_of_row_raises in Hs. now subst. }
  rewrite He. eauto.
Qed.

Lemma h3_read_rows_total (rows : list Csv.row) :
  exists out stars, H3.read_rows rows = (out, Ok stars).
Proof.
  induction rows as [|row rows (out & stars & IH)]; cbn [H3.read_rows];
    [eauto|].
  destruct (h3_row_turn_total row) as [t ->]. rewrite IH. eauto.
Qed.

Lemma brightest_read_rows_total (rows : list Csv.row) :
  exists out stars, Brightest.read_rows rows = (out, Ok stars).
Proof.
  induction rows as [|row rows (out & stars & IH)];
    cbn [Brightest.read_rows]; [eauto|].
  destruct (brightest_row_turn_total row) as [t ->]. rewrite IH. eauto.
Qed.

(** The reading loop over two stretches of rows. *)
Lemma h3_read_rows_app (rows1 rows2 : list Csv.row) out1 stars1 out2 stars2 :
  H3.read_rows rows1 = (out1, Ok stars1) ->
  H3.read_rows rows2 = (out2, Ok stars2) ->
  H3.read_rows (rows1 ++ rows2) = (out1 ++ out2, Ok (stars1 ++ stars2)).
Proof.
  revert out1 stars1.
  induction rows1 as [|row rows1 IH]; cbn [H3.read_rows app];
    intros out1 stars1 H1 H2.
  - injection H1 as <- <-. exact H2.
  - destruct (H3.row_turn row) as [t|]; [|discriminate].
    destruct (H3.read_rows rows1) as [o [s|]] eqn:Hr; [|discriminate].
    injection H1 as <- <-.
    rewrite (IH _ _ eq_refl H2). now rewrite <- !app_assoc.
Qed.

Lemma brightest_read_rows_app (rows1 rows2 : list Csv.row)
  out1 stars1 out2 stars2 :
  Brightest.read_rows rows1 = (out1, Ok stars1) ->
  Brightest.read_rows rows2 = (out2, Ok stars2) ->
  Brightest.read_rows (rows1 ++ rows2)
  = (out1 ++ out2, Ok (stars1 ++ stars2)).
Proof.
  revert out1 stars1.
  induction rows1 as [|row rows1 IH]; cbn [Brightest.read_rows app];
    intros out1 stars1 H1 H2.
  - injection H1 as <- <-. exact H2.
  - destruct (Brightest.row_turn row) as [t|]; [|discriminate].
    destruct (Brightest.read_rows rows1) as [o [s|]] eqn:Hr; [|discriminate].
    injection H1 as <- <-.
    rewrite (IH _ _ eq_refl H2). now rewrite <- !app_assoc.
Qed.

End ReadingFacts.

(** ** The ranking by brightness *)

Section Ranking.
Import Py Csv Log Star.
Context {E : Externals}.

Lemma has_nan_false {A} (key : A -> float) (l : list A) :
  no_nan key l -> has_nan key l = false.
Proof.
  unfold no_nan, has_nan. induction 1 as [|a l Ha _ IH]; cbn [existsb];
    [reflexivity|].
  now rewrite Ha, IH.
Qed.

(** Without a NaN among the keys [list.sort] is the stable sort. *)
Lemma list_sort_no_nan {A} (key : A -> float) (l : list A) :
  no_nan key l -> list_sort key l = sort key l.
Proof. intros H. unfold list_sort. now rewrite has_nan_false. Qed.

Lemma sort_stable_ascending {A} (key : A -> float) (l : list A) :
  no_nan key l -> stable_ascending key l (sort key l).
Proof.
  intros Hn. unfold stable_ascending.
  split; [apply sort_perm|].
  split; [now apply sort_sorted|].
  split; [intros m; apply sort_stable|].
  intros pre a post Heq Ha.
  eapply sorted_after_inf with (l := sort key l); eauto.
  - eapply no_nan_perm; [apply sort_perm | exact Hn].
  - now apply sort_sorted.
Qed.

(** C5 (as amended).  For every list of retained star records in which no
    magnitude is a NaN, [read_and_sort_stars] produces a permutation of
    that list sorted in ascending order of magnitude (the brightest-N
    script then cuts it), the sort is stable (records of equal magnitude
    keep their CSV order), and a record whose magnitude field is missing is
    given magnitude plus infinity and therefore has behind it only records
    whose magnitude is plus infinity as well: every record of smaller
    magnitude sorts before it. *)
Theorem read_and_sort_stars_ranking :
  (forall f out stars,
     H3.retained f = (out, Ok stars) -> no_nan mag stars ->
     exists sorted,
       H3.read_and_sort_stars f = (out, Done sorted) /\
       stable_ascending mag stars sorted)
  /\ (forall f n out stars,
        Brightest.retained f = (out, Ok stars) ->
        no_nan Brightest.magnitude stars ->
        exists sorted,
          Brightest.read_and_sort_stars f n = (out, Done (slice_to sorted n))
          /\ stable_ascending Brightest.magnitude stars sorted)
  /\ (forall row s,
        star_of_row row = Ok s -> PyStr.truthy (row "mag"%string) = false ->
        mag s = inf).
Proof.
  split; [|split].
  - intros f out stars Hr Hn. exists (sort mag stars). split.
    + unfold H3.read_and_sort_stars.
      now rewrite Hr, (list_sort_no_nan _ _ Hn).
    + now apply sort_stable_ascending.
  - intros f n out stars Hr Hn. exists (sort Brightest.magnitude stars). split.
    + unfold Brightest.read_and_sort_stars.
      now rewrite Hr, (list_sort_no_nan _ _ Hn).
    + now apply sort_stable_ascending.
  - apply missing_magnitude.
Qed.

End Ranking.

(** The ranking on four stars: the star without magnitude comes last, the
    two stars of magnitude 2 keep their order. *)
Lemma read_and_sort_stars_ranking_witness :
  exists out stars sorted,
    @H3.retained Ref.externals Ref.ranking_file = (out, Py.Ok stars) /\
    Py.no_nan Star.mag stars /\
    @H3.read_and_sort_stars Ref.externals Ref.ranking_file = (out, Py.Done sorted)
    /\ map Star.id sorted = [Some 3; Some 2; Some 4; Some 1]%Z
    /\ Py.stable_ascending Star.mag stars sorted.
Proof.
  destruct (proj1 (@read_and_sort_stars_ranking Ref.externals)
              Ref.ranking_file [] (map (fun p => {|
                  Star.id := Some (fst p); Star.mag := snd p;
                  Star.x := Some (Py.float_of_Z 1);
                  Star.y := Some (Py.float_of_Z 0);
                  Star.z := Some (Py.float_of_Z 0);
                  Star.spect_class := Some "G"%char |})
                [(1, Py.inf); (2, Py.float_of_Z 2); (3, Py.float_of_Z 1);
                 (4, Py.float_of_Z 2)]%Z))
    as (sorted & Hrun & Hsorted).
  - vm_compute. reflexivity.
  - repeat constructor.
  - eexists. eexists. exists sorted.
    split; [vm_compute; reflexivity|].
    split; [repeat constructor|].
    split; [exact Hrun|].
    split; [|exact Hsorted].
    assert (H : @H3.read_and_sort_stars Ref.externals Ref.ranking_file
                = ([], Py.Done sorted)) by exact Hrun.
    vm_compute in H. injection H as <-. reflexivity.
Defined.

(** C5 as stated fails in two places.  With the magnitudes "2", "nan", "1"
    no comparison with the NaN holds, the list stays as it is, and the star
    of magnitude 1 ends behind the star of magnitude 2.  And a star whose
    magnitude field is missing stays in front of a later star whose
    magnitude field reads "inf". *)
Lemma read_and_sort_stars_nan :
  (exists a b c,
     @H3.read_and_sort_stars Ref.externals Ref.nan_file
     = ([], Py.Done [a; b; c]) /\
     Py.fltb (Star.mag c) (Star.mag a) = true)
  /\ (exists a b,
        @H3.read_and_sort_stars Ref.externals Ref.inf_file
        = ([], Py.Done [a; b]) /\
        Star.id a = Some 1%Z /\ Star.id b = Some 2%Z).
Proof.
  split.
  - do 3 eexists. split; vm_compute; reflexivity.
  - do 2 eexists. split; [vm_compute; reflexivity|]. split; reflexivity.
Qed.

(** ** The brightest N *)

Section BrightestN.
Import Py Csv Log Star.
Context {E : Externals}.




End BrightestN.



(** ** The three tables of the H3 script *)

Section H3Tables.
Import Py Csv Log Star.
Open Scope py_scope.
Context {E : Externals}.

Lemma firstn_min_length {A} (n : nat) (l : list A) :
  firstn (Nat.min n (List.length l)) l = firstn n l.
Proof.
  destruct (Nat.le_ge_cases n (List.length l)) as [H|H].
  - now rewrite Nat.min_l.
  - rewrite Nat.min_r by exact H. rewrite firstn_all.
    symmetry. now apply firstn_all2.
Qed.

Lemma index_nat {A} (l : list A) (a : nat) (s : A) (rest : list A) :
  skipn a l = s :: rest -> index l (Z.of_nat a) = Ok s.
Proof.
  intros Hs. unfold index.
  assert (Hlt : (a < List.length l)%nat).
  { destruct (Nat.lt_ge_cases a (List.length l)) as [H|H]; [exact H|].
    rewrite skipn_all2 in Hs by exact H. discriminate. }
  destruct (Z.ltb_spec (Z.of_nat a) 0); [lia|].
  destruct (Z.leb_spec 0 (Z.of_nat a)); [|lia].
  destruct (Z.ltb_spec (Z.of_nat a) (Z.of_nat (List.length l))); [|lia].
  cbn [andb]. rewrite Nat2Z.id.
  rewrite <- (Nat.add_0_r a), <- nth_error_skipn, Hs. reflexivity.
Qed.

(** The loop over the indices [a, a + k) visits the stars at these
    positions. *)
Lemma process_indices_segment (stars : list star) (r : Z) (k a : nat) :
  (a + k <= List.length stars)%nat ->
  H3.process_indices stars r
    (map (fun j => (Z.of_nat a + Z.of_nat j)%Z) (seq 0 k))
  = H3.hash_all r (firstn k (skipn a stars)).
Proof.
  revert a. induction k as [|k IH]; intros a Hk; [reflexivity|].
  destruct (skipn a stars) as [|s rest] eqn:Hs.
  { assert (List.length (skipn a stars) = 0%nat) by now rewrite Hs.
    rewrite length_skipn in *. lia. }
  cbn [seq map H3.process_indices firstn H3.hash_all].
  change (Z.of_nat 0) with 0%Z.
  rewrite Z.add_0_r, (index_nat _ _ _ _ Hs). cbn [bind].
  rewrite <- seq_shift, map_map.
  assert (Hrest : skipn (S a) stars = rest).
  { rewrite <- (Nat.add_1_l a), <- skipn_skipn, Hs. reflexivity. }
  rewrite <- Hrest, <- (IH (S a)) by lia.
  erewrite map_ext; [reflexivity|]. intros j. cbn beta. lia.
Qed.

(** For a start and a count that are not negative,
    [process_stars_with_h3] visits the stars of the clamped range. *)
Lemma process_stars_with_h3_segment (stars : list star) (start count r : Z) :
  (0 <= start)%Z -> (0 <= count)%Z ->
  H3.process_stars_with_h3 stars start count r
  = H3.hash_all r (H3.segment stars start count).
Proof.
  intros Hs Hc. unfold H3.process_stars_with_h3, H3.segment, range.
  set (n := List.length stars).
  destruct (Z.le_gt_cases start (Z.of_nat n)) as [Hle|Hgt].
  - set (a := Z.to_nat start).
    set (k := Nat.min (Z.to_nat count) (n - a)).
    replace (Z.to_nat (Z.min (start + count) (Z.of_nat n) - start)) with k
      by (subst k a; lia).
    erewrite map_ext with (g := fun j => (Z.of_nat a + Z.of_nat j)%Z)
      by (intros j; subst a; lia).
    rewrite process_indices_segment by (subst k a n; lia).
    subst k n. rewrite <- (length_skipn a stars).
    now rewrite firstn_min_length.
  - replace (Z.to_nat (Z.min (start + count) (Z.of_nat n) - start)) with 0%nat
      by lia.
    rewrite skipn_all2 by (subst n; lia).
    now rewrite firstn_nil.
Qed.

(** The stars a loop routes to its table are stars it visited, in their
    order, each with the loop's resolution. *)
Lemma hash_all_from_visited (r : Z) (visited : list star) out l :
  H3.hash_all r visited = (out, Done l) ->
  map base l = filter (H3.hashable r) visited /\
  Forall (fun h => resolution h = r) l.
Proof.
  revert out l. induction visited as [|s rest IH]; cbn [H3.hash_all];
    intros out l H.
  - injection H as <- <-. split; [reflexivity | constructor].
  - cbn [filter]. revert H.
    destruct (H3.hash_star r s) as [t|e] eqn:Hh; [|discriminate].
    destruct (H3.hash_all r rest) as [o [l'| |]] eqn:Hr; try discriminate.
    intros H. injection H as <- <-.
    destruct (IH _ _ eq_refl) as [Hm Hf].
    assert (Ht : forall h, t = Brightest.Append h ->
                           base h = s /\ resolution h = r).
    { intros h ->. unfold H3.hash_star in Hh.
      destruct (Brightest.lat_lon_of_star s) as [[[lat|] [lon|]]|];
        cbn [bind] in Hh; try discriminate.
      destruct (latlng_to_cell lat lon r); [|discriminate].
      injection Hh as <-. split; reflexivity. }
    unfold H3.hashable at 1. rewrite Hh.
    destruct t as [h|w]; cbn [Brightest.appended app map].
    + destruct (Ht h eq_refl) as [Hb Hres].
      split; [now rewrite Hb, Hm | now constructor].
    + split; [exact Hm | exact Hf].
Qed.

(** C7 (as amended).  In the H3 script, when [--skip], [--lvl-0-count] and
    [--lvl-1-count] are not negative, the stars routed to the three tables
    are taken from contiguous, pairwise-disjoint index ranges of the
    magnitude-sorted list: [skip, skip+lvl_0_count) for level 0,
    [skip+lvl_0_count, skip+lvl_0_count+lvl_1_count) for level 1 and, with
    [--include-rest], all remaining indices for level 2, each range clamped
    to the list length: the sorted list is the skipped stars followed by
    the three ranges, and each table holds stars of its own range only, so
    no star record is assigned to more than one table. *)
Theorem h3_tables_from_disjoint_ranges (all_stars : list star)
  (skip lvl_0_count lvl_1_count : Z) (include_rest : bool) :
  (0 <= skip)%Z -> (0 <= lvl_0_count)%Z -> (0 <= lvl_1_count)%Z ->
  let seg0 := H3.segment all_stars skip lvl_0_count in
  let seg1 := H3.segment all_stars (skip + lvl_0_count) lvl_1_count in
  let seg2 := H3.from all_stars (skip + lvl_0_count + lvl_1_count) in
  all_stars = firstn (Z.to_nat skip) all_stars ++ seg0 ++ seg1 ++ seg2 /\
  H3.select_stars all_stars skip lvl_0_count lvl_1_count include_rest
  = H3.select_from seg0 seg1 seg2 include_rest /\
  (forall r visited out l,
     H3.hash_all r visited = (out, Done l) ->
     map base l = filter (H3.hashable r) visited /\
     Forall (fun h => resolution h = r) l).
Proof.
  intros Hs H0 H1. cbv zeta.
  split; [|split; [|apply hash_all_from_visited]].
  - unfold H3.segment, H3.from.
    rewrite !Z2Nat.inj_add by lia.
    set (a := Z.to_nat skip). set (n0 := Z.to_nat lvl_0_count).
    set (n1 := Z.to_nat lvl_1_count).
    replace (skipn (a + n0 + n1) all_stars)
      with (skipn n1 (skipn (a + n0) all_stars))
      by (rewrite skipn_skipn; f_equal; lia).
    rewrite firstn_skipn.
    replace (skipn (a + n0) all_stars) with (skipn n0 (skipn a all_stars))
      by (rewrite skipn_skipn; f_equal; lia).
    now rewrite !firstn_skipn.
  - unfold H3.select_stars, H3.select_from.
    rewrite !process_stars_with_h3_segment by lia.
    destruct include_rest; [|reflexivity].
    set (start2 := (skip + lvl_0_count + lvl_1_count)%Z).
    set (n := List.length all_stars).
    assert (Hlen : List.length (H3.from all_stars start2)
                   = (n - Z.to_nat start2)%nat)
      by (unfold H3.from; apply length_skipn).
    destruct (Z.ltb_spec 0 (Z.of_nat n - start2)) as [Hpos|Hneg].
    + rewrite process_stars_with_h3_segment by (subst start2; lia).
      assert (Heq : H3.segment all_stars start2 (Z.of_nat n - start2)
                    = H3.from all_stars start2).
      { unfold H3.segment, H3.from. apply firstn_all2.
        rewrite length_skipn. fold n. subst start2. lia. }
      rewrite Heq.
      destruct (H3.from all_stars start2) as [|s rest]; [|reflexivity].
      cbn [List.length] in Hlen. subst start2. lia.
    + destruct (H3.from all_stars start2) as [|s rest]; [reflexivity|].
      cbn [List.length] in Hlen. subst start2. lia.
Qed.

End H3Tables.

(** Four stars, one skipped, one for each table. *)
Lemma h3_tables_witness :
  (0 <= 1)%Z /\ (0 <= 1)%Z /\ (0 <= 1)%Z /\
  Ref.four_stars
  = firstn 1 Ref.four_stars ++ H3.segment Ref.four_stars 1 1
    ++ H3.segment Ref.four_stars (1 + 1) 1
    ++ H3.from Ref.four_stars (1 + 1 + 1) /\
  @H3.select_stars Ref.externals Ref.four_stars 1 1 1 true
  = @H3.select_from Ref.externals
      (H3.segment Ref.four_stars 1 1) (H3.segment Ref.four_stars (1 + 1) 1)
      (H3.from Ref.four_stars (1 + 1 + 1)) true.
Proof.
  assert (Hp : (0 <= 1)%Z) by lia.
  destruct (@h3_tables_from_disjoint_ranges Ref.externals Ref.four_stars
              1 1 1 true Hp Hp Hp) as (Hsplit & Hsel & _).
  split; [exact Hp|]. split; [exact Hp|]. split; [exact Hp|].
  split; [exact Hsplit | exact Hsel].
Defined.

(** C7 as stated fails for a negative [--skip]: with two stars and
    [--skip -1 --lvl-0-count 1 --lvl-1-count 2] the index -1 is the last
    star, so the star of id 2 goes to the table of level 0 and, with the
    star of id 1, to the table of level 1 as well. *)
Lemma h3_negative_skip :
  exists t,
    snd (@H3.main Ref.externals Ref.two_star_file (-1) 1 2 false None)
    = Py.Done t /\
    map (fun h => Star.id (Star.base h)) (H3.stars_h3_0 t) = [Some 2%Z] /\
    map (fun h => Star.id (Star.base h)) (H3.stars_h3_1 t)
    = [Some 1%Z; Some 2%Z].
Proof. eexists. repeat split; vm_compute; reflexivity. Qed.

(** ** Which rows are retained *)

Section Retention.
Import Py Csv Log Star.
Open Scope py_scope.
Context {E : Externals}.

Lemma optional_spec {A} (conv : string -> option A) (cell : string) :
  optional conv cell
  = if reads_if_present conv cell then Ok (when_present conv cell)
    else Raise ValueError.
Proof.
  unfold optional, reads_if_present, when_present.
  destruct (PyStr.truthy cell); [|reflexivity].
  destruct (conv cell); reflexivity.
Qed.

Lemma magnitude_spec (cell : string) :
  (if PyStr.truthy cell then or_value_error (py_float cell) else Ok inf)
  = if reads_if_present py_float cell
    then Ok (match when_present py_float cell with
             | Some m => m
             | None => inf
             end)
    else Raise ValueError.
Proof.
  unfold reads_if_present, when_present.
  destruct (PyStr.truthy cell); [|reflexivity].
  destruct (py_float cell); reflexivity.
Qed.

(** The dictionary display succeeds exactly when no numeric field fails to
    parse. *)
Lemma star_of_row_spec (row : Csv.row) :
  star_of_row row
  = if numeric_fields_parse row then Ok (parsed row) else Raise ValueError.
Proof.
  unfold star_of_row, numeric_fields_parse, parsed.
  rewrite !optional_spec, magnitude_spec.
  destruct (reads_if_present py_int _); [|reflexivity].
  destruct (reads_if_present py_float (row "mag"%string)); [|reflexivity].
  destruct (reads_if_present py_float (row "x"%string)); [|reflexivity].
  destruct (reads_if_present py_float (row "y"%string)); [|reflexivity].
  destruct (reads_if_present py_float (row "z"%string)); reflexivity.
Qed.

Lemma when_present_some {A} (conv : string -> option A) (cell : string) :
  present_and_reads conv cell
  = match when_present conv cell with Some _ => true | None => false end.
Proof.
  unfold present_and_reads, when_present.
  destruct (PyStr.truthy cell); reflexivity.
Qed.

Lemma present_reads {A} (conv : string -> option A) (cell : string) :
  present_and_reads conv cell = true -> reads_if_present conv cell = true.
Proof.
  unfold present_and_reads, reads_if_present.
  destruct (PyStr.truthy cell), (conv cell); auto.
Qed.

(** A turn of the H3 script's reading loop. *)
Lemma h3_row_turn_spec (row : Csv.row) :
  H3.row_turn row
  = if numeric_fields_parse row then
      if coordinates_present row then Ok (Brightest.Append (parsed row))
      else Ok (Brightest.Skip None)
    else Ok (Brightest.Skip (Some (Warning_invalid_row None ValueError))).
Proof.
  unfold H3.row_turn, H3.row_body. rewrite star_of_row_spec.
  destruct (numeric_fields_parse row); [|reflexivity].
  cbn [bind]. unfold coordinates_present. rewrite !when_present_some.
  cbn [x y z parsed].
  destruct (when_present py_float (row "x"%string)),
    (when_present py_float (row "y"%string)),
    (when_present py_float (row "z"%string)); reflexivity.
Qed.

(** A turn of the brightest-N script's reading loop. *)
Lemma brightest_row_turn_spec (row : Csv.row) :
  Brightest.row_turn row
  = if numeric_fields_parse row then
      if coordinates_present row then
        match Brightest.lat_lon_of_star (parsed row) with
        | Ok (Some lat, Some lon) =>
            match latlng_to_cell lat lon 0 with
            | Some h => Ok (Brightest.Append
                              {| base := parsed row; resolution := 0;
                                 cell := h |})
            | None => Ok (Brightest.Skip
                            (Some (Warning_h3 (id (parsed row)))))
            end
        | Ok _ => Ok (Brightest.Skip
                        (Some (Warning_coordinates (id (parsed row)))))
        | Raise e => Ok (Brightest.Skip (Some (Warning_invalid_row None e)))
        end
      else Ok (Brightest.Skip None)
    else Ok (Brightest.Skip (Some (Warning_invalid_row None ValueError))).
Proof.
  unfold Brightest.row_turn, Brightest.row_body. rewrite star_of_row_spec.
  destruct (numeric_fields_parse row); [|reflexivity].
  cbn [bind]. unfold coordinates_present. rewrite !when_present_some.
  destruct (x (parsed row)) eqn:Hx, (y (parsed row)) eqn:Hy,
    (z (parsed row)) eqn:Hz;
    cbn [x y z parsed] in Hx, Hy, Hz; rewrite Hx, Hy, Hz; try reflexivity.
  cbn [andb].
  destruct (Brightest.lat_lon_of_star (parsed row)) as [[[lat|] [lon|]]|e]
    eqn:Hl; cbn [bind]; try reflexivity.
  - destruct (latlng_to_cell lat lon 0); reflexivity.
  - now rewrite (lat_lon_of_star_raises _ _ Hl).
Qed.

(** The list the loop builds holds the stars of the turns that append. *)
Lemma h3_read_rows_kept (rows : list Csv.row) out stars :
  H3.read_rows rows = (out, Ok stars) ->
  stars = flat_map (fun row => match H3.row_turn row with
                               | Ok t => Brightest.appended t
                               | Raise _ => []
                               end) rows.
Proof.
  revert out stars. induction rows as [|row rows IH]; cbn [H3.read_rows];
    intros out stars H.
  - now injection H as <- <-.
  - cbn [flat_map]. destruct (H3.row_turn row) as [t|]; [|discriminate].
    destruct (H3.read_rows rows) as [o [s|]]; [|discriminate].
    injection H as <- <-. now rewrite (IH _ _ eq_refl).
Qed.

Lemma brightest_read_rows_kept (rows : list Csv.row) out stars :
  Brightest.read_rows rows = (out, Ok stars) ->
  stars = flat_map (fun row => match Brightest.row_turn row with
                               | Ok t => Brightest.appended t
                               | Raise _ => []
                               end) rows.
Proof.
  revert out stars.
  induction rows as [|row rows IH]; cbn [Brightest.read_rows];
    intros out stars H.
  - now injection H as <- <-.
  - cbn [flat_map]. destruct (Brightest.row_turn row) as [t|]; [|discriminate].
    destruct (Brightest.read_rows rows) as [o [s|]]; [|discriminate].
    injection H as <- <-. now rewrite (IH _ _ eq_refl).
Qed.

End Retention.

(** ** The star-info script: columns and conversions *)

Section StarInfoColumns.
Import Py Csv Log StarInfo.
Open Scope py_scope.
Context {E : Externals}.

Lemma mem_In (col : string) (cols : list string) :
  mem col cols = true <-> In col cols.
Proof.
  unfold mem. rewrite existsb_exists. split.
  - intros (c & Hc & Heq). apply String.eqb_eq in Heq. now subst.
  - intros H. exists col. split; [exact H | apply String.eqb_refl].
Qed.

Lemma mem_not_In (col : string) (cols : list string) :
  mem col cols = false <-> ~ In col cols.
Proof.
  rewrite <- mem_In. destruct (mem col cols); split; congruence.
Qed.

(** A conversion raises nothing but [ValueError]. *)
Lemma convert_raises (col cell : string) (e : exn) :
  convert col cell = Raise e -> e = ValueError.
Proof.
  unfold convert.
  destruct (String.eqb col "id").
  - destruct (PyStr.truthy cell); [|discriminate].
    destruct (py_int cell); cbn; congruence.
  - destruct (mem col integer_columns).
    + destruct (nonblank cell); [|discriminate].
      destruct (py_int cell); cbn; congruence.
    + destruct (mem col real_columns).
      * destruct (nonblank cell); [|discriminate].
        destruct (py_float cell); cbn; congruence.
      * destruct (nonblank cell); discriminate.
Qed.

(** The kind of value a conversion gives follows the allow-lists. *)
Lemma convert_kind (col cell : string) (v : value) :
  convert col cell = Ok v ->
  match v with
  | VNone => True
  | VInt n => (col = "id"%string \/ In col integer_columns) /\
              py_int cell = Some n
  | VReal x => In col real_columns /\ py_float cell = Some x
  | VText s => col <> "id"%string /\ ~ In col integer_columns /\
               ~ In col real_columns /\ s = cell
  end.
Proof.
  unfold convert.
  destruct (String.eqb_spec col "id") as [Hid|Hid].
  - destruct (PyStr.truthy cell); [|intros H; injection H as <-; exact I].
    destruct (py_int cell); cbn; [|discriminate].
    intros H; injection H as <-. auto.
  - destruct (mem col integer_columns) eqn:Hi.
    + apply mem_In in Hi.
      destruct (nonblank cell); [|intros H; injection H as <-; exact I].
      destruct (py_int cell); cbn; [|discriminate].
      intros H; injection H as <-. auto.
    + apply mem_not_In in Hi. destruct (mem col real_columns) eqn:Hr.
      * apply mem_In in Hr.
        destruct (nonblank cell); [|intros H; injection H as <-; exact I].
        destruct (py_float cell); cbn; [|discriminate].
        intros H; injection H as <-. auto.
      * apply mem_not_In in Hr.
        destruct (nonblank cell); intros H; injection H as <-; auto.
Qed.

Lemma column_type_cases (col : string) :
  (col = "id"%string -> column_type col = "INTEGER PRIMARY KEY"%string) /\
  (In col integer_columns -> column_type col = "INTEGER"%string) /\
  (In col real_columns -> column_type col = "REAL"%string) /\
  (col <> "id"%string -> ~ In col integer_columns ->
   ~ In col real_columns -> column_type col = "TEXT"%string).
Proof.
  unfold column_type. repeat split.
  - intros ->. reflexivity.
  - intros H. destruct (String.eqb_spec col "id") as [->|_].
    + cbn in H. repeat destruct H as [H|H]; try discriminate; contradiction.
    + apply mem_In in H. now rewrite H.
  - intros H. destruct (String.eqb_spec col "id") as [->|_].
    + cbn in H. repeat destruct H as [H|H]; try discriminate; contradiction.
    + destruct (mem col integer_columns) eqn:Hi.
      * apply mem_In in Hi. exfalso.
        cbn in H, Hi.
        repeat destruct H as [H|H]; try contradiction; subst;
          repeat destruct Hi as [Hi|Hi]; try discriminate; contradiction.
      * apply mem_In in H. now rewrite H.
  - intros Hid Hi Hr. destruct (String.eqb_spec col "id"); [contradiction|].
    apply mem_not_In in Hi, Hr. now rewrite Hi, Hr.
Qed.

(** The conversion of a cell is fixed by the list its column is in. *)
Lemma convert_cases (col cell : string) :
  (col = "id"%string ->
   convert col cell
   = if PyStr.truthy cell
     then match py_int cell with
          | Some n => Ok (VInt n)
          | None => Raise ValueError
          end
     else Ok VNone) /\
  (In col integer_columns ->
   convert col cell
   = if nonblank cell
     then match py_int cell with
          | Some n => Ok (VInt n)
          | None => Raise ValueError
          end
     else Ok VNone) /\
  (In col real_columns ->
   convert col cell
   = if nonblank cell
     then match py_float cell with
          | Some x => Ok (VReal x)
          | None => Raise ValueError
          end
     else Ok VNone) /\
  (col <> "id"%string -> ~ In col integer_columns ->
   ~ In col real_columns ->
   convert col cell = if nonblank cell then Ok (VText cell) else Ok VNone).
Proof.
  unfold convert. repeat split.
  - intros ->. cbn [String.eqb Ascii.eqb Bool.eqb].
    destruct (PyStr.truthy cell); [|reflexivity].
    destruct (py_int cell); reflexivity.
  - intros H. destruct (String.eqb_spec col "id") as [->|_].
    + cbn in H. repeat destruct H as [H|H]; try discriminate; contradiction.
    + apply mem_In in H. rewrite H.
      destruct (nonblank cell); [|reflexivity].
      destruct (py_int cell); reflexivity.
  - intros H. destruct (String.eqb_spec col "id") as [->|_].
    + cbn in H. repeat destruct H as [H|H]; try discriminate; contradiction.
    + destruct (mem col integer_columns) eqn:Hi.
      * apply mem_In in Hi. exfalso.
        cbn in H, Hi.
        repeat destruct H as [H|H]; try contradiction; subst;
          repeat destruct Hi as [Hi|Hi]; try discriminate; contradiction.
      * apply mem_In in H. rewrite H.
        destruct (nonblank cell); [|reflexivity].
        destruct (py_float cell); reflexivity.
  - intros Hid Hi Hr. destruct (String.eqb_spec col "id"); [contradiction|].
    apply mem_not_In in Hi, Hr. now rewrite Hi, Hr.
Qed.

(** C8.  For every included column of the star-info script, the type
    written in CREATE TABLE follows the fixed allow-lists: INTEGER for the
    columns of the integer allow-list (with PRIMARY KEY for id), REAL for
    the columns of the real allow-list, TEXT for every other column; and
    the conversion applied to the column's cell when a row is read agrees
    with the same lists, in both directions.  An integer comes from [int()]
    on a column of the integer list, a real from [float()] on a column of
    the real list, a text from a column in neither; and the cell of the id
    column is converted by [int()] unless it is empty, a cell of a column
    of the integer list by [int()] and one of the real list by [float()]
    unless it is empty or blank ([ValueError] when the builtin refuses it),
    a cell of any other column is kept as text unless it is empty or blank,
    and the empty and blank cells give [None]. *)
Theorem column_types_follow_allow_lists (col cell : string) :
  column_definition col = (col ++ " " ++ column_type col)%string /\
  ((col = "id"%string -> column_type col = "INTEGER PRIMARY KEY"%string) /\
   (In col integer_columns -> column_type col = "INTEGER"%string) /\
   (In col real_columns -> column_type col = "REAL"%string) /\
   (col <> "id"%string -> ~ In col integer_columns ->
    ~ In col real_columns -> column_type col = "TEXT"%string)) /\
  (forall v, convert col cell = Ok v ->
     match v with
     | VNone => True
     | VInt n => (col = "id"%string \/ In col integer_columns) /\
                 py_int cell = Some n
     | VReal x => In col real_columns /\ py_float cell = Some x
     | VText s => col <> "id"%string /\ ~ In col integer_columns /\
                  ~ In col real_columns /\ s = cell
     end) /\
  (forall included_columns,
     column_definitions included_columns
     = map (fun c => (c ++ " " ++ column_type c)%string) included_columns) /\
  ((col = "id"%string ->
    convert col cell
    = if PyStr.truthy cell
      then match py_int cell with
           | Some n => Ok (VInt n)
           | None => Raise ValueError
           end
      else Ok VNone) /\
   (In col integer_columns ->
    convert col cell
    = if nonblank cell
      then match py_int cell with
           | Some n => Ok (VInt n)
           | None => Raise ValueError
           end
      else Ok VNone) /\
   (In col real_columns ->
    convert col cell
    = if nonblank cell
      then match py_float cell with
           | Some x => Ok (VReal x)
           | None => Raise ValueError
           end
      else Ok VNone) /\
   (col <> "id"%string -> ~ In col integer_columns ->
    ~ In col real_columns ->
    convert col cell = if nonblank cell then Ok (VText cell) else Ok VNone)).
Proof.
  split; [reflexivity|]. split; [apply column_type_cases|].
  split; [intros v; apply convert_kind|].
  split; [reflexivity | apply convert_cases].
Qed.

End StarInfoColumns.

(** The magnitude column on the stand-ins: a real, from a column of the
    real list. *)
Lemma column_types_witness :
  @StarInfo.convert Ref.externals "mag" "2"
  = Py.Ok (StarInfo.VReal (Py.float_of_Z 2)) /\
  In "mag"%string StarInfo.real_columns /\
  Ref.float_of_str "2" = Some (Py.float_of_Z 2) /\
  In "hip"%string StarInfo.integer_columns /\
  @StarInfo.convert Ref.externals "hip" "7" = Py.Ok (StarInfo.VInt 7) /\
  @StarInfo.convert Ref.externals "hip" "x" = Py.Raise Py.ValueError /\
  @StarInfo.convert Ref.externals "hip" " " = Py.Ok StarInfo.VNone.
Proof.
  split; [reflexivity|].
  split; [|split].
  - exact (proj1 (proj1 (proj2 (proj2 (@column_types_follow_allow_lists
                                          Ref.externals "mag" "2")))
                    (StarInfo.VReal (Py.float_of_Z 2)) eq_refl)).
  - exact (proj2 (proj1 (proj2 (proj2 (@column_types_follow_allow_lists
                                          Ref.externals "mag" "2")))
                    (StarInfo.VReal (Py.float_of_Z 2)) eq_refl)).
  - assert (Hhip : In "hip"%string StarInfo.integer_columns)
      by (left; reflexivity).
    split; [exact Hhip|].
    split; [|split].
    + exact (proj1 (proj2 (proj2 (proj2 (proj2 (proj2
               (@column_types_follow_allow_lists Ref.externals "hip" "7"))))))
               Hhip).
    + exact (proj1 (proj2 (proj2 (proj2 (proj2 (proj2
               (@column_types_follow_allow_lists Ref.externals "hip" "x"))))))
               Hhip).
    + exact (proj1 (proj2 (proj2 (proj2 (proj2 (proj2
               (@column_types_follow_allow_lists Ref.externals "hip" " "))))))
               Hhip).
Defined.

(** ** The star-info script: reading the rows *)

Section StarInfoRows.
Import Py Csv Log StarInfo.
Open Scope py_scope.
Context {E : Externals}.

Lemma converts_ok (col cell : string) :
  converts col cell = true -> exists v, convert col cell = Ok v.
Proof. unfold converts. destruct (convert col cell); [eauto | discriminate]. Qed.

Lemma converts_fails (col cell : string) :
  converts col cell = false -> convert col cell = Raise ValueError.
Proof.
  unfold converts. destruct (convert col cell) eqn:H; [discriminate|].
  intros _. now rewrite (convert_raises _ _ _ H).
Qed.

(** The dictionary is filled exactly when every included column converts;
    its entry under a column is then the converted cell. *)
Lemma fill_spec (row : Csv.row) (included_columns : list string) :
  if all_convert included_columns row then
    exists s, fill row included_columns = Ok s /\
      forall col, getitem s col
                  = if mem col included_columns then convert col (row col)
                    else Raise KeyError
  else fill row included_columns = Raise ValueError.
Proof.
  induction included_columns as [|c cols IH]; cbn [all_convert forallb fill].
  - exists []. split; reflexivity.
  - destruct (converts c (row c)) eqn:Hc; cbn [andb].
    + destruct (converts_ok _ _ Hc) as [v Hv]. rewrite Hv. cbn [bind].
      fold (all_convert cols row).
      destruct (all_convert cols row).
      * destruct IH as (s & -> & Hget). cbn [bind].
        exists ((c, v) :: s). split; [reflexivity|].
        intros col. cbn [getitem]. unfold mem. cbn [existsb].
        fold (mem col cols). rewrite (String.eqb_sym col c).
        destruct (String.eqb_spec c col) as [->|_]; [now rewrite Hv|].
        apply Hget.
      * now rewrite IH.
    + now rewrite (converts_fails _ _ Hc).
Qed.

(** The id cell converts to [None] exactly when it is empty. *)
Lemma convert_id (cell : string) :
  convert "id" cell
  = if PyStr.truthy cell
    then match py_int cell with
         | Some n => Ok (VInt n)
         | None => Raise ValueError
         end
    else Ok VNone.
Proof.
  unfold convert. cbn [String.eqb Ascii.eqb Bool.eqb].
  destruct (PyStr.truthy cell); [|reflexivity].
  destruct (py_int cell); reflexivity.
Qed.

(** A turn of the star-info script's reading loop. *)
Lemma star_info_row_turn_spec (included_columns : list string) (row_num : Z)
  (row : Csv.row) :
  row_turn included_columns row_num row
  = if all_convert included_columns row then
      if mem "id" included_columns then
        if PyStr.truthy (row "id"%string) then
          match fill row included_columns with
          | Ok s => Ok (Brightest.Append s)
          | Raise e => Raise e
          end
        else Ok (Brightest.Skip (Some (Warning_no_id row_num)))
      else Raise KeyError
    else Ok (Brightest.Skip
               (Some (Warning_invalid_row (Some row_num) ValueError))).
Proof.
  unfold row_turn, row_body.
  pose proof (fill_spec row included_columns) as Hf.
  destruct (all_convert included_columns row) eqn:Hall.
  - destruct Hf as (s & Hs & Hget). rewrite Hs. cbn [bind]. rewrite Hget.
    destruct (mem "id" included_columns) eqn:Hid; [|reflexivity].
    assert (Hc : converts "id" (row "id"%string) = true).
    { unfold all_convert in Hall. rewrite forallb_forall in Hall.
      apply Hall. now apply mem_In. }
    unfold converts in Hc. rewrite convert_id in *.
    destruct (PyStr.truthy (row "id"%string)); [|reflexivity].
    destruct (py_int (row "id"%string)); [reflexivity | discriminate].
  - now rewrite Hf.
Qed.

End StarInfoRows.

Section StarInfoLoop.
Import Py Csv Log StarInfo.
Open Scope py_scope.
Context {E : Externals}.

(** The dictionary reads the row at the included columns only. *)
Lemma fill_ext (row row' : Csv.row) (included_columns : list string) :
  (forall col, In col included_columns -> row col = row' col) ->
  fill row included_columns = fill row' included_columns.
Proof.
  induction included_columns as [|c cols IH]; intros H; cbn [fill];
    [reflexivity|].
  rewrite (H c (or_introl eq_refl)), IH; [reflexivity|].
  intros col Hc. apply H. now right.
Qed.

(** No coordinate column is among the included ones. *)
Lemma included_of_excludes (all_columns : list string) (col : string) :
  In col (included_of all_columns) ->
  col <> "x"%string /\ col <> "y"%string /\ col <> "z"%string.
Proof.
  unfold included_of. rewrite filter_In. intros [_ H].
  repeat split; intros ->; discriminate.
Qed.

(** The id column, which the validation requires, is among them. *)
Lemma included_of_keeps_id (all_columns : list string) :
  In "id"%string all_columns -> In "id"%string (included_of all_columns).
Proof. intros H. unfold included_of. rewrite filter_In. now split. Qed.

(** With the id column included every turn of the loop ends inside it. *)
Lemma star_info_row_turn_total (included_columns : list string)
  (row_num : Z) (row : Csv.row) :
  In "id"%string included_columns ->
  exists t, row_turn included_columns row_num row = Ok t.
Proof.
  intros Hid. rewrite star_info_row_turn_spec.
  apply mem_In in Hid. rewrite Hid.
  pose proof (fill_spec row included_columns) as Hf.
  destruct (all_convert included_columns row); [|eauto].
  destruct Hf as (s & -> & _).
  destruct (PyStr.truthy (row "id"%string)); eauto.
Qed.

Lemma star_info_read_rows_total (included_columns : list string)
  (rows : list Csv.row) (row_num : Z) :
  In "id"%string included_columns ->
  exists out stars, read_rows included_columns row_num rows = (out, Ok stars).
Proof.
  intros Hid. revert row_num.
  induction rows as [|row rows IH]; intros row_num; cbn [read_rows];
    [eauto|].
  destruct (star_info_row_turn_total _ row_num row Hid) as [t ->].
  destruct (IH (row_num + 1)%Z) as (out & stars & ->). eauto.
Qed.

Lemma star_info_read_rows_app (included_columns : list string)
  (rows1 rows2 : list Csv.row) (row_num : Z) out1 stars1 out2 stars2 :
  read_rows included_columns row_num rows1 = (out1, Ok stars1) ->
  read_rows included_columns (row_num + Z.of_nat (List.length rows1)) rows2
  = (out2, Ok stars2) ->
  read_rows included_columns row_num (rows1 ++ rows2)
  = (out1 ++ out2, Ok (stars1 ++ stars2)).
Proof.
  revert row_num out1 stars1.
  induction rows1 as [|row rows1 IH]; cbn [read_rows app List.length];
    intros row_num out1 stars1 H1 H2.
  - injection H1 as <- <-. now rewrite Z.add_0_r in H2.
  - destruct (row_turn included_columns row_num row) as [t|]; [|discriminate].
    destruct (read_rows included_columns (row_num + 1) rows1) as [o [s|]]
      eqn:Hr; [|discriminate].
    injection H1 as <- <-.
    assert (H2' : read_rows included_columns
                    (row_num + 1 + Z.of_nat (List.length rows1)) rows2
                  = (out2, Ok stars2))
      by (rewrite <- H2; f_equal; lia).
    rewrite (IH _ _ _ Hr H2'). now rewrite <- !app_assoc.
Qed.

End StarInfoLoop.

(** ** Retention and parse failures *)

Section RowsKeptAndSkipped.
Import Py Csv Log Star.
Open Scope py_scope.
Context {E : Externals}.

(** C2 (as amended).  In the H3 script a row is retained if and only if its
    x, y and z fields are all present and parse as numbers and its id and
    mag fields are each empty or parse; the brightest-N script asks for the
    same and, besides, for a result of the lat/lon conversion and of the H3
    call; the star-info script does not read x, y and z at all: it retains
    a row if and only if its id field is not empty and every included
    column converts.  The list of retained records holds the records of
    exactly these rows, in their order. *)
Theorem retained_rows :
  (forall row,
     (exists s, H3.row_turn row = Ok (Brightest.Append s)) <->
     numeric_fields_parse row = true /\ coordinates_present row = true)
  /\ (forall row,
        (exists h, Brightest.row_turn row = Ok (Brightest.Append h)) <->
        numeric_fields_parse row = true /\ coordinates_present row = true /\
        exists lat lon c,
          Brightest.lat_lon_of_star (parsed row) = Ok (Some lat, Some lon) /\
          latlng_to_cell lat lon 0 = Some c)
  /\ (forall included_columns row_num row,
        (exists s, StarInfo.row_turn included_columns row_num row
                   = Ok (Brightest.Append s)) <->
        StarInfo.all_convert included_columns row = true /\
        In "id"%string included_columns /\
        PyStr.truthy (row "id"%string) = true)
  /\ (forall all_columns row_num row row',
        (forall col, col <> "x"%string -> col <> "y"%string ->
                     col <> "z"%string -> row col = row' col) ->
        StarInfo.row_turn (StarInfo.included_of all_columns) row_num row
        = StarInfo.row_turn (StarInfo.included_of all_columns) row_num row')
  /\ (forall rows out stars,
        H3.read_rows rows = (out, Ok stars) ->
        stars = flat_map (fun row => match H3.row_turn row with
                                     | Ok t => Brightest.appended t
                                     | Raise _ => []
                                     end) rows)
  /\ (forall rows out stars,
        Brightest.read_rows rows = (out, Ok stars) ->
        stars = flat_map (fun row => match Brightest.row_turn row with
                                     | Ok t => Brightest.appended t
                                     | Raise _ => []
                                     end) rows).
Proof.
  split; [|split; [|split; [|split; [|split]]]].
  - intros row. rewrite h3_row_turn_spec.
    destruct (numeric_fields_parse row), (coordinates_present row);
      split; try (intros [s H]; discriminate); try (intros [? ?]; discriminate);
      eauto.
  - intros row. rewrite brightest_row_turn_spec.
    destruct (numeric_fields_parse row);
      [|split; [intros [h H]; discriminate | intros [? _]; discriminate]].
    destruct (coordinates_present row);
      [|split; [intros [h H]; discriminate | intros (_ & ? & _); discriminate]].
    destruct (Brightest.lat_lon_of_star (parsed row))
      as [[[lat|] [lon|]]|e].
    + destruct (latlng_to_cell lat lon 0) as [c|] eqn:Hc.
      * split; [intros _|eauto]. repeat split.
        exists lat, lon, c. auto.
      * split; [intros [h H]; discriminate|].
        intros (_ & _ & lat' & lon' & c & H & Hc').
        injection H as <- <-. congruence.
    + split; [intros [h H]; discriminate|].
      intros (_ & _ & lat' & lon' & c & H & _). discriminate.
    + split; [intros [h H]; discriminate|].
      intros (_ & _ & lat' & lon' & c & H & _). discriminate.
    + split; [intros [h H]; discriminate|].
      intros (_ & _ & lat' & lon' & c & H & _). discriminate.
    + split; [intros [h H]; discriminate|].
      intros (_ & _ & lat' & lon' & c & H & _). discriminate.
  - intros included_columns row_num row. rewrite star_info_row_turn_spec.
    pose proof (fill_spec row included_columns) as Hf.
    destruct (StarInfo.all_convert included_columns row);
      [|split; [intros [s H]; discriminate | intros [? _]; discriminate]].
    destruct Hf as (s & -> & _).
    destruct (StarInfo.mem "id" included_columns) eqn:Hid.
    + apply mem_In in Hid.
      destruct (PyStr.truthy (row "id"%string)).
      * split; [auto | eauto].
      * split; [intros [? H]; discriminate | intros (_ & _ & ?); discriminate].
    + apply mem_not_In in Hid.
      split; [intros [? H]; discriminate | intros (_ & ? & _); contradiction].
  - intros all_columns row_num row row' Hagree.
    unfold StarInfo.row_turn, StarInfo.row_body.
    rewrite (fill_ext row row' (StarInfo.included_of all_columns));
      [reflexivity|].
    intros col Hcol. destruct (included_of_excludes _ _ Hcol) as (? & ? & ?).
    now apply Hagree.
  - apply h3_read_rows_kept.
  - apply brightest_read_rows_kept.
Qed.

(** C9.  For every CSV input, when the parsing of a single row fails (a
    numeric field does not parse), that row alone is skipped after a
    warning is printed, and all other rows are processed as they are
    without it; a failure of this kind never ends the script: without a
    failure of the file itself the reading function returns. *)
Theorem parse_failure_skips_one_row :
  (forall pre row post,
     numeric_fields_parse row = false ->
     exists out1 stars1 out2 stars2,
       Brightest.read_rows pre = (out1, Ok stars1) /\
       Brightest.read_rows post = (out2, Ok stars2) /\
       Brightest.read_rows (pre ++ row :: post)
       = (out1 ++ Warning_invalid_row None ValueError :: out2,
          Ok (stars1 ++ stars2)))
  /\ (forall pre row post,
        numeric_fields_parse row = false ->
        exists out1 stars1 out2 stars2,
          H3.read_rows pre = (out1, Ok stars1) /\
          H3.read_rows post = (out2, Ok stars2) /\
          H3.read_rows (pre ++ row :: post)
          = (out1 ++ Warning_invalid_row None ValueError :: out2,
             Ok (stars1 ++ stars2)))
  /\ (forall included_columns row_num pre row post,
        In "id"%string included_columns ->
        StarInfo.all_convert included_columns row = false ->
        let n := (row_num + Z.of_nat (List.length pre))%Z in
        exists out1 stars1 out2 stars2,
          StarInfo.read_rows included_columns row_num pre
          = (out1, Ok stars1) /\
          StarInfo.read_rows included_columns (n + 1) post
          = (out2, Ok stars2) /\
          StarInfo.read_rows included_columns row_num (pre ++ row :: post)
          = (out1 ++ Warning_invalid_row (Some n) ValueError :: out2,
             Ok (stars1 ++ stars2)))
  /\ (forall f n,
        open_error f = None -> read_error f = None ->
        (exists out stars,
           Brightest.read_and_sort_stars f n = (out, Done stars)) /\
        (exists out stars, H3.read_and_sort_stars f = (out, Done stars)) /\
        (forall included_columns,
           In "id"%string included_columns ->
           exists out stars,
             StarInfo.read_stars f included_columns = (out, Done stars))).
Proof.
  split; [|split; [|split]].
  - intros pre row post Hbad.
    destruct (brightest_read_rows_total pre) as (out1 & stars1 & H1).
    destruct (brightest_read_rows_total post) as (out2 & stars2 & H2).
    exists out1, stars1, out2, stars2. split; [exact H1|]. split; [exact H2|].
    apply brightest_read_rows_app; [exact H1|].
    cbn [Brightest.read_rows]. rewrite brightest_row_turn_spec, Hbad, H2.
    reflexivity.
  - intros pre row post Hbad.
    destruct (h3_read_rows_total pre) as (out1 & stars1 & H1).
    destruct (h3_read_rows_total post) as (out2 & stars2 & H2).
    exists out1, stars1, out2, stars2. split; [exact H1|]. split; [exact H2|].
    apply h3_read_rows_app; [exact H1|].
    cbn [H3.read_rows]. rewrite h3_row_turn_spec, Hbad, H2. reflexivity.
  - intros included_columns row_num pre row post Hid Hbad n.
    destruct (star_info_read_rows_total _ pre row_num Hid)
      as (out1 & stars1 & H1).
    destruct (star_info_read_rows_total _ post (n + 1) Hid)
      as (out2 & stars2 & H2).
    exists out1, stars1, out2, stars2. split; [exact H1|]. split; [exact H2|].
    apply star_info_read_rows_app; [exact H1|]. fold n.
    cbn [StarInfo.read_rows].
    rewrite star_info_row_turn_spec, Hbad, H2. reflexivity.
  - intros f n Ho Hr. split; [|split].
    + unfold Brightest.read_and_sort_stars, Brightest.retained.
      rewrite Ho, Hr.
      destruct (brightest_read_rows_total (rows f)) as (out & stars & ->).
      eauto.
    + unfold H3.read_and_sort_stars, H3.retained. rewrite Ho, Hr.
      destruct (h3_read_rows_total (rows f)) as (out & stars & ->). eauto.
    + intros included_columns Hid. unfold StarInfo.read_stars.
      rewrite Ho, Hr.
      destruct (star_info_read_rows_total _ (rows f) 2 Hid)
        as (out & stars & ->).
      eauto.
Qed.

End RowsKeptAndSkipped.

(** C2 as stated fails in both directions.  In the H3 script the row with
    id "abc" has all of x, y and z, and it is dropped for its id.  In the
    star-info script a row without x, y and z is retained. *)
Lemma retention_is_not_by_coordinates_alone :
  (@Star.coordinates_present Ref.externals (Ref.star_row "abc" "1") = true /\
   @H3.row_turn Ref.externals (Ref.star_row "abc" "1")
   = Py.Ok (Brightest.Skip
              (Some (Log.Warning_invalid_row None Py.ValueError))))
  /\ (Ref.named_row "7" "Vega" "x"%string = EmptyString /\
      Ref.named_row "7" "Vega" "y"%string = EmptyString /\
      Ref.named_row "7" "Vega" "z"%string = EmptyString /\
      @StarInfo.read_stars Ref.externals
        (Ref.file_of Ref.info_header [Ref.named_row "7" "Vega"])
        (StarInfo.included_of Ref.info_header)
      = ([], Py.Done [[("id"%string, StarInfo.VInt 7);
                       ("proper"%string, StarInfo.VText "Vega")]])).
Proof. repeat split; vm_compute; reflexivity. Qed.

(** A row of the H3 script that is retained. *)
Lemma retained_rows_witness :
  @Star.numeric_fields_parse Ref.externals (Ref.star_row "1" "1") = true /\
  @Star.coordinates_present Ref.externals (Ref.star_row "1" "1") = true /\
  exists s, @H3.row_turn Ref.externals (Ref.star_row "1" "1")
            = Py.Ok (Brightest.Append s).
Proof.
  split; [reflexivity|]. split; [reflexivity|].
  apply (proj1 (@retained_rows Ref.externals)). split; reflexivity.
Defined.

(** A row whose id does not parse, between two rows that are retained. *)
Lemma parse_failure_witness :
  exists out1 stars1 out2 stars2,
    @Brightest.read_rows Ref.externals [Ref.star_row "1" "1"]
    = (out1, Py.Ok stars1) /\
    @Brightest.read_rows Ref.externals [Ref.star_row "2" "2"]
    = (out2, Py.Ok stars2) /\
    @Brightest.read_rows Ref.externals
      ([Ref.star_row "1" "1"] ++ Ref.star_row "abc" "1"
       :: [Ref.star_row "2" "2"])
    = (out1 ++ Log.Warning_invalid_row None Py.ValueError :: out2,
       Py.Ok (stars1 ++ stars2)).
Proof.
  apply (proj1 (@parse_failure_skips_one_row Ref.externals)).
  vm_compute. reflexivity.
Defined.

(** ** The table of the star-info script *)

Section StarInfoTable.
Import Py Csv Log StarInfo.
Open Scope py_scope.
Context {E : Externals}.

(** A retained star has the integer its row's id field parses to. *)
Lemma row_turn_append_id (included_columns : list string) (row_num : Z)
  (row : Csv.row) (s : star) :
  row_turn included_columns row_num row = Ok (Brightest.Append s) ->
  exists k, py_int (row "id"%string) = Some k /\ get s "id" = VInt k.
Proof.
  unfold row_turn, row_body. intros H.
  pose proof (fill_spec row included_columns) as Hf.
  destruct (all_convert included_columns row).
  - destruct Hf as (s' & Hs' & Hget). rewrite Hs' in H. cbn [bind] in H.
    unfold get. specialize (Hget "id"%string).
    destruct (getitem s' "id") as [v|e] eqn:Hg; cbn [bind] in H.
    + assert (s' = s) as ->
        by (destruct v; try discriminate; now injection H as <-).
      rewrite Hg.
      destruct (mem "id" included_columns); [|discriminate].
      rewrite convert_id in Hget.
      destruct (PyStr.truthy (row "id"%string)).
      * destruct (py_int (row "id"%string)) as [k|]; [|discriminate].
        injection Hget as ->. eauto.
      * injection Hget as ->. discriminate.
    + destruct (is_value_or_type_error e); discriminate.
  - rewrite Hf in H. discriminate.
Qed.

Lemma read_rows_ids (included_columns : list string) (rows : list Csv.row)
  (row_num : Z) out stars :
  read_rows included_columns row_num rows = (out, Ok stars) ->
  Forall (fun s => exists k row, In row rows /\
                     py_int (row "id"%string) = Some k /\
                     get s "id" = VInt k) stars.
Proof.
  revert row_num out stars.
  induction rows as [|row rows IH]; cbn [read_rows];
    intros row_num out stars H.
  - injection H as <- <-. constructor.
  - destruct (row_turn included_columns row_num row) as [t|] eqn:Ht;
      [|discriminate].
    destruct (read_rows included_columns (row_num + 1) rows) as [o [l|]]
      eqn:Hr; [|discriminate].
    injection H as <- <-.
    assert (Hrest : Forall (fun s => exists k row0, In row0 (row :: rows) /\
                              py_int (row0 "id"%string) = Some k /\
                              get s "id" = VInt k) l).
    { eapply Forall_impl; [|apply (IH _ _ _ Hr)].
      intros s (k & row0 & Hin & Hk & Hg). exists k, row0. cbn. auto. }
    destruct t as [s|w]; cbn [Brightest.appended app]; [|exact Hrest].
    constructor; [|exact Hrest].
    destruct (row_turn_append_id _ _ _ _ Ht) as (k & Hk & Hg).
    exists k, row. cbn. auto.
Qed.

(** The column declared INTEGER PRIMARY KEY is the id column. *)
Lemma primary_key_some (included_columns : list string) :
  In "id"%string included_columns ->
  exists i, primary_key included_columns = Some i.
Proof.
  induction included_columns as [|c cols IH]; intros H; [destruct H|].
  cbn [primary_key]. destruct (String.eqb_spec c "id") as [->|Hc]; [eauto|].
  destruct H as [H|H]; [contradiction|].
  destruct (IH H) as [i ->]. cbn. eauto.
Qed.

Lemma primary_key_is_id (included_columns : list string) (i : nat) :
  primary_key included_columns = Some i ->
  nth_error included_columns i = Some "id"%string /\
  forall s, nth i (map (get s) included_columns) VNone = get s "id".
Proof.
  revert i. induction included_columns as [|c cols IH]; intros i H;
    [discriminate|].
  cbn [primary_key] in H.
  destruct (String.eqb_spec c "id") as [->|Hc].
  - injection H as <-. split; reflexivity.
  - destruct (primary_key cols) as [j|]; [|discriminate].
    injection H as <-. destruct (IH j eq_refl) as [Hn Hv].
    split; [exact Hn | intros s; apply Hv].
Qed.

(** Keys that are distinct stay distinct when rows are deleted. *)
Lemma distinct_keys_filter {R K : Type} (keep : R -> bool) (key : R -> K) :
  forall rows : list R,
    NoDup (map key rows) -> NoDup (map key (filter keep rows)).
Proof.
  intros l. induction l as [|a l IH]; cbn [map filter]; intros H;
    [constructor|].
  apply NoDup_cons_iff in H. destruct H as [Hn Hd].
  destruct (keep a); [|now apply IH].
  cbn [map]. constructor; [|now apply IH].
  intros Hin. apply Hn. apply in_map_iff in Hin.
  destruct Hin as (b & Hb & Hin). apply filter_In in Hin.
  apply in_map_iff. exists b. tauto.
Qed.

Lemma NoDup_map_injective {A B} (f : A -> B) (l : list A) (a b : A) :
  NoDup (map f l) -> In a l -> In b l -> f a = f b -> a = b.
Proof.
  induction l as [|c l IH]; cbn [map]; intros H Ha Hb Hf; [destruct Ha|].
  apply NoDup_cons_iff in H. destruct H as [Hn Hd].
  destruct Ha as [->|Ha], Hb as [->|Hb]; auto.
  - exfalso. apply Hn. rewrite Hf. now apply in_map.
  - exfalso. apply Hn. rewrite <- Hf. now apply in_map.
Qed.

Lemma insert_keeps_invariant (included_columns : list string) (i : nat)
  (t : table) (seen : list star) (s : star) (k : Z) :
  primary_key included_columns = Some i ->
  get s "id" = VInt k ->
  table_invariant included_columns i t seen ->
  table_invariant included_columns i
    (filter (fun r => negb (key_is i k r)) t ++ [map (get s) included_columns])
    (seen ++ [s]).
Proof.
  intros Hpk Hid (Hnd & Hint & Horigin & Hlast).
  destruct (primary_key_is_id _ _ Hpk) as [_ Hnth].
  assert (Hkey : nth i (map (get s) included_columns) VNone = VInt k)
    by now rewrite Hnth.
  unfold table_invariant. split; [|split; [|split]].
  - rewrite map_app. apply NoDup_app.
    + now apply distinct_keys_filter.
    + cbn. repeat constructor. intros [].
    + intros a Ha [Hb|[]]. apply in_map_iff in Ha.
      destruct Ha as (r & Hr & Hin). apply filter_In in Hin.
      destruct Hin as [Hin Hneg].
      destruct (Hint r Hin) as [k' Hk'].
      unfold key_is in Hneg. unfold rowid in Hr, Hb.
      rewrite Hk' in *. rewrite Hkey in Hb. subst.
      rewrite Z.eqb_refl in Hneg. discriminate.
  - intros r Hr. apply in_app_or in Hr. destruct Hr as [Hr|[<-|[]]].
    + apply filter_In in Hr. now apply Hint.
    + eauto.
  - intros r Hr. apply in_app_or in Hr. destruct Hr as [Hr|[<-|[]]].
    + apply filter_In in Hr. destruct (Horigin r (proj1 Hr)) as (s0 & H0 & ->).
      exists s0. split; [apply in_or_app; now left | reflexivity].
    + exists s. split; [apply in_or_app; right; now left | reflexivity].
  - intros k' s0. unfold last_with_id. rewrite rev_app_distr. cbn [rev app find].
    destruct (has_id k' s) eqn:Hk'.
    + intros H. injection H as <-. apply in_or_app. right. now left.
    + intros H. apply in_or_app. left. apply filter_In.
      split; [exact (Hlast k' s0 H)|].
      apply find_some in H. destruct H as [_ H0].
      unfold key_is. rewrite (Hnth s0).
      unfold has_id in *. rewrite Hid in Hk'.
      destruct (get s0 "id") as [|k0| |]; try discriminate.
      apply Z.eqb_eq in H0. subst k0.
      rewrite Z.eqb_sym. now rewrite Hk'.
Qed.

Lemma insert_all_invariant (db : Sqlite.fault)
  (included_columns : list string) (i : nat) (stars : list star) :
  primary_key included_columns = Some i ->
  Forall (fun s => exists k, get s "id" = VInt k) stars ->
  forall (c : nat) (t t' : table) (seen : list star),
    table_invariant included_columns i t seen ->
    insert_all db included_columns c t stars = Ok t' ->
    table_invariant included_columns i t' (seen ++ stars).
Proof.
  intros Hpk Hids. induction Hids as [|s stars [k Hk] _ IH];
    intros c t t' seen Hinv; cbn [insert_all].
  - intros H. injection H as <-. now rewrite app_nil_r.
  - destruct (Sqlite.call db c); cbn [bind]; [|discriminate].
    unfold insert_or_replace. rewrite Hpk.
    destruct (primary_key_is_id _ _ Hpk) as [_ Hnth].
    rewrite Hnth, Hk. cbn [bind]. intros H.
    replace (seen ++ s :: stars) with ((seen ++ [s]) ++ stars)
      by now rewrite <- app_assoc.
    eapply IH; [|exact H].
    now apply insert_keeps_invariant.
Qed.

(** Without a fault of the database every star is inserted. *)
Lemma insert_all_total (included_columns : list string) (i : nat)
  (stars : list star) :
  primary_key included_columns = Some i ->
  Forall (fun s => exists k, get s "id" = VInt k) stars ->
  forall (c : nat) (t : table),
    exists t', insert_all None included_columns c t stars = Ok t'.
Proof.
  intros Hpk Hids. induction Hids as [|s stars [k Hk] _ IH]; intros c t;
    cbn [insert_all]; [eauto|].
  cbn [Sqlite.call bind]. unfold insert_or_replace. rewrite Hpk.
  destruct (primary_key_is_id _ _ Hpk) as [_ Hnth].
  rewrite Hnth, Hk. cbn [bind]. apply IH.
Qed.

(** C10.  In the star-info script a CSV row is retained only if its id
    field parses to an integer, and because the table declares id as
    INTEGER PRIMARY KEY and the rows are inserted with INSERT OR REPLACE,
    the resulting table [stars_info] contains at most one row for each id:
    the row of the last CSV occurrence of that id.  (Without a fault of the
    database the table is created.) *)
Theorem stars_info_one_row_per_id (f : file) (included_columns : list string)
  (db : Sqlite.fault) out stars :
  In "id"%string included_columns ->
  read_stars f included_columns = (out, Done stars) ->
  Forall (fun s => exists k row, In row (rows f) /\
                     py_int (row "id"%string) = Some k /\
                     get s "id" = VInt k) stars
  /\ (db = None ->
      exists out' t,
        create_sqlite_database db stars included_columns
        = (out', Done (column_definitions included_columns, t)))
  /\ (forall out' cols t,
        create_sqlite_database db stars included_columns
        = (out', Done (cols, t)) ->
        exists i,
          nth_error included_columns i = Some "id"%string /\
          nth_error cols i = Some "id INTEGER PRIMARY KEY"%string /\
          NoDup (map (rowid i) t) /\
          (forall r, In r t ->
             exists s, In s stars /\ r = map (get s) included_columns) /\
          (forall k s, last_with_id k stars = Some s ->
             In (map (get s) included_columns) t /\
             forall r, In r t -> key_is i k r = true ->
                       r = map (get s) included_columns)).
Proof.
  intros Hid Hread.
  assert (Hids : Forall (fun s => exists k row, In row (rows f) /\
                           py_int (row "id"%string) = Some k /\
                           get s "id" = VInt k) stars).
  { unfold read_stars in Hread.
    destruct (open_error f); [discriminate|].
    destruct (read_rows included_columns 2 (rows f)) as [o [l|]] eqn:Hr;
      [|discriminate].
    destruct (read_error f); [discriminate|].
    injection Hread as <- <-. eapply read_rows_ids; eauto. }
  assert (Hint : Forall (fun s => exists k, get s "id" = VInt k) stars).
  { eapply Forall_impl; [|exact Hids]. intros s (k & _ & _ & _ & H). eauto. }
  destruct (primary_key_some _ Hid) as [i Hpk].
  destruct (primary_key_is_id _ _ Hpk) as [Hcol Hnth].
  split; [exact Hids|]. split.
  - intros ->. unfold create_sqlite_database.
    destruct (insert_all_total _ _ _ Hpk Hint 4 []) as [t Ht].
    cbn [Sqlite.run_calls bind]. rewrite Ht. cbn [Sqlite.call bind].
    do 2 eexists. reflexivity.
  - intros out' cols t Hcreate. unfold create_sqlite_database in Hcreate.
    destruct (Sqlite.run_calls db 4); cbn [bind] in Hcreate;
      [|discriminate].
    destruct (insert_all db included_columns 4 [] stars) as [t0|] eqn:Hins;
      cbn [bind] in Hcreate; [|discriminate].
    destruct (Sqlite.call db (4 + List.length stars)); cbn [bind] in Hcreate;
      [|discriminate].
    destruct (Sqlite.call db (5 + List.length stars)); cbn [bind] in Hcreate;
      [|discriminate].
    injection Hcreate as _ <- <-.
    assert (Hinv : table_invariant included_columns i t0 ([] ++ stars)).
    { eapply insert_all_invariant; eauto.
      repeat split; [constructor | intros r [] | intros r [] |].
      intros k s H. discriminate. }
    cbn [app] in Hinv. destruct Hinv as (Hnd & Hkeys & Horigin & Hlast).
    exists i. split; [exact Hcol|]. split.
    { unfold column_definitions. rewrite nth_error_map, Hcol. reflexivity. }
    split; [exact Hnd|]. split; [exact Horigin|].
    intros k s Hs. split; [exact (Hlast k s Hs)|].
    intros r Hr Hkey.
    apply (NoDup_map_injective (rowid i) t0);
      [exact Hnd | exact Hr | exact (Hlast k s Hs) |].
    apply find_some in Hs. destruct Hs as [_ Hs].
    unfold rowid, key_is in *. rewrite (Hnth s).
    unfold has_id in Hs.
    destruct (nth i r VNone) as [|k1| |]; try discriminate.
    destruct (get s "id") as [|k2| |]; try discriminate.
    apply Z.eqb_eq in Hkey, Hs. congruence.
Qed.

End StarInfoTable.

(** Three rows, two of them with the id 7: the table is created. *)
Lemma stars_info_witness :
  In "id"%string (StarInfo.included_of Ref.info_header) /\
  @StarInfo.read_stars Ref.externals Ref.duplicate_id_file
    (StarInfo.included_of Ref.info_header)
  = ([], Py.Done Ref.duplicate_id_stars) /\
  exists out' t,
    StarInfo.create_sqlite_database None Ref.duplicate_id_stars
      (StarInfo.included_of Ref.info_header)
    = (out', Py.Done
               (StarInfo.column_definitions
                  (StarInfo.included_of Ref.info_header), t)).
Proof.
  assert (Hid : In "id"%string (StarInfo.included_of Ref.info_header))
    by (left; reflexivity).
  assert (Hread : @StarInfo.read_stars Ref.externals Ref.duplicate_id_file
                    (StarInfo.included_of Ref.info_header)
                  = ([], Py.Done Ref.duplicate_id_stars))
    by (vm_compute; reflexivity).
  split; [exact Hid|]. split; [exact Hread|].
  exact (proj1 (proj2 (@stars_info_one_row_per_id Ref.externals
                         Ref.duplicate_id_file
                         (StarInfo.included_of Ref.info_header)
                         None [] Ref.duplicate_id_stars Hid Hread))
           eq_refl).
Defined.

(** The table of these three rows: the row of id 8, then the last row of
    id 7. *)
Example stars_info_last_occurrence :
  snd (StarInfo.create_sqlite_database None Ref.duplicate_id_stars
         (StarInfo.included_of Ref.info_header))
  = Py.Done (["id INTEGER PRIMARY KEY"; "proper TEXT"]%string,
             [[StarInfo.VInt 8; StarInfo.VText "b"];
              [StarInfo.VInt 7; StarInfo.VText "c"]]).
Proof. vm_compute. reflexivity. Qed.

(** ** Failures of files and databases *)

Section Failures.
Import Py Csv Log.
Open Scope py_scope.
Context {E : Externals}.

Lemma print_then_exit {A} (l : line) :
  is_error_line l = true ->
  reports_and_exits (A := A) (print l ;;; sys_exit 1).
Proof. intros H. exists [], l. cbn. auto. Qed.

Lemma reports_after {A} (out : list line) (e_line : line) :
  is_error_line e_line = true ->
  reports_and_exits (A := A) (out ++ [e_line], Exit 1%Z).
Proof. intros H. exists out, e_line. cbn. auto. Qed.

(** A report and exit is the end of the script, whatever was to follow, and
    it stays one behind steps that returned. *)
Lemma reports_and_exits_then {A B} (m : run A) (k : A -> run B) :
  reports_and_exits m -> reports_and_exits (m0 <-- m ;; k m0).
Proof.
  intros (out & l & Hout & Hl & Hexit). destruct m as [o r].
  cbn [fst snd] in *. subst. exists out, l. cbn. auto.
Qed.

Lemma reports_and_exits_after {A B} (out : list line) (a : A)
  (k : A -> run B) :
  reports_and_exits (k a) -> reports_and_exits (m0 <-- (out, Done a) ;; k m0).
Proof.
  intros (out' & l & Hout & Hl & Hexit). cbn [then_].
  destruct (k a) as [o r]. cbn [fst snd] in *. subst.
  exists (out ++ out'), l. cbn. rewrite app_assoc. auto.
Qed.



Lemma run_calls_hits (db : Sqlite.fault) (calls : nat) :
  Sqlite.hits db calls = true -> exists e, Sqlite.run_calls db calls = Raise e.
Proof.
  unfold Sqlite.hits, Sqlite.run_calls. destruct db as [[k e]|]; [|discriminate].
  intros ->. eauto.
Qed.

Lemma insert_all_fault (k : nat) (e : exn) (included_columns : list string)
  (stars : list StarInfo.star) :
  forall (c : nat) (t : StarInfo.table),
    (c <= k < c + List.length stars)%nat ->
    exists e', StarInfo.insert_all (Some (k, e)) included_columns c t stars
               = Raise e'.
Proof.
  induction stars as [|s stars IH]; intros c t Hk; cbn [List.length] in Hk;
    [lia|].
  cbn [StarInfo.insert_all Sqlite.call].
  destruct (Nat.eqb_spec k c) as [->|Hne]; cbn [bind]; [eauto|].
  destruct (StarInfo.insert_or_replace _ t _) as [t'|e']; cbn [bind]; [|eauto].
  apply IH. lia.
Qed.

Lemma database_reports (db : Sqlite.fault) :
  (forall stars,
     Sqlite.hits db (8 + List.length stars) = true ->
     reports_and_exits (Brightest.create_sqlite_database db stars))
  /\ (forall s0 s1 s2,
        Sqlite.hits db (H3.database_calls s0 s1 s2) = true ->
        reports_and_exits (H3.create_sqlite_database db s0 s1 s2))
  /\ (forall stars included_columns,
        Sqlite.hits db (6 + List.length stars) = true ->
        reports_and_exits
          (StarInfo.create_sqlite_database db stars included_columns)).
Proof.
  split; [|split].
  - intros stars H. unfold Brightest.create_sqlite_database.
    destruct (run_calls_hits _ _ H) as [e ->]. now apply print_then_exit.
  - intros s0 s1 s2 H. unfold H3.create_sqlite_database.
    destruct (run_calls_hits _ _ H) as [e ->]. now apply print_then_exit.
  - intros stars included_columns H. unfold StarInfo.create_sqlite_database.
    destruct db as [[k e]|]; [|discriminate].
    cbn [Sqlite.hits] in H. apply Nat.ltb_lt in H.
    cbn [Sqlite.run_calls].
    destruct (Nat.ltb_spec k 4); cbn [bind]; [now apply print_then_exit|].
    destruct (Nat.lt_ge_cases k (4 + List.length stars)) as [Hin|Hout].
    + destruct (insert_all_fault k e included_columns stars 4 [])
        as [e' ->]; [lia|].
      cbn [bind]. now apply print_then_exit.
    + destruct (StarInfo.insert_all _ _ _ _ _) as [t|e']; cbn [bind];
        [|now apply print_then_exit].
      cbn [Sqlite.call].
      destruct (Nat.eqb_spec k (4 + List.length stars)); cbn [bind];
        [now apply print_then_exit|].
      destruct (Nat.eqb_spec k (5 + List.length stars)); cbn [bind];
        [now apply print_then_exit | lia].
Qed.

End Failures.

Section DumpFailures.
Import Py Log Dump.


End DumpFailures.

(** ** The try block of the schema inspector *)

Section SchemaTry.
Import Py Schema.

Lemma andthen_ok {A B} (m : body A) (k : A -> body B) out (b : B) :
  andthen m k = (out, Ok b) ->
  exists out1 a out2,
    m = (out1, Ok a) /\ k a = (out2, Ok b) /\ out = out1 ++ out2.
Proof.
  destruct m as [out1 [a|e]]; cbn [andthen]; [|discriminate].
  destruct (k a) as [out2 r] eqn:Hk. intros H. injection H as <- ->.
  exists out1, a, out2. auto.
Qed.

Lemma attempt_none (failure : option exn) out (u : unit) :
  attempt failure = (out, Ok u) -> failure = None.
Proof. destruct failure; [discriminate | reflexivity]. Qed.

Lemma inspection_ok (w : world) (db_path : string) out (u : unit) :
  inspection w db_path = (out, Ok u) ->
  connect_error w = None /\ cursor_error w = None /\
  exists before,
    out = before ++ print_separator "SCHEMA INSPECTION COMPLETE" "=".
Proof.
  unfold inspection. intros H.
  apply andthen_ok in H. destruct H as (o1 & [] & r1 & Hc & H & ->).
  apply andthen_ok in H. destruct H as (o2 & [] & r2 & Hcur & H & ->).
  apply andthen_ok in H. destruct H as (o3 & [] & r3 & _ & H & ->).
  apply andthen_ok in H. destruct H as (o4 & [] & r4 & _ & H & ->).
  apply andthen_ok in H. destruct H as (o5 & [] & r5 & _ & H & ->).
  apply andthen_ok in H. destruct H as (o6 & [] & r6 & _ & H & ->).
  apply andthen_ok in H. destruct H as (o7 & [] & r7 & _ & H & ->).
  injection H as <-.
  split; [now apply attempt_none in Hc|].
  split; [now apply attempt_none in Hcur|].
  exists (o1 ++ o2 ++ o3 ++ o4 ++ o5 ++ o6 ++ o7).
  now rewrite <- !app_assoc.
Qed.

Lemma print_each_table_shows (w : world) (tables : list string) out
  (u : unit) :
  print_each_table w tables = (out, Ok u) ->
  forall table, In table tables ->
    (forall l, In l (print_separator ("TABLE: " ++ table) "-") -> In l out)
    /\ exists schema,
         table_sql w table = Ok schema /\
         (some_text schema = true ->
          In (Text "CREATE Statement:") out /\
          In (Text (text_of schema)) out).
Proof.
  revert out. induction tables as [|t rest IH]; intros out H table Hin;
    [destruct Hin|].
  cbn [print_each_table] in H.
  apply andthen_ok in H. destruct H as (o1 & [] & r1 & Hsep & H & ->).
  apply andthen_ok in H. destruct H as (o2 & schema & r2 & Hask & H & ->).
  apply andthen_ok in H. destruct H as (o3 & [] & r3 & Hcreate & H & ->).
  injection Hsep as <-. injection Hask as <- Hsql.
  destruct Hin as [<-|Hin].
  - split.
    + intros l Hl. apply in_or_app. now left.
    + exists schema. split; [exact Hsql|]. intros Hs. rewrite Hs in Hcreate.
      injection Hcreate as <-.
      split; apply in_or_app; right; apply in_or_app; right;
        apply in_or_app; left; cbn; auto.
  - destruct (IH _ H table Hin) as (Hl & schema' & Hsql' & Hshown).
    split.
    + intros l Hin'. apply in_or_app; right. apply in_or_app; right.
      apply in_or_app; right. now apply Hl.
    + exists schema'. split; [exact Hsql'|]. intros Hs.
      destruct (Hshown Hs) as [H1 H2].
      split; apply in_or_app; right; apply in_or_app; right;
        apply in_or_app; right; assumption.
Qed.




End SchemaTry.




(** ** More on the spectral class *)

Section SpectralMore.
Import PyStr Spectral.
Open Scope string_scope.

Lemma first_upper_in (text : string) (c : ascii) :
  first_upper text = Some c ->
  isupper c = true /\ In c (list_ascii_of_string text).
Proof.
  induction text as [|a text IH]; cbn [first_upper list_ascii_of_string];
    [discriminate|].
  destruct (isupper a) eqn:Ha.
  - intros H. injection H as <-. split; [exact Ha | now left].
  - intros H. destruct (IH H) as [Hc Hin]. split; [exact Hc | now right].
Qed.

Lemma in_drop (n : nat) (s : string) (c : ascii) :
  In c (list_ascii_of_string (drop n s)) -> In c (list_ascii_of_string s).
Proof.
  revert s. induction n as [|n IH]; intros s; cbn [drop]; [auto|].
  destruct s as [|a s]; cbn [list_ascii_of_string]; [auto|].
  intros H. right. now apply IH.
Qed.

Lemma in_lstrip (s : string) (c : ascii) :
  In c (list_ascii_of_string (lstrip s)) -> In c (list_ascii_of_string s).
Proof.
  induction s as [|a s IH]; cbn [lstrip list_ascii_of_string]; [auto|].
  destruct (isspace a); cbn [list_ascii_of_string]; [|auto].
  intros H. right. now apply IH.
Qed.

Lemma in_rstrip (s : string) (c : ascii) :
  In c (list_ascii_of_string (rstrip s)) -> In c (list_ascii_of_string s).
Proof.
  induction s as [|a s IH]; cbn [rstrip list_ascii_of_string]; [auto|].
  destruct (rstrip s) as [|b r] eqn:Hr.
  - destruct (isspace a); cbn [list_ascii_of_string In]; tauto.
  - cbn [list_ascii_of_string In]. intros [H|H]; [now left | right].
    apply IH. exact H.
Qed.

Lemma in_strip (s : string) (c : ascii) :
  In c (list_ascii_of_string (strip s)) -> In c (list_ascii_of_string s).
Proof. unfold strip. intros H. now apply in_lstrip, in_rstrip. Qed.

(** The function reads its argument through [strip] only. *)
Lemma extract_of_strip (spect : string) :
  extract_spectral_class spect
  = if truthy (strip spect) then
      if (startswith (lower (strip spect)) "sd"
          && (2 <? len (strip spect))%Z)%bool
      then first_upper (drop 2 (strip spect))
      else if (startswith (lower (strip spect)) "d"
               && (1 <? len (strip spect))%Z)%bool
           then first_upper (drop 1 (strip spect))
           else first_upper (strip spect)
    else None.
Proof.
  unfold extract_spectral_class.
  destruct spect as [|a s]; [reflexivity|].
  cbn [truthy negb orb].
  destruct (truthy (strip (String a s))); reflexivity.
Qed.

Lemma lstrip_app_space (ws s : string) :
  all isspace ws = true -> lstrip (ws ++ s) = lstrip s.
Proof.
  induction ws as [|c ws IH]; cbn [all append lstrip]; [reflexivity|].
  destruct (isspace c); cbn [andb]; [exact IH | discriminate].
Qed.

Lemma rstrip_all_space (ws : string) : all isspace ws = true -> rstrip ws = "".
Proof.
  induction ws as [|c ws IH]; cbn [all rstrip]; [reflexivity|].
  destruct (isspace c); cbn [andb]; [|discriminate].
  intros H. now rewrite (IH H).
Qed.

Lemma rstrip_app_space (s ws : string) :
  all isspace ws = true -> rstrip (s ++ ws) = rstrip s.
Proof.
  intros H. induction s as [|c s IH]; cbn [append rstrip].
  - now apply rstrip_all_space.
  - now rewrite IH.
Qed.

Lemma lstrip_app (s ws : string) :
  lstrip s <> "" -> lstrip (s ++ ws) = lstrip s ++ ws.
Proof.
  induction s as [|c s IH]; cbn [lstrip append]; [congruence|].
  destruct (isspace c); [exact IH | reflexivity].
Qed.

Lemma lstrip_all_space_iff (s : string) :
  lstrip s = "" -> all isspace s = true.
Proof.
  induction s as [|c s IH]; cbn [lstrip all]; [reflexivity|].
  destruct (isspace c); [exact IH | discriminate].
Qed.

Lemma all_app (p : ascii -> bool) (a b : string) :
  all p a = true -> all p b = true -> all p (a ++ b) = true.
Proof.
  induction a as [|c a IH]; cbn [all append]; [auto|].
  destruct (p c); cbn [andb]; [exact IH | discriminate].
Qed.

(** Whitespace around the text does not change what [strip] leaves. *)
Lemma strip_padding (ws1 s ws2 : string) :
  all isspace ws1 = true -> all isspace ws2 = true ->
  strip (ws1 ++ s ++ ws2) = strip s.
Proof.
  intros H1 H2. unfold strip. rewrite (lstrip_app_space _ _ H1).
  destruct (lstrip s) eqn:Hs.
  - apply lstrip_all_space_iff in Hs.
    rewrite (lstrip_all_space (s ++ ws2)) by now apply all_app.
    reflexivity.
  - rewrite lstrip_app by congruence. rewrite Hs.
    now apply rstrip_app_space.
Qed.

(** X1.  White space in front of and behind the text does not change the
    answer of [extract_spectral_class]. *)
Theorem spectral_class_ignores_padding (ws1 spect ws2 : string) :
  all isspace ws1 = true -> all isspace ws2 = true ->
  extract_spectral_class (ws1 ++ spect ++ ws2) = extract_spectral_class spect.
Proof.
  intros H1 H2. rewrite !extract_of_strip.
  now rewrite (strip_padding _ _ _ H1 H2).
Qed.

(** X2.  A character that [extract_spectral_class] returns is an upper-case
    letter and occurs in the argument. *)
Theorem spectral_class_is_upper_case_of_text (spect : string) (c : ascii) :
  extract_spectral_class spect = Some c ->
  isupper c = true /\ In c (list_ascii_of_string spect).
Proof.
  rewrite extract_of_strip.
  destruct (truthy (strip spect)); [|discriminate].
  intros H.
  assert (Hin : isupper c = true /\
                In c (list_ascii_of_string (strip spect))).
  { revert H. destruct (_ && _)%bool.
    - intros H. apply first_upper_in in H. destruct H as [Hc Hin].
      split; [exact Hc | eapply in_drop; eauto].
    - destruct (_ && _)%bool.
      + intros H. apply first_upper_in in H. destruct H as [Hc Hin].
        split; [exact Hc | eapply in_drop; eauto].
      + apply first_upper_in. }
  destruct Hin as [Hc Hin]. split; [exact Hc | now apply in_strip].
Qed.

(** X3.  When the text without its surrounding white space begins with an
    upper-case letter other than D and S, [extract_spectral_class] returns
    that letter. *)
Theorem spectral_class_of_leading_letter (spect rest : string) (c : ascii) :
  strip spect = String c rest ->
  isupper c = true -> c <> "D"%char -> c <> "S"%char ->
  extract_spectral_class spect = Some c.
Proof.
  intros Hs Hc HD HS. rewrite extract_of_strip, Hs.
  assert (Hl : forall x, isupper x = true -> lower_char c = lower_char x ->
                         c = x).
  { intros x Hx. unfold lower_char. rewrite Hc, Hx. intros H.
    assert (Hbound : forall y, isupper y = true -> (ord y + 32 < 256)%N).
    { intros y Hy. unfold isupper, in_range in Hy.
      repeat rewrite ?orb_true_iff, ?andb_true_iff, ?N.leb_le in Hy. lia. }
    apply (f_equal N_of_ascii) in H.
    rewrite !N_ascii_embedding in H by now apply Hbound.
    assert (Heq : N_of_ascii c = N_of_ascii x) by (unfold ord in H; lia).
    apply (f_equal ascii_of_N) in Heq.
    now rewrite !ascii_N_embedding in Heq. }
  assert (Hnd : lower_char c <> "d"%char).
  { intros H. apply HD. apply Hl; [reflexivity | exact H]. }
  assert (Hns : lower_char c <> "s"%char).
  { intros H. apply HS. apply Hl; [reflexivity | exact H]. }
  assert (H1 : startswith (lower (String c rest)) "sd" = false).
  { destruct (startswith (lower (String c rest)) "sd") eqn:H; [|reflexivity].
    apply starts_sd in H. destruct H as (a & b & r & Heq & Ha & _).
    injection Heq as -> _. contradiction. }
  assert (H2 : startswith (lower (String c rest)) "d" = false).
  { destruct (startswith (lower (String c rest)) "d") eqn:H; [|reflexivity].
    apply starts_d in H. destruct H as (a & r & Heq & Ha).
    injection Heq as -> _. contradiction. }
  rewrite H1, H2. cbn [truthy andb first_upper]. now rewrite Hc.
Qed.

End SpectralMore.

Lemma spectral_class_ignores_padding_witness :
  PyStr.all PyStr.isspace "  " = true /\
  PyStr.all PyStr.isspace " " = true /\
  Spectral.extract_spectral_class ("  " ++ "sdM4" ++ " ")
  = Spectral.extract_spectral_class "sdM4".
Proof.
  split; [reflexivity|]. split; [reflexivity|].
  apply spectral_class_ignores_padding; reflexivity.
Defined.

Lemma spectral_class_is_upper_case_witness :
  Spectral.extract_spectral_class "sdM4" = Some "M"%char /\
  PyStr.isupper "M" = true /\
  In "M"%char (list_ascii_of_string "sdM4").
Proof.
  split; [reflexivity|].
  apply (spectral_class_is_upper_case_of_text "sdM4" "M"). reflexivity.
Defined.

Lemma spectral_class_of_leading_letter_witness :
  PyStr.strip " G2V" = String "G" "2V" /\
  Spectral.extract_spectral_class " G2V" = Some "G"%char.
Proof.
  split; [reflexivity|].
  apply (spectral_class_of_leading_letter " G2V" "2V" "G");
    [reflexivity | reflexivity | discriminate | discriminate].
Defined.

(** ** More on validation and on the reading loops *)

Section ReadingMore.
Import Py Csv Log Star.
Open Scope py_scope.
Context {E : Externals}.

Lemma missing_columns_In (required names : list string) (c : string) :
  In c (Brightest.missing_columns required names) <->
  In c required /\ ~ In c names.
Proof.
  unfold Brightest.missing_columns. rewrite filter_In.
  fold (StarInfo.mem c names). split.
  - intros [H Hm]. split; [exact H|].
    apply mem_not_In. now destruct (StarInfo.mem c names).
  - intros [H Hn]. split; [exact H|].
    apply mem_not_In in Hn. now rewrite Hn.
Qed.

Lemma missing_columns_nil (required names : list string) :
  Brightest.missing_columns required names = [] <->
  forall c, In c required -> In c names.
Proof.
  split.
  - intros H c Hc.
    destruct (in_dec string_dec c names) as [Hin|Hout]; [exact Hin|].
    assert (Hm : In c (Brightest.missing_columns required names))
      by now apply missing_columns_In.
    rewrite H in Hm. destruct Hm.
  - intros H.
    destruct (Brightest.missing_columns required names) as [|c l] eqn:Hm;
      [reflexivity|].
    assert (Hc : In c (Brightest.missing_columns required names))
      by (rewrite Hm; now left).
    apply missing_columns_In in Hc. destruct Hc as [Hr Hn].
    exfalso. apply Hn, H, Hr.
Qed.

(** X4.  [validate_csv_file] of the brightest-N and the H3 script returns,
    having printed nothing, exactly when the path exists, the file opens
    and its header has the six required columns.  In every other case it
    prints an error message and exits with status 1, and the columns named
    by the message about missing columns are the required columns that the
    header lacks, of which there is at least one. *)
Theorem validate_csv_file_passes (f : file) :
  (Brightest.validate_csv_file f = ([], Done tt) <->
   path_exists f = true /\ open_error f = None /\
   exists names, fieldnames f = Ok names /\
                 forall c, In c Brightest.required_columns -> In c names)
  /\ (Brightest.validate_csv_file f = ([], Done tt) \/
      reports_and_exits (Brightest.validate_csv_file f))
  /\ (forall missing,
        In (Error_missing_columns missing)
           (fst (Brightest.validate_csv_file f)) ->
        exists names, fieldnames f = Ok names /\
          missing <> [] /\
          forall c, In c missing <->
                    In c Brightest.required_columns /\ ~ In c names).
Proof.
  unfold Brightest.validate_csv_file.
  destruct (path_exists f); cbn [negb].
  2:{ split; [|split].
      - split; [discriminate | intros [? _]; discriminate].
      - right. now apply print_then_exit.
      - cbn. intros missing [H|[]]. discriminate. }
  destruct (open_error f) as [e|].
  { split; [|split].
    - split; [discriminate | intros (_ & ? & _); discriminate].
    - right. now apply print_then_exit.
    - cbn. intros missing [H|[]]. discriminate. }
  destruct (fieldnames f) as [names|e].
  2:{ split; [|split].
      - split; [discriminate | intros (_ & _ & ? & ? & _); discriminate].
      - right. now apply print_then_exit.
      - cbn. intros missing [H|[]]. discriminate. }
  destruct (Brightest.missing_columns Brightest.required_columns names)
    as [|c l] eqn:Hm.
  - split; [|split].
    + split; [intros _|reflexivity]. repeat split.
      exists names. split; [reflexivity|]. now apply missing_columns_nil.
    + now left.
    + cbn. intros missing [].
  - split; [|split].
    + split; [discriminate|]. intros (_ & _ & names' & Hn & Hall).
      injection Hn as <-. apply missing_columns_nil in Hall. congruence.
    + right. now apply print_then_exit.
    + cbn. intros missing [H|[]]. injection H as <-.
      exists names. split; [reflexivity|]. split; [discriminate|].
      intros c'. rewrite <- Hm. apply missing_columns_In.
Qed.

Lemma truthy_false (s : string) : PyStr.truthy s = false <-> s = EmptyString.
Proof. destruct s; cbn; split; congruence. Qed.

Lemma absent_coordinate (row : Csv.row) :
  numeric_fields_parse row = true ->
  (coordinates_present row = false <->
   row "x"%string = EmptyString \/ row "y"%string = EmptyString \/
   row "z"%string = EmptyString).
Proof.
  unfold numeric_fields_parse, coordinates_present, reads_if_present,
    present_and_reads.
  rewrite <- !truthy_false.
  destruct (PyStr.truthy (row "id"%string)), (py_int (row "id"%string)),
    (PyStr.truthy (row "mag"%string)), (py_float (row "mag"%string));
    cbn [negb orb andb]; try discriminate;
    destruct (PyStr.truthy (row "x"%string)), (py_float (row "x"%string)),
      (PyStr.truthy (row "y"%string)), (py_float (row "y"%string)),
      (PyStr.truthy (row "z"%string)), (py_float (row "z"%string));
    cbn [negb orb andb]; try discriminate; intros _; split; auto;
    intros [H|[H|H]]; discriminate.
Qed.

(** X5.  In the H3 and in the brightest-N script a row is passed over
    without any message exactly when its id, magnitude and coordinates
    parse wherever they are not empty and one of x, y, z is empty. *)
Theorem rows_skipped_without_warning (row : Csv.row) :
  (H3.row_turn row = Ok (Brightest.Skip None) <->
   numeric_fields_parse row = true /\
   (row "x"%string = EmptyString \/ row "y"%string = EmptyString \/
    row "z"%string = EmptyString))
  /\ (Brightest.row_turn row = Ok (Brightest.Skip None) <->
      numeric_fields_parse row = true /\
      (row "x"%string = EmptyString \/ row "y"%string = EmptyString \/
       row "z"%string = EmptyString)).
Proof.
  rewrite h3_row_turn_spec, brightest_row_turn_spec.
  destruct (numeric_fields_parse row) eqn:Hn.
  2:{ split; (split; [discriminate | intros [? _]; discriminate]). }
  pose proof (absent_coordinate row Hn) as Ha.
  destruct (coordinates_present row).
  - assert (Hno : ~ (row "x"%string = EmptyString \/
                     row "y"%string = EmptyString \/
                     row "z"%string = EmptyString))
      by (intros H; apply Ha in H; discriminate).
    split.
    + split; [discriminate | intros [_ H]; contradiction].
    + split; [|intros [_ H]; contradiction].
      destruct (Brightest.lat_lon_of_star (parsed row))
        as [[[lat|] [lon|]]|e]; try discriminate.
      destruct (latlng_to_cell lat lon 0); discriminate.
  - assert (Hyes : row "x"%string = EmptyString \/
                   row "y"%string = EmptyString \/
                   row "z"%string = EmptyString) by now apply Ha.
    split; (split; [intros _; split; [reflexivity | exact Hyes]
                   | reflexivity]).
Qed.

(** X6.  A row whose id and magnitude parse (or are empty) and whose three
    coordinates read as zeros is dropped by the reading loop of the
    brightest-N script with the warning about coordinates; the reading loop
    of the H3 script retains it, and the warning comes from
    [process_stars_with_h3] at whatever resolution the star is hashed. *)
Theorem zero_vector_rows (row : Csv.row) (vx vy vz : float) :
  numeric_fields_parse row = true ->
  when_present py_float (row "x"%string) = Some vx ->
  when_present py_float (row "y"%string) = Some vy ->
  when_present py_float (row "z"%string) = Some vz ->
  is_zero vx = true -> is_zero vy = true -> is_zero vz = true ->
  Brightest.row_turn row
  = Ok (Brightest.Skip (Some (Warning_coordinates (id (parsed row)))))
  /\ H3.row_turn row = Ok (Brightest.Append (parsed row))
  /\ forall r, H3.hash_star r (parsed row)
               = Ok (Brightest.Skip
                       (Some (Warning_coordinates (id (parsed row))))).
Proof.
  intros Hn Hx Hy Hz Zx Zy Zz.
  assert (Hc : coordinates_present row = true).
  { unfold coordinates_present. rewrite !when_present_some, Hx, Hy, Hz.
    reflexivity. }
  assert (Hl : Brightest.lat_lon_of_star (parsed row) = Ok (None, None)).
  { unfold Brightest.lat_lon_of_star. cbn [x y z parsed].
    rewrite Hx, Hy, Hz. now apply zero_vector_has_no_result. }
  rewrite h3_row_turn_spec, brightest_row_turn_spec, Hn, Hc, Hl.
  split; [reflexivity|]. split; [reflexivity|].
  intros r. unfold H3.hash_star. rewrite Hl. reflexivity.
Qed.

(** X7.  On the same rows the reading loops of the two scripts end inside
    the loop, and the stars the brightest-N script retains are, in order,
    the stars the H3 script retains that get a cell at resolution 0; each
    carries resolution 0. *)
Theorem brightest_retains_what_h3_hashes (rows : list Csv.row) :
  exists out_b stars_b out_h stars_h,
    Brightest.read_rows rows = (out_b, Ok stars_b) /\
    H3.read_rows rows = (out_h, Ok stars_h) /\
    map base stars_b = filter (H3.hashable 0) stars_h /\
    Forall (fun h => resolution h = 0%Z) stars_b.
Proof.
  induction rows as [|row rows (ob & sb & oh & sh & Hb & Hh & Hm & Hr)].
  - exists [], [], [], []. repeat split. constructor.
  - cbn [Brightest.read_rows H3.read_rows]. rewrite Hb, Hh.
    rewrite h3_row_turn_spec, brightest_row_turn_spec.
    destruct (numeric_fields_parse row).
    2:{ do 4 eexists. repeat split; eauto. }
    destruct (coordinates_present row).
    2:{ do 4 eexists. repeat split; eauto. }
    assert (Hhash : H3.hashable 0 (parsed row)
                    = match Brightest.lat_lon_of_star (parsed row) with
                      | Ok (Some lat, Some lon) =>
                          match latlng_to_cell lat lon 0 with
                          | Some _ => true
                          | None => false
                          end
                      | _ => false
                      end).
    { unfold H3.hashable, H3.hash_star.
      destruct (Brightest.lat_lon_of_star (parsed row))
        as [[[lat|] [lon|]]|e]; cbn [bind]; try reflexivity.
      destruct (latlng_to_cell lat lon 0); reflexivity. }
    destruct (Brightest.lat_lon_of_star (parsed row))
      as [[[lat|] [lon|]]|e];
      try (do 4 eexists; split; [reflexivity|]; split; [reflexivity|];
           cbn [Brightest.appended app filter]; rewrite Hhash;
           split; assumption).
    destruct (latlng_to_cell lat lon 0) as [c|].
    + do 4 eexists. split; [reflexivity|]. split; [reflexivity|].
      cbn [Brightest.appended app filter map base]. rewrite Hhash.
      split; [now rewrite Hm | now constructor].
    + do 4 eexists. split; [reflexivity|]. split; [reflexivity|].
      cbn [Brightest.appended app filter]. rewrite Hhash.
      split; assumption.
Qed.

End ReadingMore.

Lemma zero_vector_rows_witness :
  @Star.numeric_fields_parse Ref.externals Sample.zero_row = true /\
  @Brightest.row_turn Ref.externals Sample.zero_row
  = Py.Ok (Brightest.Skip (Some (Log.Warning_coordinates (Some 5%Z)))) /\
  @H3.row_turn Ref.externals Sample.zero_row
  = Py.Ok (Brightest.Append (@Star.parsed Ref.externals Sample.zero_row)).
Proof.
  split; [reflexivity|].
  destruct (@zero_vector_rows Ref.externals Sample.zero_row
              (S754_zero false) (S754_zero false) (S754_zero false)
              eq_refl eq_refl eq_refl eq_refl eq_refl eq_refl eq_refl)
    as (Hb & Hh & _).
  split; [exact Hb | exact Hh].
Defined.

Section HashingMore.
Import Py Csv Log Star.
Open Scope py_scope.
Context {E : Externals}.

Lemma hash_star_turn (r : Z) (s : star) :
  match H3.hash_star r s with
  | Ok t => (List.length (Brightest.appended t)
             + List.length (Brightest.warned t) = 1)%nat
  | Raise e => is_value_or_type_error e = true
  end.
Proof.
  unfold H3.hash_star.
  destruct (Brightest.lat_lon_of_star s) as [[[lat|] [lon|]]|e] eqn:H;
    cbn [bind]; try reflexivity.
  - destruct (latlng_to_cell lat lon r); reflexivity.
  - now apply lat_lon_of_star_raises in H.
Qed.

Lemma hash_all_accounts (r : Z) (visited : list star) :
  match H3.hash_all r visited with
  | (out, Done l) =>
      (List.length l + List.length out = List.length visited)%nat
  | (_, Uncaught e) => is_value_or_type_error e = true
  | (_, Exit _) => False
  end.
Proof.
  induction visited as [|s rest IH]; cbn [H3.hash_all]; [reflexivity|].
  pose proof (hash_star_turn r s) as Ht.
  destruct (H3.hash_star r s) as [t|e]; [|exact Ht].
  destruct (H3.hash_all r rest) as [out [l|c|e]]; [|exact IH|exact IH].
  rewrite !length_app. cbn [List.length]. lia.
Qed.

(** X8.  For a start index and a count that are not negative,
    [process_stars_with_h3] never raises [IndexError]: it raises
    [ValueError] or [TypeError] from the conversion of coordinates, or it
    returns.  When it returns, the stars of the result and the warnings
    printed together number max(0, min(count, len(stars) - start_index)),
    one for each index visited (none when the start index is behind the end
    of the list), and every star of the result is a star of the list with
    the requested resolution. *)
Theorem process_stars_with_h3_accounts (stars : list star)
  (start_index count h3_resolution : Z) :
  (0 <= start_index)%Z -> (0 <= count)%Z ->
  match H3.process_stars_with_h3 stars start_index count h3_resolution with
  | (out, Done l) =>
      Z.of_nat (List.length l + List.length out)
      = Z.max 0 (Z.min count
                   (Z.of_nat (List.length stars) - start_index))
      /\ Forall (fun h => In (base h) stars
                          /\ resolution h = h3_resolution) l
  | (_, Uncaught e) => is_value_or_type_error e = true
  | (_, Exit _) => False
  end.
Proof.
  intros Hs Hc. rewrite process_stars_with_h3_segment by assumption.
  pose proof (hash_all_accounts h3_resolution
                (H3.segment stars start_index count)) as Ha.
  destruct (H3.hash_all h3_resolution (H3.segment stars start_index count))
    as [out [l|c|e]] eqn:Hh; try exact Ha.
  split.
  - rewrite Ha. unfold H3.segment.
    rewrite length_firstn, length_skipn. lia.
  - destruct (hash_all_from_visited _ _ _ _ Hh) as [Hm Hf].
    rewrite Forall_forall in *. intros h Hin. split; [|now apply Hf].
    assert (Hb : In (base h) (map base l)) by now apply in_map.
    rewrite Hm in Hb. apply filter_In in Hb. destruct Hb as [Hb _].
    unfold H3.segment in Hb.
    rewrite <- (firstn_skipn (Z.to_nat start_index) stars).
    apply in_or_app. right.
    rewrite <- (firstn_skipn (Z.to_nat count)
                  (skipn (Z.to_nat start_index) stars)).
    apply in_or_app. now left.
Qed.

Lemma range_empty (a b : Z) : (b <= a)%Z -> range a b = [].
Proof.
  intros H. unfold range. replace (Z.to_nat (b - a)) with 0%nat by lia.
  reflexivity.
Qed.

(** X9.  [process_stars_with_h3] returns the empty list, printing nothing,
    when the count is not positive or the start index is at or behind the
    end of the list.  With a positive count and a start index below minus
    the length of the list the first [stars[i]] raises [IndexError], which
    nothing catches. *)
Theorem process_stars_with_h3_bounds (stars : list star)
  (start_index count h3_resolution : Z) :
  ((count <= 0 \/ Z.of_nat (List.length stars) <= start_index)%Z ->
   H3.process_stars_with_h3 stars start_index count h3_resolution
   = ([], Done []))
  /\ ((start_index < - Z.of_nat (List.length stars))%Z -> (0 < count)%Z ->
      H3.process_stars_with_h3 stars start_index count h3_resolution
      = ([], Uncaught IndexError)).
Proof.
  unfold H3.process_stars_with_h3. split.
  - intros H. rewrite range_empty by lia. reflexivity.
  - intros Hs Hc. unfold range.
    set (n := Z.min (start_index + count) (Z.of_nat (List.length stars))).
    destruct (Z.to_nat (n - start_index)) as [|k] eqn:Hk; [subst n; lia|].
    cbn [seq map H3.process_indices]. change (Z.of_nat 0) with 0%Z.
    rewrite Z.add_0_r. unfold index.
    destruct (Z.ltb_spec start_index 0); [|lia].
    destruct (Z.leb_spec 0 (start_index + Z.of_nat (List.length stars)));
      [lia|].
    reflexivity.
Qed.

End HashingMore.

Lemma process_stars_with_h3_accounts_witness :
  (0 <= 1)%Z /\ (0 <= 2)%Z /\
  exists out l,
    @H3.process_stars_with_h3 Ref.externals Ref.four_stars 1 2 0
    = (out, Py.Done l) /\
    Z.of_nat (List.length l + List.length out) = 2%Z.
Proof.
  assert (H1 : (0 <= 1)%Z) by lia. assert (H2 : (0 <= 2)%Z) by lia.
  split; [exact H1|]. split; [exact H2|].
  pose proof (@process_stars_with_h3_accounts Ref.externals Ref.four_stars
                1 2 0 H1 H2) as H.
  destruct (@H3.process_stars_with_h3 Ref.externals Ref.four_stars 1 2 0)
    as [out [l|c|e]] eqn:Hp; [|discriminate Hp|discriminate Hp].
  exists out, l. split; [reflexivity | exact (proj1 H)].
Defined.

Lemma process_stars_with_h3_bounds_witness :
  @H3.process_stars_with_h3 Ref.externals Ref.four_stars 4 1 0
  = ([], Py.Done []) /\
  @H3.process_stars_with_h3 Ref.externals Ref.four_stars (-5) 1 0
  = ([], Py.Uncaught Py.IndexError).
Proof.
  destruct (@process_stars_with_h3_bounds Ref.externals Ref.four_stars 4 1 0)
    as [Hempty _].
  destruct (@process_stars_with_h3_bounds Ref.externals Ref.four_stars
              (-5) 1 0) as [_ Hindex].
  split; [apply Hempty; right; cbn; lia | apply Hindex; cbn; lia].
Defined.

(** ** How the scripts end *)

Section Outcomes.
Import Py Csv Log Star Outcome.
Open Scope py_scope.
Context {E : Externals}.

Lemma ends_exit {A} (P : exn -> Prop) (Q : A -> Prop) (r : run A) :
  reports_and_exits r -> ends P Q r.
Proof. intros H. now left. Qed.

Lemma ends_done {A} (P : exn -> Prop) (Q : A -> Prop) (out : list line)
  (a : A) :
  Q a -> ends P Q (out, Done a).
Proof. intros H. right; right. exists a. now split. Qed.

Lemma ends_print (P : exn -> Prop) (l : line) :
  ends P (fun _ => True) (print l).
Proof. now apply ends_done. Qed.

Lemma ends_then {A B} (P : exn -> Prop) (Q : A -> Prop) (Q' : B -> Prop)
  (m : run A) (k : A -> run B) :
  ends P Q m ->
  (forall a, Q a -> ends P Q' (k a)) ->
  ends P Q' (a <-- m ;; k a).
Proof.
  intros [Hm|[(e & He & HP)|(a & Ha & HQ)]] Hk.
  - left. now apply reports_and_exits_then.
  - right; left. exists e. destruct m as [out o]. cbn [snd] in He.
    subst o. now split.
  - destruct m as [out o]. cbn [snd] in Ha. subst o.
    destruct (Hk a HQ) as [Hr|[(e & He & HP)|(b & Hb & HQ')]].
    + left. now apply reports_and_exits_after.
    + right; left. exists e. cbn [then_].
      destruct (k a) as [out' o']. cbn [snd] in *. now split.
    + right; right. exists b. cbn [then_].
      destruct (k a) as [out' o']. cbn [snd] in *. now split.
Qed.

Ltac after_print :=
  eapply ends_then; [apply ends_print | intros _ _].

Lemma validate_cases (f : file) :
  Brightest.validate_csv_file f = ([], Done tt) \/
  reports_and_exits (Brightest.validate_csv_file f).
Proof.
  unfold Brightest.validate_csv_file.
  destruct (path_exists f); cbn [negb]; [|right; now apply print_then_exit].
  destruct (open_error f); [right; now apply print_then_exit|].
  destruct (fieldnames f); [|right; now apply print_then_exit].
  destruct (Brightest.missing_columns _ _);
    [now left | right; now apply print_then_exit].
Qed.

Lemma validate_ends (P : exn -> Prop) (f : file) :
  ends P (fun _ => Brightest.validate_csv_file f = ([], Done tt))
    (Brightest.validate_csv_file f).
Proof.
  destruct (validate_cases f) as [H|H]; [|now left].
  right; right. exists tt. split; [now rewrite H | exact H].
Qed.

Lemma run_calls_misses (db : Sqlite.fault) (calls : nat) :
  Sqlite.hits db calls = false -> Sqlite.run_calls db calls = Ok tt.
Proof.
  unfold Sqlite.hits, Sqlite.run_calls. destruct db as [[k e]|]; [|reflexivity].
  now intros ->.
Qed.

Lemma brightest_database_ends (P : exn -> Prop) (db : Sqlite.fault)
  (stars : list hashed) :
  ends P (fun table => table = stars /\
                       Sqlite.hits db (8 + List.length stars) = false)
    (Brightest.create_sqlite_database db stars).
Proof.
  destruct (Sqlite.hits db (8 + List.length stars)) eqn:Hh.
  - left. now apply database_reports.
  - unfold Brightest.create_sqlite_database.
    rewrite (run_calls_misses _ _ Hh). now apply ends_done.
Qed.

(** X10.  Once its arguments are parsed, the brightest-N script ends in one
    of two ways, never with an uncaught exception: with an error message as
    its last line and exit status 1, or normally, and then the file passed
    the validation, the table written is the list that [list.sort] leaves
    of the retained stars (by [key] their magnitude), cut at N, it is not
    empty, and no call on the database raised. *)
Theorem brightest_main_outcome (f : file) (brightest_n : Z)
  (db : Sqlite.fault) :
  reports_and_exits (Brightest.main f brightest_n db) \/
  exists table,
    snd (Brightest.main f brightest_n db) = Done table /\
    Brightest.validate_csv_file f = ([], Done tt) /\
    (exists out stars,
       Brightest.retained f = (out, Ok stars) /\
       table = slice_to (list_sort Brightest.magnitude stars) brightest_n) /\
    table <> [] /\
    Sqlite.hits db (8 + List.length table) = false.
Proof.
  cut (ends (fun _ => False)
         (fun table =>
            Brightest.validate_csv_file f = ([], Done tt) /\
            (exists out stars,
               Brightest.retained f = (out, Ok stars) /\
               table = slice_to (list_sort Brightest.magnitude stars)
                         brightest_n) /\
            table <> [] /\
            Sqlite.hits db (8 + List.length table) = false)
         (Brightest.main f brightest_n db)).
  { intros [H|[(e & _ & [])|H]]; [now left | now right]. }
  unfold Brightest.main. do 3 after_print.
  eapply ends_then; [apply validate_ends | intros ? Hv; cbv beta in Hv]. after_print.
  apply ends_then
    with (Q := fun bs => exists out stars,
                 Brightest.retained f = (out, Ok stars) /\
                 bs = slice_to (list_sort Brightest.magnitude stars)
                        brightest_n).
  { unfold Brightest.read_and_sort_stars.
    destruct (Brightest.retained f) as [out [stars|e]].
    - apply ends_done. eauto.
    - left. now apply reports_after. }
  intros bs Hbs. destruct bs as [|s l].
  { left. now apply print_then_exit. }
  do 3 after_print.
  eapply ends_then; [apply brightest_database_ends|].
  intros table [-> Hh]. after_print. apply ends_done.
  repeat split; [exact Hv | exact Hbs | discriminate | exact Hh].
Qed.

Lemma process_ends (stars : list star) (start count r : Z) :
  (0 <= start)%Z -> (0 <= count)%Z ->
  ends (fun e => is_value_or_type_error e = true) (fun _ => True)
    (H3.process_stars_with_h3 stars start count r).
Proof.
  intros Hs Hc. rewrite process_stars_with_h3_segment by assumption.
  pose proof (hash_all_accounts r (H3.segment stars start count)) as Ha.
  destruct (H3.hash_all r (H3.segment stars start count)) as [out [l|c|e]].
  - now apply ends_done.
  - destruct Ha.
  - right; left. exists e. now split.
Qed.

Lemma h3_database_ends (P : exn -> Prop) (db : Sqlite.fault)
  (s0 s1 : list hashed) (s2 : option (list hashed)) :
  ends P (fun t => H3.stars_h3_0 t = s0 /\ H3.stars_h3_1 t = s1 /\
                   H3.stars_h3_2 t = (if H3.some_stars s2 then s2 else None)
                   /\ Sqlite.hits db (H3.database_calls s0 s1 s2) = false)
    (H3.create_sqlite_database db s0 s1 s2).
Proof.
  destruct (Sqlite.hits db (H3.database_calls s0 s1 s2)) eqn:Hh.
  - left. now apply database_reports.
  - unfold H3.create_sqlite_database.
    rewrite (run_calls_misses _ _ Hh).
    do 2 after_print.
    eapply ends_then with (Q := fun _ => True);
      [destruct (H3.some_stars s2); now apply ends_done | intros _ _].
    after_print. now apply ends_done.
Qed.

(** X11.  Once its arguments are parsed, with [--skip] and the two counts
    not negative, the H3 script ends with an error message and exit status
    1, or with an uncaught [ValueError] or [TypeError] of the conversion of
    coordinates, or normally.  When it ends normally some table has a row,
    the table [stars_h3_2] is never written empty, and it is not written at
    all without [--include-rest]. *)
Theorem h3_main_outcome (f : file) (skip lvl_0_count lvl_1_count : Z)
  (include_rest : bool) (db : Sqlite.fault) :
  (0 <= skip)%Z -> (0 <= lvl_0_count)%Z -> (0 <= lvl_1_count)%Z ->
  reports_and_exits
    (H3.main f skip lvl_0_count lvl_1_count include_rest db)
  \/ (exists e,
        snd (H3.main f skip lvl_0_count lvl_1_count include_rest db)
        = Uncaught e /\ is_value_or_type_error e = true)
  \/ (exists t,
        snd (H3.main f skip lvl_0_count lvl_1_count include_rest db)
        = Done t /\
        (include_rest = false -> H3.stars_h3_2 t = None) /\
        H3.stars_h3_2 t <> Some [] /\
        (H3.stars_h3_0 t <> [] \/ H3.stars_h3_1 t <> [] \/
         H3.stars_h3_2 t <> None)).
Proof.
  intros Hskip H0 H1.
  change (ends (fun e => is_value_or_type_error e = true)
            (fun t =>
               (include_rest = false -> H3.stars_h3_2 t = None) /\
               H3.stars_h3_2 t <> Some [] /\
               (H3.stars_h3_0 t <> [] \/ H3.stars_h3_1 t <> [] \/
                H3.stars_h3_2 t <> None))
            (H3.main f skip lvl_0_count lvl_1_count include_rest db)).
  unfold H3.main. do 4 after_print.
  eapply ends_then with (Q := fun _ => True);
    [destruct include_rest; now apply ends_done | intros _ _].
  after_print.
  eapply ends_then; [apply validate_ends | intros _ _]. after_print.
  apply ends_then with (Q := fun _ => True).
  { unfold H3.read_and_sort_stars.
    destruct (H3.retained f) as [out [stars|e]].
    - now apply ends_done.
    - left. now apply reports_after. }
  intros all_stars _. destruct all_stars as [|s0 rest].
  { left. now apply print_then_exit. }
  set (all := s0 :: rest). after_print.
  eapply ends_then with (Q := fun _ => True);
    [destruct (_ <? _)%Z; [after_print; apply ends_print | now apply ends_done]
    | intros _ _].
  apply ends_then
    with (Q := fun sel => include_rest = false -> snd sel = None).
  { unfold H3.select_stars. after_print.
    eapply ends_then; [now apply process_ends | intros l0 _]. after_print.
    eapply ends_then; [apply process_ends; [lia | exact H1] | intros l1 _].
    destruct include_rest; [|now apply ends_done].
    cbv zeta.
    destruct (Z.ltb_spec 0 (Z.of_nat (List.length all)
                            - (skip + lvl_0_count + lvl_1_count))).
    - after_print.
      eapply ends_then; [apply process_ends; lia | intros l2 _].
      apply ends_done. discriminate.
    - after_print. apply ends_done. discriminate. }
  intros [[l0 l1] l2] Hnone. cbn [snd] in Hnone.
  assert (Htail : forall k : run H3.tables,
    ends (fun e => is_value_or_type_error e = true)
      (fun t => H3.stars_h3_0 t = l0 /\ H3.stars_h3_1 t = l1 /\
                H3.stars_h3_2 t = (if H3.some_stars l2 then l2 else None))
      k ->
    (l0 <> [] \/ l1 <> [] \/ H3.some_stars l2 = true) ->
    ends (fun e => is_value_or_type_error e = true)
      (fun t =>
         (include_rest = false -> H3.stars_h3_2 t = None) /\
         H3.stars_h3_2 t <> Some [] /\
         (H3.stars_h3_0 t <> [] \/ H3.stars_h3_1 t <> [] \/
          H3.stars_h3_2 t <> None)) k).
  { intros k [Hk|[Hk|(t & Ht & E0 & E1 & E2)]] Hsome;
      [now left | now (right; left) | right; right].
    exists t. split; [exact Ht|]. rewrite E0, E1, E2. split; [|split].
    - intros Hi. rewrite (Hnone Hi). reflexivity.
    - destruct l2 as [[|a l]|]; discriminate.
    - destruct Hsome as [Hs|[Hs|Hs]]; [now left | now (right; left) |].
      right; right. rewrite Hs. destruct l2; [discriminate|discriminate]. }
  assert (Hrun :
    ends (fun e => is_value_or_type_error e = true)
      (fun t => H3.stars_h3_0 t = l0 /\ H3.stars_h3_1 t = l1 /\
                H3.stars_h3_2 t = (if H3.some_stars l2 then l2 else None))
      (print (Info "Successfully processed stars for H3 level 0") ;;;
       print (Info "Successfully processed stars for H3 level 1") ;;;
       (if H3.some_stars l2
        then print (Info "Successfully processed stars for H3 level 2")
        else ret tt) ;;;
       (match l0 with
        | [] => ret tt
        | _ :: _ => print (Info "H3 level 0 magnitude range")
        end) ;;;
       (match l1 with
        | [] => ret tt
        | _ :: _ => print (Info "H3 level 1 magnitude range")
        end) ;;;
       (if H3.some_stars l2
        then print (Info "H3 level 2 magnitude range")
        else ret tt) ;;;
       print (Info "Creating SQLite database...") ;;;
       t <-- H3.create_sqlite_database db l0 l1 l2 ;;
       print (Info "Processing complete!") ;;;
       ret t)).
  { do 2 after_print.
    eapply ends_then with (Q := fun _ => True);
      [destruct (H3.some_stars l2); now apply ends_done | intros _ _].
    eapply ends_then with (Q := fun _ => True);
      [destruct l0; now apply ends_done | intros _ _].
    eapply ends_then with (Q := fun _ => True);
      [destruct l1; now apply ends_done | intros _ _].
    eapply ends_then with (Q := fun _ => True);
      [destruct (H3.some_stars l2); now apply ends_done | intros _ _].
    after_print.
    eapply ends_then; [apply h3_database_ends|].
    intros t (E0 & E1 & E2 & _). after_print. now apply ends_done. }
  destruct l0 as [|a0 l0], l1 as [|a1 l1], l2 as [[|a2 l2]|];
    first [ left; now apply print_then_exit
          | apply Htail;
            [exact Hrun
            | first [ left; discriminate
                    | right; left; discriminate
                    | right; right; reflexivity ]] ].
Qed.

End Outcomes.

Lemma h3_main_outcome_witness :
  (0 <= 0)%Z /\ (0 <= 1)%Z /\
  exists t,
    snd (@H3.main Ref.externals Ref.two_star_file 0 1 1 false None)
    = Py.Done t /\ H3.stars_h3_2 t = None.
Proof.
  assert (H0 : (0 <= 0)%Z) by lia. assert (H1 : (0 <= 1)%Z) by lia.
  split; [exact H0|]. split; [exact H1|].
  destruct (@h3_main_outcome Ref.externals Ref.two_star_file 0 1 1 false
              None H0 H1 H1)
    as [(out & l & _ & _ & Hexit)|[(e & He & _)|(t & Ht & Hnone & _)]].
  - discriminate Hexit.
  - discriminate He.
  - exists t. split; [exact Ht | exact (Hnone eq_refl)].
Defined.

(** ** The star-info script from the file to the table *)

Section StarInfoMore.
Import Py Csv Log StarInfo Outcome.
Open Scope py_scope.
Context {E : Externals}.

Ltac after_print :=
  eapply ends_then; [apply ends_print | intros _ _].

(** X12.  With the id column among the included ones the reading loop of
    the star-info script ends inside the loop, and every row that the CSV
    reader yields gives either one star or one warning.  A warning carries
    the number the script counts for its row, 2 for the first row the
    reader yields, 3 for the second and so on: "no ID" for a row whose
    cells convert and whose id is empty, "invalid data" with [ValueError]
    for a row with a cell that does not convert. *)
Theorem star_info_rows_accounted (included_columns : list string)
  (rows : list Csv.row) :
  In "id"%string included_columns ->
  exists out stars,
    read_rows included_columns 2 rows = (out, Ok stars) /\
    (List.length stars + List.length out = List.length rows)%nat /\
    forall l, In l out ->
      exists k row,
        nth_error rows k = Some row /\
        ((l = Warning_no_id (2 + Z.of_nat k)%Z /\
          all_convert included_columns row = true /\
          row "id"%string = EmptyString)
         \/ (l = Warning_invalid_row (Some (2 + Z.of_nat k)%Z) ValueError /\
             all_convert included_columns row = false)).
Proof.
  intros Hid. generalize 2%Z as n. apply mem_In in Hid.
  induction rows as [|row rows IH]; intros n; cbn [read_rows].
  - exists [], []. repeat split. intros l [].
  - destruct (IH (n + 1)%Z) as (out & stars & -> & Hlen & Hout).
    assert (Hrest : forall l, In l out ->
      exists k row',
        nth_error (row :: rows) k = Some row' /\
        ((l = Warning_no_id (n + Z.of_nat k)%Z /\
          all_convert included_columns row' = true /\
          row' "id"%string = EmptyString)
         \/ (l = Warning_invalid_row (Some (n + Z.of_nat k)%Z) ValueError /\
             all_convert included_columns row' = false))).
    { intros l Hl. destruct (Hout l Hl) as (k & row' & Hk & Hcase).
      exists (S k), row'. split; [exact Hk|].
      replace (n + Z.of_nat (S k))%Z with (n + 1 + Z.of_nat k)%Z by lia.
      exact Hcase. }
    rewrite star_info_row_turn_spec, Hid.
    pose proof (fill_spec row included_columns) as Hf.
    destruct (all_convert included_columns row) eqn:Hall.
    + destruct Hf as (s & -> & _).
      destruct (PyStr.truthy (row "id"%string)) eqn:Ht.
      * do 2 eexists. split; [reflexivity|].
        cbn [Brightest.warned Brightest.appended app List.length].
        split; [lia | exact Hrest].
      * do 2 eexists. split; [reflexivity|].
        cbn [Brightest.warned Brightest.appended app List.length].
        split; [lia|]. intros l [<-|Hl]; [|now apply Hrest].
        exists 0%nat, row. split; [reflexivity|]. left.
        rewrite Z.add_0_r. repeat split; [exact Hall|].
        destruct (row "id"%string); [reflexivity | discriminate].
    + do 2 eexists. split; [reflexivity|].
      cbn [Brightest.warned Brightest.appended app List.length].
      split; [lia|]. intros l [<-|Hl]; [|now apply Hrest].
      exists 0%nat, row. split; [reflexivity|]. right.
      rewrite Z.add_0_r. split; [reflexivity | exact Hall].
Qed.

(** The dictionary of a retained star holds, under each included column,
    the conversion of a cell of one row. *)
Lemma read_rows_cells (included_columns : list string)
  (rows : list Csv.row) (row_num : Z) out stars :
  read_rows included_columns row_num rows = (out, Ok stars) ->
  Forall (fun s => exists row, In row rows /\
            forall col, In col included_columns ->
              exists v, convert col (row col) = Ok v /\ get s col = v) stars.
Proof.
  revert row_num out stars.
  induction rows as [|row rows IH]; cbn [read_rows];
    intros row_num out stars H.
  - injection H as <- <-. constructor.
  - rewrite star_info_row_turn_spec in H.
    pose proof (fill_spec row included_columns) as Hf.
    assert (Hweak : forall l,
      Forall (fun s => exists row', In row' rows /\
                forall col, In col included_columns ->
                  exists v, convert col (row' col) = Ok v /\ get s col = v) l ->
      Forall (fun s => exists row', In row' (row :: rows) /\
                forall col, In col included_columns ->
                  exists v, convert col (row' col) = Ok v /\ get s col = v) l).
    { intros l. apply Forall_impl. intros s (row' & Hin & Hc).
      exists row'. split; [now right | exact Hc]. }
    destruct (all_convert included_columns row).
    + destruct Hf as (s & Hs & Hget). rewrite Hs in H.
      destruct (mem "id" included_columns); [|discriminate].
      destruct (read_rows included_columns (row_num + 1) rows)
        as [o [l|]] eqn:Hr; [|destruct (PyStr.truthy _); discriminate].
      specialize (IH _ _ _ Hr).
      destruct (PyStr.truthy (row "id"%string)); injection H as <- <-;
        cbn [Brightest.appended app]; [|now apply Hweak].
      constructor; [|now apply Hweak].
      exists row. split; [now left|]. intros col Hcol.
      unfold get. rewrite Hget. apply mem_In in Hcol. rewrite Hcol.
      (* every included column converts on this row *)
      clear - Hs Hcol. revert s Hs.
      induction included_columns as [|c cols IHc]; [discriminate|].
      cbn [fill]. intros s Hs.
      destruct (convert c (row c)) as [v|] eqn:Hv; [|discriminate].
      cbn [mem existsb] in Hcol.
      destruct (String.eqb_spec col c) as [Heq|Hne].
      * rewrite Heq, Hv. eauto.
      * cbn [orb] in Hcol. cbn [bind] in Hs.
        destruct (fill row cols) as [s'|]; [|discriminate].
        now apply (IHc Hcol s').
    + destruct (read_rows included_columns (row_num + 1) rows)
        as [o [l|]] eqn:Hr; [|discriminate].
      injection H as <- <-. cbn [Brightest.appended app].
      apply Hweak. eapply IH; eauto.
Qed.

Lemma nth_error_map_get (s : star) (included_columns : list string)
  (j : nat) (v : value) :
  nth_error (map (get s) included_columns) j = Some v ->
  exists col, nth_error included_columns j = Some col /\ v = get s col.
Proof.
  rewrite nth_error_map.
  destruct (nth_error included_columns j) as [col|]; [|discriminate].
  intros H. injection H as <-. eauto.
Qed.

(** X13.  In the table that the star-info script writes, every row has one
    value for each included column, and each value is NULL or of the type
    its column is declared with: an integer only under INTEGER PRIMARY KEY
    or INTEGER, a float only under REAL, a text only under TEXT. *)
Theorem stars_info_values_match_columns (f : file)
  (included_columns : list string) (db : Sqlite.fault)
  out stars out' columns t :
  In "id"%string included_columns ->
  read_stars f included_columns = (out, Done stars) ->
  create_sqlite_database db stars included_columns
  = (out', Done (columns, t)) ->
  columns = map column_definition included_columns /\
  forall r, In r t ->
    List.length r = List.length included_columns /\
    forall j col v,
      nth_error included_columns j = Some col ->
      nth_error r j = Some v ->
      match v with
      | VNone => True
      | VInt _ => column_type col = "INTEGER PRIMARY KEY"%string \/
                  column_type col = "INTEGER"%string
      | VReal _ => column_type col = "REAL"%string
      | VText _ => column_type col = "TEXT"%string
      end.
Proof.
  intros Hid Hread Hdb.
  assert (Hrows : exists o, read_rows included_columns 2 (rows f)
                            = (o, Ok stars)).
  { unfold read_stars in Hread.
    destruct (open_error f); [discriminate|].
    destruct (read_rows included_columns 2 (rows f)) as [o [l|]];
      [|discriminate].
    destruct (read_error f); [discriminate|].
    injection Hread as _ <-. eauto. }
  destruct Hrows as [o Hrows].
  pose proof (read_rows_cells _ _ _ _ _ Hrows) as Hcells.
  assert (Hids : Forall (fun s => exists k, get s "id" = VInt k) stars).
  { eapply Forall_impl; [|exact (read_rows_ids _ _ _ _ _ Hrows)].
    intros s (k & row & _ & _ & Hk). eauto. }
  destruct (primary_key_some _ Hid) as [i Hpk].
  unfold create_sqlite_database in Hdb.
  destruct (Sqlite.run_calls db 4); cbn [bind] in Hdb; [|discriminate].
  destruct (insert_all db included_columns 4 [] stars) as [t'|] eqn:Hins;
    cbn [bind] in Hdb; [|discriminate].
  destruct (Sqlite.call db (4 + List.length stars)); cbn [bind] in Hdb;
    [|discriminate].
  destruct (Sqlite.call db (5 + List.length stars)); cbn [bind] in Hdb;
    [|discriminate].
  injection Hdb as _ <- <-. split; [reflexivity|].
  assert (Hinv : table_invariant included_columns i t' ([] ++ stars)).
  { eapply insert_all_invariant; eauto.
    repeat split; [constructor | intros r [] | intros r [] |].
    intros k s Hs. discriminate. }
  destruct Hinv as (_ & _ & Horigin & _).
  intros r Hr. destruct (Horigin r Hr) as (s & Hs & ->).
  split; [apply length_map|].
  intros j col v Hcol Hv.
  destruct (nth_error_map_get _ _ _ _ Hv) as (col' & Hcol' & ->).
  assert (col' = col) as -> by congruence.
  rewrite Forall_forall in Hcells.
  destruct (Hcells s Hs) as (row & _ & Hconv).
  destruct (Hconv col (nth_error_In _ _ Hcol)) as (v & Hv' & ->).
  pose proof (convert_kind _ _ _ Hv') as Hk.
  pose proof (column_type_cases col) as (Tid & Tint & Treal & Ttext).
  destruct v as [|n|x|txt]; [exact I | | |].
  - destruct Hk as [[Hc|Hc] _]; [left; now apply Tid|].
    destruct (String.eqb_spec col "id") as [He|Hne];
      [left; now apply Tid | right; now apply Tint].
  - destruct Hk as [Hc _].
    unfold column_type.
    destruct (String.eqb_spec col "id") as [->|Hne];
      [cbn in Hc; intuition discriminate|].
    destruct (mem col integer_columns) eqn:Hm.
    + apply mem_In in Hm. cbn in Hm, Hc.
      intuition (subst; discriminate).
    + apply mem_In in Hc. now rewrite Hc.
  - destruct Hk as (H1 & H2 & H3 & _). now apply Ttext.
Qed.

Lemma star_info_validate_ends (P : exn -> Prop) (f : file) :
  ends P (fun names => fieldnames f = Ok names /\ In "id"%string names)
    (validate_csv_file f).
Proof.
  unfold validate_csv_file.
  destruct (path_exists f); cbn [negb]; [|left; now apply print_then_exit].
  destruct (open_error f); [left; now apply print_then_exit|].
  destruct (fieldnames f) as [names|]; [|left; now apply print_then_exit].
  destruct (Brightest.missing_columns required_columns names) eqn:Hm;
    [|left; now apply print_then_exit].
  apply ends_done. split; [reflexivity|].
  unfold Brightest.missing_columns, required_columns in Hm.
  cbn [filter] in Hm. fold (mem "id" names) in Hm.
  destruct (mem "id" names) eqn:Hmem; [|discriminate].
  now apply mem_In.
Qed.

(** X14.  Once its arguments are parsed, the star-info script ends in one of
    two ways, never with an uncaught exception (the [KeyError] of
    [star['id']] included, as the validation requires the id column and
    [get_included_columns] keeps it): with an error message as its last
    line and exit status 1, or normally, and then the header has the id
    column, the columns of the table are the included columns of the
    header, at least one star was read, and no call on the database
    raised. *)
Theorem star_info_main_outcome (f : file) (db : Sqlite.fault) :
  reports_and_exits (main f db) \/
  exists names out stars t,
    snd (main f db)
    = Done (map column_definition (included_of names), t) /\
    fieldnames f = Ok names /\ In "id"%string names /\
    read_stars f (included_of names) = (out, Done stars) /\
    stars <> [] /\
    Sqlite.hits db (6 + List.length stars) = false.
Proof.
  cut (ends (fun _ => False)
         (fun r => exists names out stars,
            fst r = map column_definition (included_of names) /\
            fieldnames f = Ok names /\ In "id"%string names /\
            read_stars f (included_of names) = (out, Done stars) /\
            stars <> [] /\
            Sqlite.hits db (6 + List.length stars) = false)
         (main f db)).
  { intros [H|[(e & _ & [])|([cols t] & Hr & names & out & stars & Hc & H)]];
      [now left | right].
    cbn [fst] in Hc. subst cols. exists names, out, stars, t.
    split; [exact Hr | exact H]. }
  unfold main. do 2 after_print.
  eapply ends_then; [apply star_info_validate_ends|].
  intros names [Hnames Hid]. unfold get_included_columns.
  eapply ends_then with (Q := fun cols => cols = included_of names);
    [do 2 after_print; now apply ends_done | intros ? ->].
  after_print.
  apply ends_then
    with (Q := fun stars => exists out,
                 read_stars f (included_of names) = (out, Done stars)).
  { pose proof (included_of_keeps_id _ Hid) as Hinc.
    unfold read_stars.
    destruct (open_error f); [left; now apply (reports_after [])|].
    destruct (star_info_read_rows_total (included_of names) (rows f) 2 Hinc)
      as (out & stars & ->).
    destruct (read_error f); [left; now apply reports_after|].
    apply ends_done. eauto. }
  intros stars [out Hread]. destruct stars as [|s l].
  { left. now apply print_then_exit. }
  do 2 after_print.
  apply ends_then
    with (Q := fun r => fst r = map column_definition (included_of names) /\
                        Sqlite.hits db (6 + List.length (s :: l)) = false).
  { destruct (Sqlite.hits db (6 + List.length (s :: l))) eqn:Hh.
    - left. now apply database_reports.
    - unfold create_sqlite_database.
      destruct (_ <- Sqlite.run_calls db 4 ;; _) as [t|e];
        [now apply ends_done | left; now apply print_then_exit]. }
  intros r [Hc Hh]. after_print. apply ends_done.
  exists names, out, (s :: l).
  repeat split; [exact Hc | exact Hnames | exact Hid | exact Hread
                | discriminate | exact Hh].
Qed.

End StarInfoMore.

Lemma star_info_rows_accounted_witness :
  In "id"%string ["id"; "proper"]%string /\
  exists out stars,
    @StarInfo.read_rows Ref.externals ["id"; "proper"]%string 2
      Sample.mixed_rows = (out, Py.Ok stars) /\
    (List.length stars + List.length out = 3)%nat.
Proof.
  assert (Hid : In "id"%string ["id"; "proper"]%string)
    by (left; reflexivity).
  split; [exact Hid|].
  destruct (@star_info_rows_accounted Ref.externals ["id"; "proper"]%string
              Sample.mixed_rows Hid) as (out & stars & Hr & Hlen & _).
  exists out, stars. split; [exact Hr | exact Hlen].
Defined.

Lemma stars_info_values_witness :
  In "id"%string (StarInfo.included_of Ref.info_header) /\
  forall r,
    In r [[StarInfo.VInt 8; StarInfo.VText "b"];
          [StarInfo.VInt 7; StarInfo.VText "c"]] ->
    List.length r = List.length (StarInfo.included_of Ref.info_header).
Proof.
  assert (Hid : In "id"%string (StarInfo.included_of Ref.info_header))
    by (left; reflexivity).
  split; [exact Hid|]. intros r Hr.
  exact (proj1 (proj2 (@stars_info_values_match_columns Ref.externals
                         Ref.duplicate_id_file
                         (StarInfo.included_of Ref.info_header) None
                         [] Ref.duplicate_id_stars
                         [Log.Info "Successfully created table 'stars_info'";
                          Log.Info "SQLite database saved"]
                         ["id INTEGER PRIMARY KEY"; "proper TEXT"]%string
                         [[StarInfo.VInt 8; StarInfo.VText "b"];
                          [StarInfo.VInt 7; StarInfo.VText "c"]]
                         Hid eq_refl eq_refl) r Hr)).
Defined.

(** ** The dump utility *)

Section DumpMore.
Import Py Log Dump.

Lemma try_lines (body : res unit) (on_success : line)
  (on_error : exn -> line) (final : res unit) :
  fst (try_except_finally body on_success on_error final)
  = match body with
    | Ok _ => [on_success]
    | Raise e => if is_sqlite_error e then [on_error e] else []
    end.
Proof.
  unfold try_except_finally.
  destruct body as [u|e]; [|destruct (is_sqlite_error e)];
    destruct final; reflexivity.
Qed.

Lemma export_lines (w : world) :
  fst (export_sqlite_to_sql_dump w)
  = match connect_error w, open_error w, transfer_error w with
    | None, None, None => [Info "Successfully exported"]
    | Some e, _, _ | None, Some e, _ | None, None, Some e =>
        if is_sqlite_error e then [Error_exporting e] else []
    end.
Proof.
  unfold export_sqlite_to_sql_dump. rewrite try_lines.
  destruct (connect_error w), (open_error w), (transfer_error w); reflexivity.
Qed.

Lemma import_lines (w : world) :
  fst (import_sql_dump_to_sqlite w)
  = (if target_exists w then [Warning_overwrite] else [])
    ++ match (if target_exists w then remove_error w else None),
             connect_error w, open_error w, transfer_error w,
             commit_error w with
       | None, None, None, None, None => [Info "Successfully imported"]
       | Some e, _, _, _, _ | None, Some e, _, _, _
       | None, None, Some e, _, _ | None, None, None, Some e, _
       | None, None, None, None, Some e =>
           if is_sqlite_error e then [Error_importing e] else []
       end.
Proof.
  unfold import_sql_dump_to_sqlite.
  match goal with
  | |- fst (let '(out, o) := ?t in _) = _ =>
      pose proof (try_lines
                    (bind (if target_exists w then attempt (remove_error w)
                           else Ok tt)
                       (fun _ => bind (attempt (connect_error w))
                          (fun _ => bind (attempt (open_error w))
                             (fun _ => bind (attempt (transfer_error w))
                                (fun _ => attempt (commit_error w))))))
                    (Info "Successfully imported") Error_importing
                    (match (if target_exists w then attempt (remove_error w)
                            else Ok tt) with
                     | Ok _ => if succeeds (connect_error w)
                               then attempt (close_error w)
                               else Raise UnboundLocalError
                     | Raise _ => Raise UnboundLocalError
                     end)) as Hl;
      destruct t as [out o] eqn:Ht
  end.
  cbn [fst] in *. rewrite Hl. f_equal.
  destruct (target_exists w), (remove_error w), (connect_error w),
    (open_error w), (transfer_error w), (commit_error w); reflexivity.
Qed.

Lemma dump_lines_shape (c : command) (w : world) :
  exists pre last,
    fst (main c w) = pre ++ last /\
    (pre = [] \/ pre = [Warning_overwrite]) /\
    (last = [] \/ (exists text, last = [Info text]) \/
     (exists l, last = [l] /\ is_error_line l = true)).
Proof.
  destruct c; cbn [main].
  - destruct (input_exists w); cbn [negb].
    2:{ exists [], [Error_input_missing]. cbn. eauto 8. }
    rewrite export_lines. exists [].
    destruct (connect_error w) as [e|], (open_error w) as [e'|],
      (transfer_error w) as [e''|];
      try (destruct (is_sqlite_error _); eexists; cbn; eauto 8; fail).
    eexists; cbn; eauto 8.
  - destruct (input_exists w); cbn [negb].
    2:{ exists [], [Error_input_missing]. cbn. eauto 8. }
    rewrite import_lines.
    exists (if target_exists w then [Warning_overwrite] else []).
    eexists. split; [reflexivity|].
    split; [destruct (target_exists w); auto|].
    destruct (if target_exists w then remove_error w else None) as [e0|],
      (connect_error w) as [e|], (open_error w) as [e'|],
      (transfer_error w) as [e''|], (commit_error w) as [e3|];
      try (destruct (is_sqlite_error _); eauto 8; fail).
    eauto 8.
  - exists [], [Info "usage"]. cbn. eauto 8.
Qed.

(** X15.  The dump utility prints "Successfully exported" exactly when the
    input exists and connecting, opening the output and copying all
    succeed, and "Successfully imported" exactly when the input exists and
    removing an existing target, connecting, opening, running the script
    and committing all succeed; a failure of [close] comes too late to take
    the line back.  No run prints both an error message and a line of
    success. *)
Theorem dump_success_line (w : world) :
  (In (Info "Successfully exported") (fst (main Export w)) <->
   input_exists w = true /\ connect_error w = None /\
   open_error w = None /\ transfer_error w = None)
  /\ (In (Info "Successfully imported") (fst (main Import w)) <->
      input_exists w = true /\
      (target_exists w = true -> remove_error w = None) /\
      connect_error w = None /\ open_error w = None /\
      transfer_error w = None /\ commit_error w = None)
  /\ (forall c l, In l (fst (main c w)) -> is_error_line l = true ->
      forall text, ~ In (Info text) (fst (main c w))).
Proof.
  split; [|split].
  - cbn [main]. destruct (input_exists w); cbn [negb].
    2:{ cbn. split; [intros [H|[]]; discriminate | intros [H _]; discriminate]. }
    rewrite export_lines.
    destruct (connect_error w) as [e|], (open_error w) as [e'|],
      (transfer_error w) as [e''|];
      try (split; [|intros (_ & H1 & H2 & H3); discriminate];
           destruct (is_sqlite_error _); cbn;
           intros H; repeat destruct H as [H|H]; try discriminate H;
           destruct H).
    split; [intros _; repeat split | intros _; now left].
  - cbn [main]. destruct (input_exists w); cbn [negb].
    2:{ cbn. split; [intros [H|[]]; discriminate | intros [H _]; discriminate]. }
    rewrite import_lines.
    destruct (target_exists w), (remove_error w) as [e0|],
      (connect_error w) as [e|], (open_error w) as [e'|],
      (transfer_error w) as [e''|], (commit_error w) as [e3|];
      try (split;
           [|intros (_ & H0 & H1 & H2 & H3 & H4);
             first [discriminate | specialize (H0 eq_refl); discriminate]];
           destruct (is_sqlite_error _); cbn;
           intros H; repeat destruct H as [H|H]; try discriminate H;
           destruct H);
      (split; [intros _; repeat split; first [reflexivity | discriminate]
              | intros _; cbn; auto]).
  - intros c l Hin Herr text Hinfo.
    destruct (dump_lines_shape c w) as (pre & last & Hout & Hpre & Hlast).
    rewrite Hout in Hin, Hinfo. clear Hout.
    apply in_app_or in Hin, Hinfo.
    assert (Hp : forall l', In l' pre -> l' = Warning_overwrite)
      by (destruct Hpre as [->| ->]; [intros l' [] | intros l' [<-|[]]];
          reflexivity).
    destruct Hin as [Hin|Hin]; [apply Hp in Hin; subst l; discriminate|].
    destruct Hinfo as [Hinfo|Hinfo]; [apply Hp in Hinfo; discriminate|].
    destruct Hlast as [->|[(t & ->)|(l' & -> & Hl')]].
    + destruct Hin.
    + destruct Hin as [<-|[]]. discriminate.
    + destruct Hinfo as [->|[]]. discriminate.
Qed.

(** X16.  When [sqlite3.connect] raises (or, on import, [os.remove]), the
    [finally] clause reads [conn] before it was ever bound: the dump
    utility ends with an uncaught [UnboundLocalError], also when the
    exception was an [sqlite3.Error] whose message the handler has
    printed. *)
Theorem dump_unbound_connection (w : world) :
  input_exists w = true ->
  (connect_error w <> None ->
   snd (main Export w) = Uncaught UnboundLocalError)
  /\ (connect_error w <> None \/
      (target_exists w = true /\ remove_error w <> None) ->
      snd (main Import w) = Uncaught UnboundLocalError)
  /\ (forall e, connect_error w = Some e -> is_sqlite_error e = true ->
      fst (main Export w) = [Error_exporting e]).
Proof.
  intros Hin. cbn [main]. rewrite Hin. cbn [negb]. split; [|split].
  - intros Hc. unfold export_sqlite_to_sql_dump, try_except_finally.
    destruct (connect_error w) as [e|]; [|contradiction].
    cbn [attempt bind succeeds]. destruct (is_sqlite_error e); reflexivity.
  - intros Hc. unfold import_sql_dump_to_sqlite, try_except_finally.
    destruct (target_exists w), (remove_error w) as [e0|],
      (connect_error w) as [e|];
      try (destruct Hc as [Hc|[Hc1 Hc2]]; congruence);
      cbn [attempt bind succeeds];
      try (destruct (is_sqlite_error _); reflexivity).
  - intros e Hc He. rewrite export_lines, Hc, He. reflexivity.
Qed.

End DumpMore.

Lemma dump_unbound_connection_witness :
  Dump.input_exists Sample.refused_connection = true /\
  Dump.main Dump.Export Sample.refused_connection
  = ([Log.Error_exporting Py.SqliteError],
     Py.Uncaught Py.UnboundLocalError).
Proof.
  split; [reflexivity|].
  destruct (dump_unbound_connection Sample.refused_connection eq_refl)
    as (Hexport & _ & Hline).
  rewrite (surjective_pairing (Dump.main Dump.Export _)).
  rewrite (Hline Py.SqliteError eq_refl eq_refl).
  rewrite Hexport; [reflexivity | discriminate].
Defined.

(** ** The schema inspector *)

Section SchemaFacts.
Import Py Schema.

(** X17.  How the schema inspector ends.  It returns only for one argument
    naming an existing file, when connecting and closing succeed, and then
    the last lines printed are the separator "SCHEMA INSPECTION COMPLETE".
    It exits with status 1 behind a last line that is the usage or the
    missing-file message, "SQLite error" for an [sqlite3.Error], or "Error"
    for another exception.  It ends with an uncaught exception only when
    [sqlite3.connect] raised, with [UnboundLocalError] from the [finally]
    clause, or when [close] raised. *)
Theorem schema_main_outcome (argv : list string) (w : world) :
  match snd (main argv w) with
  | Done _ =>
      List.length argv = 2%nat /\ path_exists w = true /\
      connect_error w = None /\ cursor_error w = None /\
      close_error w = None /\
      exists before,
        fst (main argv w)
        = before ++ print_separator "SCHEMA INSPECTION COMPLETE" "="
  | Exit code =>
      code = 1%Z /\
      exists before l,
        fst (main argv w) = before ++ [l] /\
        match l with
        | Sqlite_error e => is_sqlite_error e = true
        | Other_error e => is_sqlite_error e = false
        | Text _ => List.length argv <> 2%nat \/ path_exists w = false
        | _ => False
        end
  | Uncaught e =>
      List.length argv = 2%nat /\ path_exists w = true /\
      ((connect_error w <> None /\ e = UnboundLocalError) \/
       (connect_error w = None /\ close_error w = Some e))
  end.
Proof.
  unfold main.
  destruct argv as [|script [|db_path [|extra argv]]];
    try (cbn; split; [reflexivity|];
         eexists [_; _; _], _; split; [reflexivity|]; left; discriminate).
  unfold inspect_database.
  destruct (path_exists w); cbn [negb].
  2:{ cbn. split; [reflexivity|]. exists [], (Text
        ("Error: Database file '" ++ db_path ++ "' does not exist.")).
      split; [reflexivity | now right]. }
  destruct (inspection w db_path) as [out [[]|e]] eqn:Hi.
  - destruct (inspection_ok _ _ _ _ Hi) as (Hc & Hcur & before & ->).
    rewrite Hc. destruct (close_error w) as [e'|]; cbn [fst snd].
    + repeat split. right. now split.
    + repeat split; try assumption. now exists before.
  - assert (Hexit :
      (let '(out', pending) :=
         if is_sqlite_error e then (out ++ [Sqlite_error e], Exit 1%Z)
         else (out ++ [Other_error e], @Exit unit 1%Z) in
       match connect_error w with
       | Some _ => (out', Uncaught UnboundLocalError)
       | None =>
           match close_error w with
           | Some e' => (out', Uncaught e')
           | None => (out', pending)
           end
       end)
      = (out ++ [if is_sqlite_error e then Sqlite_error e
                 else Other_error e],
         match connect_error w with
         | Some _ => Uncaught UnboundLocalError
         | None =>
             match close_error w with
             | Some e' => Uncaught e'
             | None => Exit 1%Z
             end
         end)).
    { destruct (is_sqlite_error e), (connect_error w), (close_error w);
        reflexivity. }
    rewrite Hexit. cbn [fst snd].
    destruct (connect_error w) as [ec|].
    + repeat split. left. split; [discriminate | reflexivity].
    + destruct (close_error w) as [e'|].
      * repeat split. right. now split.
      * split; [reflexivity|]. eexists out, _. split; [reflexivity|].
        destruct (is_sqlite_error e) eqn:He; exact He.
Qed.

Lemma length_times (char : ascii) (n : nat) :
  String.length (times char n) = n.
Proof. induction n; cbn; congruence. Qed.

Lemma length_append (s t : string) :
  String.length (s ++ t) = (String.length s + String.length t)%nat.
Proof. induction s; cbn; congruence. Qed.

Lemma append_empty (s : string) : (s ++ "")%string = s.
Proof. induction s; cbn; congruence. Qed.

(** X18.  [print_separator] prints three lines: a blank line and 80 fill
    characters, the title line, 80 fill characters.  For a title of at most
    78 characters the title line is 80 characters wide, the title between
    two spaces with the fill on its left at most one character shorter
    than on its right, never longer; a longer title is printed between its
    two spaces without fill. *)
Theorem print_separator_shape (title : string) (char : ascii) :
  exists middle,
    print_separator title char
    = [Text (newline ++ times char 80); Text middle; Text (times char 80)]
    /\ String.length middle = Nat.max 80 (String.length title + 2)
    /\ ((String.length title <= 78)%nat ->
        exists left right,
          middle = (times char left ++ (" " ++ title ++ " ")
                    ++ times char right)%string /\
          (left <= right <= left + 1)%nat)
    /\ ((78 <= String.length title)%nat ->
        middle = (" " ++ title ++ " ")%string).
Proof.
  unfold print_separator. eexists. split; [reflexivity|].
  unfold center.
  assert (Hlen : String.length (" " ++ title ++ " ")
                 = (String.length title + 2)%nat).
  { cbn [append String.length]. rewrite length_append. cbn. lia. }
  rewrite Hlen. change (Nat.odd 80) with false. rewrite andb_false_r.
  rewrite Nat.add_0_r.
  destruct (Nat.leb_spec 80 (String.length title + 2)) as [Hwide|Hfits].
  - split; [rewrite Hlen; lia|]. split; [|reflexivity].
    intros Hle. exists 0%nat, 0%nat. cbn [times].
    rewrite append_empty. split; [reflexivity | lia].
  - set (marg := (80 - (String.length title + 2))%nat).
    assert (Hhalf : (2 * (marg / 2) <= marg < 2 * (marg / 2) + 2)%nat).
    { pose proof (Nat.div_mod_eq marg 2).
      pose proof (Nat.mod_upper_bound marg 2). lia. }
    split; [|split; [|lia]].
    + rewrite !length_append, !length_times. cbn [String.length]. lia.
    + intros _. exists (marg / 2)%nat, (marg - marg / 2)%nat.
      split; [reflexivity | lia].
Qed.

End SchemaFacts.

Section SchemaTables.
Import Py Schema.

(** X19.  When the schema inspector ends normally, its output names the
    number of tables and shows every table of the database: the item
    "  - name", the three lines of its separator, and the text of its
    CREATE statement when that is neither NULL nor empty. *)
Theorem schema_shows_every_table (argv : list string) (w : world)
  (tables : list string) (table : string) :
  snd (main argv w) = Done tt ->
  table_names w = Ok tables ->
  In table tables ->
  In (Found (List.length tables) "table(s)") (fst (main argv w)) /\
  In (Text ("  - " ++ table)) (fst (main argv w)) /\
  (forall l, In l (print_separator ("TABLE: " ++ table) "-") ->
             In l (fst (main argv w))) /\
  exists schema,
    table_sql w table = Ok schema /\
    (some_text schema = true ->
     In (Text (text_of schema)) (fst (main argv w))).
Proof.
  intros Hdone Hnames Hin.
  assert (Hrun : exists db_path,
            inspection w db_path = (fst (main argv w), Ok tt)).
  { unfold main in *.
    destruct argv as [|script [|db_path [|extra argv]]]; try discriminate.
    exists db_path. unfold inspect_database in *.
    destruct (path_exists w); [|discriminate]. cbn [negb] in *.
    destruct (inspection w db_path) as [out [[]|e]].
    - destruct (connect_error w); [discriminate|].
      destruct (close_error w); [discriminate | reflexivity].
    - destruct (is_sqlite_error e), (connect_error w), (close_error w);
        discriminate. }
  destruct Hrun as [db_path Hrun].
  destruct (fst (main argv w)) as [|l0 out0] eqn:Hout;
    [apply inspection_ok in Hrun; destruct Hrun as (_ & _ & b & Hb);
     destruct b; discriminate|].
  rewrite <- Hout in *. clear Hout l0 out0.
  set (out := fst (main argv w)) in *. clearbody out.
  unfold inspection in Hrun.
  apply andthen_ok in Hrun. destruct Hrun as (o1 & [] & r1 & _ & H & ->).
  apply andthen_ok in H. destruct H as (o2 & [] & r2 & _ & H & ->).
  apply andthen_ok in H. destruct H as (o3 & [] & r3 & _ & H & ->).
  apply andthen_ok in H. destruct H as (o4 & [] & r4 & Ht & _ & ->).
  assert (Hmid : forall l, In l o4 -> In l (o1 ++ o2 ++ o3 ++ o4 ++ r4)).
  { intros l Hl. apply in_or_app; right. apply in_or_app; right.
    apply in_or_app; right. apply in_or_app. now left. }
  unfold print_tables_schema in Ht. rewrite Hnames in Ht.
  cbn [ask andthen] in Ht.
  destruct tables as [|t0 rest]; [destruct Hin|].
  set (all := t0 :: rest) in *.
  destruct (andthen (say (print_separator "TABLES" "=")) _)
    as [o r] eqn:Hbody.
  cbn [app] in Ht. injection Ht as -> ->.
  apply andthen_ok in Hbody.
  destruct Hbody as (p1 & [] & q1 & _ & H & ->).
  apply andthen_ok in H. destruct H as (p2 & [] & q2 & Hfound & H & ->).
  apply andthen_ok in H. destruct H as (p3 & [] & q3 & Hitems & H & ->).
  injection Hfound as <-. injection Hitems as <-.
  destruct (print_each_table_shows _ _ _ _ H table Hin)
    as (Hsep & schema & Hsql & Hshown).
  split; [|split; [|split]].
  - apply Hmid. apply in_or_app; right. apply in_or_app; left. now left.
  - apply Hmid. apply in_or_app; right. apply in_or_app; right.
    apply in_or_app; left.
    exact (in_map (fun name => Text ("  - " ++ name)) all table Hin).
  - intros l Hl. apply Hmid. apply in_or_app; right. apply in_or_app; right.
    apply in_or_app; right. now apply Hsep.
  - exists schema. split; [exact Hsql|]. intros Hs.
    apply Hmid. apply in_or_app; right. apply in_or_app; right.
    apply in_or_app; right. now apply Hshown.
Qed.

End SchemaTables.

Lemma schema_shows_every_table_witness :
  snd (Schema.main ["sqlite_schema.py"; "stars.sqlite3"]%string
         Sample.one_table_db) = Py.Done tt /\
  In (Schema.Text "  - stars")
     (fst (Schema.main ["sqlite_schema.py"; "stars.sqlite3"]%string
             Sample.one_table_db)) /\
  In (Schema.Text "CREATE TABLE stars (id INTEGER)")
     (fst (Schema.main ["sqlite_schema.py"; "stars.sqlite3"]%string
             Sample.one_table_db)).
Proof.
  assert (Hdone : snd (Schema.main ["sqlite_schema.py"; "stars.sqlite3"]%string
                         Sample.one_table_db) = Py.Done tt)
    by (vm_compute; reflexivity).
  split; [exact Hdone|].
  destruct (schema_shows_every_table
              ["sqlite_schema.py"; "stars.sqlite3"]%string
              Sample.one_table_db ["stars"%string] "stars"%string
              Hdone eq_refl (or_introl eq_refl))
    as (_ & Hitem & _ & schema & Hsql & Hshown).
  split; [exact Hitem|].
  injection Hsql as <-. exact (Hshown eq_refl).
Defined.
